(** * Hedera DEX agent: the pool-discovery path of the two plugins

    The repository carries two versions of the SaucerSwap plugin:

    - [src/plugin.ts], the agent's own plugin with the action
      [FETCH_ALL_POOLS] (module [AgentPlugin] below);
    - [plugin-hedera-dex/src/plugin.ts], the packaged plugin with the
      actions [LIST_POOLS] and [GET_POOL_INFO] (module [DexPlugin]).

    Both decode the factory contract's event logs into pool records and
    look the two tokens of each pool up on the mirror node.  This file
    embeds that path of both plugins and states the properties the
    specification gives for it.

    Conventions of the embedding.

    - A JavaScript string is a [string]; its characters stand for code
      units below 256.
    - A JavaScript number is [NaN] or [Num z] for an integer [z].  The
      code only produces integers on this path, and a double holds every
      integer of magnitude below 2^53 exactly; beyond that bound the
      model keeps the mathematical integer where JavaScript rounds.  The
      one division of the path, the fee tier, is done on IEEE doubles
      with the Standard Library's [SpecFloat].
    - [await axios.get(url)] asks an oracle that sees the list of the
      requests made so far; the list is threaded through as state, so
      the number of network calls of a run can be read off.
    - An exception is a value [Throw msg]; [try]/[catch] is [try_catch].
      The messages of the built-in errors, and the text of a built-in
      function in a template literal, are those of V8.

    The helpers of [saucerswap-abi.ts] that build the addresses and the
    path of a swap are embedded in the module [SaucerSwapAbi]. *)

From Stdlib Require Import ZArith List Bool Lia Ascii String.
From Stdlib Require Import DecimalString DecimalPos DecimalZ.
From Stdlib Require Import Floats.SpecFloat.
From Stdlib Require Import Sorting.Sorted.
Import ListNotations.

Local Open Scope string_scope.
Local Open Scope Z_scope.

(* ================================================================= *)
(** ** JavaScript built-ins used by the plugins *)

Module Js.

(** A number, see the conventions above. *)
Inductive jsnum : Type :=
| NaN
| Num (z : Z).

(** [a === b] on numbers: [NaN] equals nothing. *)
Definition num_eqb (a : jsnum) (b : Z) : bool :=
  match a with
  | NaN => false
  | Num z => z =? b
  end.

(** [a > b] on numbers: comparisons with [NaN] are false. *)
Definition num_gtb (a : jsnum) (b : Z) : bool :=
  match a with
  | NaN => false
  | Num z => b <? z
  end.

(** [a + b]. *)
Definition num_add (a b : jsnum) : jsnum :=
  match a, b with
  | Num x, Num y => Num (x + y)
  | _, _ => NaN
  end.

(** [Math.abs]. *)
Definition num_abs (a : jsnum) : jsnum :=
  match a with
  | NaN => NaN
  | Num z => Num (Z.abs z)
  end.

(** Decimal digits of an integer, with a leading [-] when negative. *)
Definition Z_to_string (z : Z) : string :=
  NilZero.string_of_int (Z.to_int z).

(** [String(n)], as a template literal does it.  Every digit is
    printed, which is what the code does for an integer below [2^53] in
    size; the statements that depend on a printed number bound it so. *)
Definition number_toString (n : jsnum) : string :=
  match n with
  | NaN => "NaN"
  | Num z => Z_to_string z
  end.

(** *** Strings *)

(** A double quote, for the messages that hold one. *)
Definition dquote : string := String (ascii_of_nat 34) EmptyString.

Fixpoint drop (n : nat) (s : string) : string :=
  match n, s with
  | O, _ => s
  | S n', String _ r => drop n' r
  | S _, EmptyString => EmptyString
  end.

Fixpoint take (n : nat) (s : string) : string :=
  match n, s with
  | S n', String c r => String c (take n' r)
  | _, _ => EmptyString
  end.

(** [s.slice(-n)]: the last [n] characters, all of [s] when it is shorter. *)
Definition slice_last (n : nat) (s : string) : string :=
  drop (String.length s - n) s.

(** [s.slice(i, j)] for [0 <= i <= j]. *)
Definition slice (i j : nat) (s : string) : string :=
  take (j - i) (drop i s).

(** [s.replace(pat, rep)] with a string pattern: the first occurrence
    only ([rep] holds no [$] pattern on this path). *)
Fixpoint replace (pat rep s : string) : string :=
  if String.prefix pat s then rep ++ drop (String.length pat) s
  else match s with
       | EmptyString => EmptyString
       | String c r => String c (replace pat rep r)
       end.

(** [s.includes(sub)]. *)
Fixpoint includes (sub s : string) : bool :=
  if String.prefix sub s then true
  else match s with
       | EmptyString => false
       | String _ r => includes sub r
       end.

(** [s.split(sep)] for a separator of one character. *)
Fixpoint split (sep : ascii) (s : string) : list string :=
  match s with
  | EmptyString => [EmptyString]
  | String c r =>
      if Ascii.eqb c sep then EmptyString :: split sep r
      else match split sep r with
           | [] => [String c EmptyString]
           | x :: xs => String c x :: xs
           end
  end.

(** [c.toUpperCase()] for a string of one code unit.  The letters [a] to
    [z] and the Latin-1 letters 224 to 254 (but the division sign, 247)
    move down by 32, and the sharp s, 223, becomes [SS].  The upper-case
    forms of the code units 181 and 255, U+039C and U+0178, are no 8-bit
    code units: 181 and 255, which no upper-cased string holds
    otherwise, stand for them, so that two upper-cased strings are equal
    here exactly when they are equal in the code. *)
Definition upper_char (c : ascii) : string :=
  let n := nat_of_ascii c in
  if (((97 <=? n) && (n <=? 122))
      || ((224 <=? n) && (n <=? 254) && negb (n =? 247)))%nat
  then String (ascii_of_nat (n - 32)) EmptyString
  else if (n =? 223)%nat then "SS"
  else String c EmptyString.

(** [s.toUpperCase()]. *)
Fixpoint toUpperCase (s : string) : string :=
  match s with
  | EmptyString => EmptyString
  | String c r => upper_char c ++ toUpperCase r
  end.

(** *** parseInt *)

(** Value of a digit in any radix up to 36. *)
Definition digit_value (c : ascii) : option Z :=
  let n := Z.of_nat (nat_of_ascii c) in
  if (48 <=? n) && (n <=? 57) then Some (n - 48)
  else if (97 <=? n) && (n <=? 122) then Some (n - 87)
  else if (65 <=? n) && (n <=? 90) then Some (n - 55)
  else None.

Definition radix_digit (R : Z) (c : ascii) : option Z :=
  match digit_value c with
  | Some d => if d <? R then Some d else None
  | None => None
  end.

(** White space that [parseInt] skips: TAB, LF, VT, FF, CR, SP, NBSP. *)
Definition is_white (c : ascii) : bool :=
  let n := nat_of_ascii c in
  (((9 <=? n) && (n <=? 13)) || (n =? 32) || (n =? 160))%nat.

Fixpoint trim_start (s : string) : string :=
  match s with
  | String c r => if is_white c then trim_start r else s
  | EmptyString => EmptyString
  end.

(** The longest prefix of radix-[R] digits, read as a number; [acc] is
    [None] until a digit has been read. *)
Fixpoint digits_prefix (R : Z) (s : string) (acc : option Z) : option Z :=
  match s with
  | EmptyString => acc
  | String c r =>
      match radix_digit R c with
      | Some d =>
          digits_prefix R r
            (Some (R * match acc with Some a => a | None => 0 end + d))
      | None => acc
      end
  end.

(** [parseInt(input, radix)]; [radix = 0] stands for a missing radix.
    The integer read is kept as it is, which is what the code has while
    it is below [2^53] in size (from there on the code rounds it to a
    double); the statements that depend on the value bound it so. *)
Definition parseInt (input : string) (radix : Z) : jsnum :=
  let s := trim_start input in
  let '(sign, s) :=
    match s with
    | String c r =>
        if Ascii.eqb c "-" then (-1, r)
        else if Ascii.eqb c "+" then (1, r)
        else (1, s)
    | EmptyString => (1, s)
    end in
  if negb (radix =? 0) && ((radix <? 2) || (36 <? radix)) then NaN
  else
    let stripPrefix := (radix =? 0) || (radix =? 16) in
    let R0 := if radix =? 0 then 10 else radix in
    let '(R, s) :=
      match s with
      | String c0 (String c1 r) =>
          if stripPrefix && Ascii.eqb c0 "0"
             && (Ascii.eqb c1 "x" || Ascii.eqb c1 "X")
          then (16, r) else (R0, s)
      | _ => (R0, s)
      end in
    match digits_prefix R s None with
    | None => NaN
    | Some m => Num (sign * m)
    end.

(** *** Values read from JSON, and truthiness *)

(** A property that holds a number or a string, or is missing. *)
Inductive jsval : Type :=
| JUndefined
| JNumber (n : jsnum)
| JString (s : string).

(** [String(v)]. *)
Definition jsval_toString (v : jsval) : string :=
  match v with
  | JUndefined => "undefined"
  | JNumber n => number_toString n
  | JString s => s
  end.

(** [v || d]: [undefined], [NaN], [0] and the empty string are falsy. *)
Definition jsval_or (v d : jsval) : jsval :=
  match v with
  | JUndefined => d
  | JNumber NaN => d
  | JNumber (Num z) => if z =? 0 then d else v
  | JString s => if String.eqb s EmptyString then d else v
  end.

(** A string property: [None] when missing.  [truthy] keeps it when it
    is present and not empty. *)
Definition truthy (o : option string) : option string :=
  match o with
  | Some s => if String.eqb s EmptyString then None else Some s
  | None => None
  end.

(** [o || d] where [d] is a string. *)
Definition str_or (o : option string) (d : string) : string :=
  match truthy o with
  | Some s => s
  | None => d
  end.

(** [String(o)] for a string property. *)
Definition str_toString (o : option string) : string :=
  match o with
  | Some s => s
  | None => "undefined"
  end.

(** *** Doubles: [(n / 10_000.0).toFixed(2)] *)

Definition prec : Z := 53.
Definition emax : Z := 1024.

(** The double nearest to an integer. *)
Definition double_of_Z (z : Z) : spec_float :=
  binary_normalize prec emax z 0 false.

Definition double_of_num (n : jsnum) : spec_float :=
  match n with
  | NaN => S754_nan
  | Num z => double_of_Z z
  end.

Definition two_digits (n : Z) : string :=
  if n <? 10 then "0" ++ Z_to_string n else Z_to_string n.

(** [x.toFixed(2)]: the integer [n] nearest to [100 * |x|], the larger
    one on a tie, printed with two decimals.  [None] from 1e21 on, where
    JavaScript switches to the exponent notation. *)
Definition toFixed2 (x : spec_float) : option string :=
  match x with
  | S754_nan => Some "NaN"
  | S754_infinity s => Some (if s then "-Infinity" else "Infinity")
  | S754_zero _ => Some "0.00"
  | S754_finite s m e =>
      let n := if 0 <=? e then 100 * Z.pos m * 2 ^ e
               else (200 * Z.pos m + 2 ^ (- e)) / 2 ^ (- e + 1) in
      if 10 ^ 23 <=? n then None
      else Some ((if s then "-" else EmptyString)
                   ++ Z_to_string (n / 100) ++ "." ++ two_digits (n mod 100))
  end.

End Js.

Import Js.

(* ================================================================= *)
(** ** Data model (the interfaces both plugins declare) *)

(** [ApiToken].  Of its fields the model keeps those the decoding path
    computes; the fields both plugins fill with constants or with
    floating-point values ([priceUsd], the two flags, the listing
    timestamp, [website], [twitterHandle], [sentinelReport], [icon]) are
    left out.  [id], [name] and [symbol] are declared as strings, yet
    src/plugin.ts copies them from the remote payload, where they may be
    missing: hence the options. *)
Module ApiToken.
Record t : Type := mk {
  decimals : jsval;
  id : option string;
  name : option string;
  price : string;
  symbol : option string;
  description : option string
}.
End ApiToken.

(** [ApiLiquidityPoolV2]. *)
Module Pool.
Record t : Type := mk {
  id : nat;
  contractId : string;
  tokenA : ApiToken.t;
  amountA : string;
  tokenB : ApiToken.t;
  amountB : string;
  fee : jsnum;
  sqrtRatioX96 : string;
  tickCurrent : Z;
  liquidity : string
}.
End Pool.

(** An entry of the mirror node's [logs] array. *)
Record RawLog : Type := mkLog {
  topics : option (list string);
  data : option string
}.

(** [response.data] of a mirror-node reply, as the plugins read it: the
    [logs] of a contract-results reply and the properties of a token
    reply.  A property is [None] (or [JUndefined]) when missing. *)
Record Body : Type := mkBody {
  j_logs : option (list RawLog);
  j_decimals : jsval;
  j_name : option string;
  j_symbol : option string;
  j_token_id : option string;
  j_memo : option string
}.

(* ================================================================= *)
(** ** Effects: exceptions and the network *)

Module Eff.

Inductive outcome (A : Type) : Type :=
| Ok (a : A)
| Throw (msg : string).
Arguments Ok {A} a.
Arguments Throw {A} msg.

(** The mirror node: what [axios.get url] gives after the requests of
    [history] were made.  [Throw] is a rejected promise (network error,
    non-success status); [Ok None] a reply whose [data] is no object, so
    that reading a property of it is a [TypeError]. *)
Record World : Type := mkWorld {
  reply : list string -> string -> outcome (option Body)
}.

(** A computation reads the world, extends the list of requests made
    and returns or throws. *)
Definition M (A : Type) : Type :=
  World -> list string -> outcome A * list string.

Definition ret {A} (a : A) : M A := fun _ tr => (Ok a, tr).

Definition throw {A} (msg : string) : M A := fun _ tr => (Throw msg, tr).

Definition bind {A B} (m : M A) (k : A -> M B) : M B :=
  fun w tr =>
    match m w tr with
    | (Ok a, tr') => k a w tr'
    | (Throw e, tr') => (Throw e, tr')
    end.

(** [try { body } catch (e) { handler e }]. *)
Definition try_catch {A} (body : M A) (handler : string -> M A) : M A :=
  fun w tr =>
    match body w tr with
    | (Ok a, tr') => (Ok a, tr')
    | (Throw e, tr') => handler e w tr'
    end.

(** [await axios.get(url)], giving [response.data]. *)
Definition axios_get (url : string) : M (option Body) :=
  fun w tr => (reply w tr url, (tr ++ [url])%list).

(** Reading the property [property] of [response.data]; the message of
    the [TypeError] is the one of V8. *)
Definition the_object (property : string) (d : option Body) : M Body :=
  match d with
  | Some b => ret b
  | None =>
      throw ("Cannot read properties of undefined (reading '"
               ++ property ++ "')")
  end.

(** A pure step that may throw, inside a computation. *)
Definition lift {A} (o : outcome A) : M A := fun _ tr => (o, tr).

(** [for (const x of xs) { s = body s x }]. *)
Fixpoint for_of {A S} (body : S -> A -> M S) (xs : list A) (s : S) : M S :=
  match xs with
  | [] => ret s
  | x :: r => bind (body s x) (for_of body r)
  end.

End Eff.

Import Eff.

Notation "x <- m ;; k" := (bind m (fun x => k))
  (at level 61, m at next level, right associativity).
Notation "' pat <- m ;; k" := (bind m (fun x => match x with pat => k end))
  (at level 61, pat pattern, m at next level, right associativity).

(** The handler's [callback] argument. *)
Inductive Callback : Type :=
| NoCallback
| CallbackReturns
| CallbackThrows (msg : string).

(** [runtime.getSetting]. *)
Record Settings : Type := mkSettings {
  HEDERA_NETWORK : option string;
  HEDERA_MIRROR_NODE_URL : option string;
  DEMO_MODE : option string
}.

(** An [ActionResult]: [values.poolCount], [data.pools] and
    [data.dataSource] on success; [values.error] and [data.error]
    otherwise.  The chat text handed to the callback is rendered from the
    same pools; of it the model keeps the fee tier, as [feeTier]. *)
Inductive ActionResult : Type :=
| Succeeded (text : string) (poolCount : nat) (pools : list Pool.t)
    (dataSource : string)
| Failed (text : string) (error : string) (message : string).

(** [(pool.fee / 10_000.0).toFixed(2)], the same in every handler. *)
Definition feeTier (fee : jsnum) : option string :=
  toFixed2 (SFdiv prec emax (double_of_num fee) (double_of_Z 10000)).

Definition nat_toString (n : nat) : string := Z_to_string (Z.of_nat n).

Definition POOL_CREATED_TOPIC : string :=
  "0x783cca1c0412dd0d695e784568c96da2e9c22ff989357a2e8b1d9b2b4e6b7118".

(* ================================================================= *)
(** ** plugin-hedera-dex/src/plugin.ts *)

Module DexPlugin.

(** [CONTRACT_ADDRESSES[network]]: factory and mirror node. *)
Definition CONTRACT_ADDRESSES (network : string) : option (string * string) :=
  if String.eqb network "mainnet"
  then Some ("0.0.3946833", "https://mainnet-public.mirrornode.hedera.com")
  else if String.eqb network "testnet"
  then Some ("0.0.1197038", "https://testnet.mirrornode.hedera.com")
  else None.

(** [hexToHederaId]: the entity number is read from the last 8 hex
    characters; [0.0.0] marks a number that is 0 or above 100000000. *)
Definition hexToHederaId (hex : string) : string :=
  let cleanHex := replace "0x" EmptyString hex in
  let entityHex := slice_last 8 cleanHex in
  let entityNum := parseInt entityHex 16 in
  if num_eqb entityNum 0 || num_gtb entityNum 100000000 then "0.0.0"
  else "0.0." ++ number_toString entityNum.

(** [id.split('.')[2]], handed to [parseInt] without a radix. *)
Definition entity_of_id (tokenId : string) : jsnum :=
  parseInt (str_toString (nth_error (split "." tokenId) 2)) 0.

(** [extractPoolContractId]: the event data is not read; the id is made
    of the sum of the two entity numbers.  Nothing in the [try] block
    throws on strings, so its [catch] branch is never taken. *)
Definition extractPoolContractId (eventData : option string)
    (token0Id token1Id : string) : string :=
  let token0Num := entity_of_id token0Id in
  let token1Num := entity_of_id token1Id in
  let syntheticPoolNum :=
    num_abs (num_add (num_add token0Num token1Num) (Num 1000000)) in
  "0.0." ++ number_toString syntheticPoolNum.

(** [fetchTokenInfo]: one request; any failure gives [null]. *)
Definition fetchTokenInfo (tokenId mirrorNodeUrl : string)
  : M (option ApiToken.t) :=
  try_catch
    (d <- axios_get (mirrorNodeUrl ++ "/api/v1/tokens/" ++ tokenId) ;;
     token <- the_object "decimals" d ;;
     ret (Some {| ApiToken.decimals := jsval_or (j_decimals token) (JNumber (Num 8));
                  ApiToken.id := Some tokenId;
                  ApiToken.name := Some (str_or (j_name token) "Unknown Token");
                  ApiToken.price := "0";
                  ApiToken.symbol := Some (str_or (j_symbol token) "UNKNOWN");
                  ApiToken.description := None |}))
    (fun _ => ret None).

(** The body of the loop of [parsePoolCreationEvents] for one entry;
    [pools] is the array built so far.  The first [match] and the test
    of [t] are the guard [log.topics && log.topics[0] ===
    POOL_CREATED_TOPIC && log.topics.length >= 4]. *)
Definition parse_log (mirrorNodeUrl : string) (pools : list Pool.t)
    (log : RawLog) : M (list Pool.t) :=
  match topics log with
  | Some (t :: topic1 :: topic2 :: topic3 :: _) =>
      if String.eqb t POOL_CREATED_TOPIC then
        try_catch
          (let token0Id := hexToHederaId topic1 in
           let token1Id := hexToHederaId topic2 in
           let fee := parseInt topic3 16 in
           let poolId := extractPoolContractId (data log) token0Id token1Id in
           if String.eqb token0Id "0.0.0" || String.eqb token1Id "0.0.0"
              || String.eqb poolId "0.0.0"
           then ret pools
           else
             tokenA <- fetchTokenInfo token0Id mirrorNodeUrl ;;
             tokenB <- fetchTokenInfo token1Id mirrorNodeUrl ;;
             match tokenA, tokenB with
             | Some a, Some b =>
                 ret (pools ++
                        [ {| Pool.id := (List.length pools + 1)%nat;
                             Pool.contractId := poolId;
                             Pool.tokenA := a;
                             Pool.amountA := "0";
                             Pool.tokenB := b;
                             Pool.amountB := "0";
                             Pool.fee := fee;
                             Pool.sqrtRatioX96 := "79228162514264337593543950336";
                             Pool.tickCurrent := 0;
                             Pool.liquidity := "Available" |} ])%list
             | _, _ => ret pools
             end)
          (fun _ => ret pools)
      else ret pools
  | _ => ret pools
  end.

Definition parsePoolCreationEvents (logs : list RawLog)
    (mirrorNodeUrl : string) : M (list Pool.t) :=
  for_of (parse_log mirrorNodeUrl) logs [].

(** The settings both handlers read first. *)
Definition configuration (runtime : Settings) : M (string * string * string) :=
  let network := str_or (HEDERA_NETWORK runtime) "mainnet" in
  match
    match truthy (HEDERA_MIRROR_NODE_URL runtime) with
    | Some u => Some u
    | None => option_map snd (CONTRACT_ADDRESSES network)
    end
  with
  | None => throw ("Unsupported network: " ++ network)
  | Some mirrorNodeUrl =>
      match CONTRACT_ADDRESSES network with
      | None => throw ("Factory contract not found for network: " ++ network)
      | Some (factoryContract, _) =>
          ret (network, mirrorNodeUrl, factoryContract)
      end
  end.

Definition call (callback : Callback) : M unit :=
  match callback with
  | NoCallback => ret tt
  | CallbackReturns => ret tt
  | CallbackThrows msg => throw msg
  end.

(** [listPoolsAction.handler]. *)
Definition listPoolsAction (runtime : Settings) (callback : Callback)
  : M ActionResult :=
  try_catch
    ('(network, mirrorNodeUrl, factoryContract) <- configuration runtime ;;
     '(pools, dataSource) <-
       try_catch
         (d <- axios_get (mirrorNodeUrl ++ "/api/v1/contracts/"
                            ++ factoryContract ++ "/results/logs?limit=100") ;;
          b <- the_object "logs" d ;;
          let logs := match j_logs b with Some l => l | None => [] end in
          pools <- parsePoolCreationEvents logs mirrorNodeUrl ;;
          if (List.length pools =? 0)%nat
          then throw "No pools found in contract events"
          else ret (pools,
                    "Hedera Mirror Node (" ++ mirrorNodeUrl ++ ") - "
                      ++ nat_toString (List.length pools)
                      ++ " pools from contract events"))
         (fun error => throw error) ;;
     _ <- call callback ;;
     ret (Succeeded
            ("Successfully fetched " ++ nat_toString (List.length pools)
               ++ " pools from SaucerSwap")
            (List.length pools) (firstn 20 pools) dataSource))
    (fun errorMessage =>
       ret (Failed ("Failed to fetch pools from SaucerSwap: " ++ errorMessage)
              "FETCH_POOLS_FAILED" errorMessage)).

(** What [getPoolInfoAction] gets out of [message.content.text] with its
    two regular expressions: no text, no pair, or the two symbols. *)
Inductive PairRequest : Type :=
| NoText
| NoTokenPair
| TokenPair (token0Symbol token1Symbol : string).

(** [token.symbol.toUpperCase()]. *)
Definition symbol_upper (token : ApiToken.t) : outcome string :=
  match ApiToken.symbol token with
  | Some s => Ok (toUpperCase s)
  | None => Throw "Cannot read properties of undefined (reading 'toUpperCase')"
  end.

(** The callback of [allPools.filter]. *)
Definition pool_matches (normalizedToken0 normalizedToken1 : string)
    (pool : Pool.t) : outcome bool :=
  match symbol_upper (Pool.tokenA pool) with
  | Throw e => Throw e
  | Ok poolToken0 =>
      match symbol_upper (Pool.tokenB pool) with
      | Throw e => Throw e
      | Ok poolToken1 =>
          Ok ((String.eqb poolToken0 normalizedToken0
                 && String.eqb poolToken1 normalizedToken1)
              || (String.eqb poolToken0 normalizedToken1
                    && String.eqb poolToken1 normalizedToken0))
      end
  end.

Fixpoint matchingPools (normalizedToken0 normalizedToken1 : string)
    (allPools : list Pool.t) : outcome (list Pool.t) :=
  match allPools with
  | [] => Ok []
  | pool :: rest =>
      match pool_matches normalizedToken0 normalizedToken1 pool with
      | Throw e => Throw e
      | Ok keep =>
          match matchingPools normalizedToken0 normalizedToken1 rest with
          | Throw e => Throw e
          | Ok l => Ok (if keep then pool :: l else l)
          end
      end
  end.

Fixpoint insert_sorted (x : string) (l : list string) : list string :=
  match l with
  | [] => [x]
  | y :: r => if String.leb x y then x :: l else y :: insert_sorted x r
  end.

(** [[...new Set(allPools.flatMap(...))].sort()]: the symbols seen,
    each once, in code-unit order. *)
Definition availableTokens (allPools : list Pool.t) : list string :=
  fold_right insert_sorted []
    (nodup string_dec
       (flat_map (fun p => [str_toString (ApiToken.symbol (Pool.tokenA p));
                            str_toString (ApiToken.symbol (Pool.tokenB p))])
          allPools)).

(** [getPoolInfoAction.handler]. *)
Definition getPoolInfoAction (runtime : Settings) (request : PairRequest)
    (callback : Callback) : M ActionResult :=
  try_catch
    (match request with
     | NoText => throw "No text content found in message"
     | NoTokenPair =>
         throw ("Could not extract token pair from message. Please specify tokens like "
                  ++ dquote ++ "WHBAR/USDC" ++ dquote ++ " or "
                  ++ dquote ++ "WHBAR and USDC" ++ dquote)
     | TokenPair token0Symbol token1Symbol =>
         let normalizedToken0 := toUpperCase token0Symbol in
         let normalizedToken1 := toUpperCase token1Symbol in
         let tokenPair := normalizedToken0 ++ "/" ++ normalizedToken1 in
         '(network, mirrorNodeUrl, factoryContract) <- configuration runtime ;;
         d <- axios_get (mirrorNodeUrl ++ "/api/v1/contracts/"
                           ++ factoryContract ++ "/results/logs?limit=100") ;;
         b <- the_object "logs" d ;;
         let logs := match j_logs b with Some l => l | None => [] end in
         allPools <- parsePoolCreationEvents logs mirrorNodeUrl ;;
         matching <- lift (matchingPools normalizedToken0 normalizedToken1
                             allPools) ;;
         if (List.length matching =? 0)%nat then
           let tokens := availableTokens allPools in
           throw ("No pools found for " ++ tokenPair
                    ++ ". Available tokens: "
                    ++ String.concat ", " (firstn 20 tokens)
                    ++ (if (20 <? List.length tokens)%nat then "..." else EmptyString))
         else
           _ <- call callback ;;
           ret (Succeeded
                  ("Found " ++ nat_toString (List.length matching)
                     ++ " pool(s) for " ++ tokenPair)
                  (List.length matching) matching
                  ("Hedera Mirror Node (" ++ mirrorNodeUrl ++ ")"))
     end)
    (fun errorMessage =>
       ret (Failed ("Failed to get pool information: " ++ errorMessage)
              "GET_POOL_INFO_FAILED" errorMessage)).

End DexPlugin.

(* ================================================================= *)
(** ** src/plugin.ts *)

Module AgentPlugin.

(** [getHederaMirrorNodeUrl]. *)
Definition getHederaMirrorNodeUrl (network : string)
    (baseUrl : option string) : string :=
  match truthy baseUrl with
  | Some u =>
      if negb (String.eqb u "https://mainnet.mirrornode.hedera.com") then u
      else if String.eqb network "testnet"
      then "https://testnet.mirrornode.hedera.com"
      else if String.eqb network "previewnet"
      then "https://previewnet.mirrornode.hedera.com"
      else "https://mainnet.mirrornode.hedera.com"
  | None =>
      if String.eqb network "testnet"
      then "https://testnet.mirrornode.hedera.com"
      else if String.eqb network "previewnet"
      then "https://previewnet.mirrornode.hedera.com"
      else "https://mainnet.mirrornode.hedera.com"
  end.

(** The members every object inherits from [Object.prototype]. *)
Definition Object_prototype_members : list string :=
  ["constructor"; "__defineGetter__"; "__defineSetter__"; "hasOwnProperty";
   "__lookupGetter__"; "__lookupSetter__"; "isPrototypeOf";
   "propertyIsEnumerable"; "toString"; "valueOf"; "__proto__";
   "toLocaleString"].

(** What a template literal makes of an inherited member: the source
    text of a built-in function, as V8 prints it, and [[object Object]]
    for the prototype that [__proto__] gives. *)
Definition inherited_member_text (name : string) : string :=
  if String.eqb name "__proto__" then "[object Object]"
  else "function "
         ++ (if String.eqb name "constructor" then "Object" else name)
         ++ "() { [native code] }".

(** [SAUCERSWAP_V2_FACTORY_CONTRACTS[network]], as the template literal
    of the request prints it; [None] when the value is falsy: the [null]
    of previewnet and the [undefined] of a name that is neither a key of
    the table nor an inherited member.  An inherited member
    ([constructor], [toString], ...) is truthy. *)
Definition SAUCERSWAP_V2_FACTORY_CONTRACTS (network : string)
  : option string :=
  if String.eqb network "mainnet" then Some "0.0.3946833"
  else if String.eqb network "testnet" then Some "0.0.1197038"
  else if String.eqb network "previewnet" then None
  else if existsb (String.eqb network) Object_prototype_members
  then Some (inherited_member_text network)
  else None.

(** [hexToHederaId]: the whole string is parsed. *)
Definition hexToHederaId (hex : string) : string :=
  let decimal := parseInt hex 16 in
  "0.0." ++ number_toString decimal.

(** [fetchTokenInfo]: one request; any failure gives [null]. *)
Definition fetchTokenInfo (tokenId mirrorNodeUrl : string)
  : M (option ApiToken.t) :=
  try_catch
    (d <- axios_get (mirrorNodeUrl ++ "/api/v1/tokens/" ++ tokenId) ;;
     token <- the_object "decimals" d ;;
     ret (Some {| ApiToken.decimals :=
                    JNumber (parseInt (jsval_toString (j_decimals token)) 0);
                  ApiToken.id := j_token_id token;
                  ApiToken.name :=
                    match truthy (j_name token) with
                    | Some n => Some n
                    | None => j_symbol token
                    end;
                  ApiToken.price := "0";
                  ApiToken.symbol := j_symbol token;
                  ApiToken.description :=
                    Some (str_or (j_memo token)
                            (str_toString (j_name token)
                               ++ " token on Hedera")) |}))
    (fun _ => ret None).

(** The body of the loop of [parsePoolCreationEvents] for one entry,
    with the same guard as in the other plugin.  [log.data.slice] is a
    [TypeError] when the entry has no [data]. *)
Definition parse_log (mirrorNodeUrl : string) (pools : list Pool.t)
    (log : RawLog) : M (list Pool.t) :=
  match topics log with
  | Some (t :: topic1 :: topic2 :: topic3 :: _) =>
      if String.eqb t POOL_CREATED_TOPIC then
        try_catch
          (let token0Id := hexToHederaId topic1 in
           let token1Id := hexToHederaId topic2 in
           let fee := parseInt topic3 16 in
           match data log with
           | None =>
               throw "Cannot read properties of undefined (reading 'slice')"
           | Some eventData =>
               let poolAddress := slice 66 106 eventData in
               let poolId := hexToHederaId ("0x" ++ poolAddress) in
               tokenA <- fetchTokenInfo token0Id mirrorNodeUrl ;;
               tokenB <- fetchTokenInfo token1Id mirrorNodeUrl ;;
               match tokenA, tokenB with
               | Some a, Some b =>
                   ret (pools ++
                          [ {| Pool.id := (List.length pools + 1)%nat;
                               Pool.contractId := poolId;
                               Pool.tokenA := a;
                               Pool.amountA := "0";
                               Pool.tokenB := b;
                               Pool.amountB := "0";
                               Pool.fee := fee;
                               Pool.sqrtRatioX96 := "79228162514264337593543950336";
                               Pool.tickCurrent := 0;
                               Pool.liquidity := "0" |} ])%list
               | _, _ => ret pools
               end
           end)
          (fun _ => ret pools)
      else ret pools
  | _ => ret pools
  end.

Definition parsePoolCreationEvents (logs : list RawLog)
    (mirrorNodeUrl : string) : M (list Pool.t) :=
  for_of (parse_log mirrorNodeUrl) logs [].

(** [mockPoolsData], the dataset of the demo mode. *)
Definition mockPoolsData : list Pool.t :=
  [ {| Pool.id := 1;
       Pool.contractId := "0.0.123456";
       Pool.tokenA :=
         {| ApiToken.decimals := JNumber (Num 8);
            ApiToken.id := Some "0.0.456789";
            ApiToken.name := Some "Hedera Hashgraph";
            ApiToken.price := "100000000";
            ApiToken.symbol := Some "HBAR";
            ApiToken.description := Some "Native token of Hedera network" |};
       Pool.amountA := "1000000000000";
       Pool.tokenB :=
         {| ApiToken.decimals := JNumber (Num 6);
            ApiToken.id := Some "0.0.731861";
            ApiToken.name := Some "SaucerSwap";
            ApiToken.price := "36806544";
            ApiToken.symbol := Some "SAUCE";
            ApiToken.description := Some "SaucerSwap governance token" |};
       Pool.amountB := "500000000000";
       Pool.fee := Num 3000;
       Pool.sqrtRatioX96 := "79228162514264337593543950336";
       Pool.tickCurrent := 0;
       Pool.liquidity := "1000000000000000000" |} ].

(** [await callback(responseContent)]: here the callback is called
    without a test, so a missing one is a [TypeError]; its message is
    the one of V8. *)
Definition call (callback : Callback) : M unit :=
  match callback with
  | NoCallback => throw "callback is not a function"
  | CallbackReturns => ret tt
  | CallbackThrows msg => throw msg
  end.

(** [fetchAllPoolsAction.handler]. *)
Definition fetchAllPoolsAction (runtime : Settings) (callback : Callback)
  : M ActionResult :=
  try_catch
    (let network := str_or (HEDERA_NETWORK runtime) "mainnet" in
     let mirrorNodeUrl := HEDERA_MIRROR_NODE_URL runtime in
     let demoMode :=
       match DEMO_MODE runtime with
       | Some v => String.eqb v "true"
       | None => false
       end in
     '(pools, dataSource) <-
       (if demoMode then ret (mockPoolsData, "Demo Mode (Mock Data)")
        else
          let hederaApiUrl := getHederaMirrorNodeUrl network mirrorNodeUrl in
          match SAUCERSWAP_V2_FACTORY_CONTRACTS network with
          | None =>
              ret (mockPoolsData,
                   "Demo Mode (" ++ network ++ " not supported)")
          | Some factoryContract =>
              try_catch
                (d <- axios_get (hederaApiUrl ++ "/api/v1/contracts/"
                                   ++ factoryContract
                                   ++ "/results/logs?limit=20") ;;
                 b <- the_object "logs" d ;;
                 let logs := match j_logs b with Some l => l | None => [] end in
                 pools <- parsePoolCreationEvents logs hederaApiUrl ;;
                 if (List.length pools =? 0)%nat
                 then ret (mockPoolsData,
                           "Hedera Mirror Node (" ++ hederaApiUrl
                             ++ ") - No pools found, using mock data")
                 else ret (pools,
                           "Hedera Mirror Node (" ++ hederaApiUrl ++ ") - "
                             ++ nat_toString (List.length pools)
                             ++ " pools from contract events"))
                (fun _ =>
                   ret (mockPoolsData,
                        "Hedera Mirror Node (" ++ hederaApiUrl
                          ++ ") - Error fetching data, using mock data"))
          end) ;;
     _ <- call callback ;;
     ret (Succeeded
            ("Successfully fetched " ++ nat_toString (List.length pools)
               ++ " pools from SaucerSwap")
            (List.length pools) (firstn 10 pools) dataSource))
    (fun errorMessage =>
       ret (Failed ("Failed to fetch pools from SaucerSwap: " ++ errorMessage)
              "FETCH_POOLS_FAILED" errorMessage)).

End AgentPlugin.

(* ================================================================= *)
(** ** More built-ins: hexadecimal printing, padding, byte arrays *)

Module JsText.

(** The character of a hexadecimal digit, in lower case. *)
Definition hex_digit (d : Z) : ascii :=
  if d <? 10 then ascii_of_nat (48 + Z.to_nat d)
  else ascii_of_nat (87 + Z.to_nat d).

(** The hexadecimal digits of [n >= 0], most significant first; [fuel]
    bounds the number of digits. *)
Fixpoint hex_digits (fuel : nat) (n : Z) : string :=
  match fuel with
  | O => EmptyString
  | S f =>
      if n <? 16 then String (hex_digit n) EmptyString
      else hex_digits f (n / 16) ++ String (hex_digit (n mod 16)) EmptyString
  end.

(** [n.toString(16)] for an integer. *)
Definition Z_toString16 (n : Z) : string :=
  if n <? 0 then "-" ++ hex_digits (S (Z.to_nat (Z.log2 (- n)))) (- n)
  else hex_digits (S (Z.to_nat (Z.log2 n))) n.

Fixpoint repeat_char (n : nat) (c : ascii) : string :=
  match n with
  | O => EmptyString
  | S k => String c (repeat_char k c)
  end.

(** [s.padStart(target, c)] for a filler of one character. *)
Definition padStart (target : nat) (c : ascii) (s : string) : string :=
  repeat_char (target - String.length s) c ++ s.

(** [s.substr(i, n)]. *)
Definition substr (i n : nat) (s : string) : string := take n (drop i s).

(** What a [Uint8Array] keeps of a number written into it. *)
Definition toUint8 (n : jsnum) : Z :=
  match n with
  | NaN => 0
  | Num z => z mod 256
  end.

(** [a[i] = v] on a typed array: a write past the end is ignored. *)
Fixpoint store (i : nat) (v : Z) (a : list Z) : list Z :=
  match a, i with
  | [], _ => []
  | _ :: r, O => v :: r
  | x :: r, S k => x :: store k v r
  end.

End JsText.

Import JsText.

(* ================================================================= *)
(** ** plugin-hedera-dex/src/saucerswap-abi.ts *)

Module SaucerSwapAbi.

(** [FEE_TIERS]. *)
Definition FEE_TIERS_LOW : Z := 500.
Definition FEE_TIERS_MEDIUM : Z := 3000.
Definition FEE_TIERS_HIGH : Z := 10000.

(** [hederaIdToEvmAddress]. *)
Definition hederaIdToEvmAddress (accountId : string) : outcome string :=
  let parts := split "." accountId in
  if negb (List.length parts =? 3)%nat
  then Throw ("Invalid Hedera account ID format: " ++ accountId)
  else
    match parseInt (str_toString (nth_error parts 2)) 0 with
    | NaN => Throw ("Invalid account number in Hedera ID: " ++ accountId)
    | Num accountNum => Ok ("0x" ++ padStart 40 "0" (Z_toString16 accountNum))
    end.

(** [hexToUint8Array]: an array of [cleanHex.length / 2] bytes (the
    length is truncated), filled by the loop over [i = 0, 2, 4, ...],
    here over [k = i / 2]. *)
Definition hexToUint8Array (hex : string) : list Z :=
  let cleanHex := replace "0x" EmptyString hex in
  let n := String.length cleanHex in
  fold_left
    (fun bytes k =>
       store k (toUint8 (parseInt (substr (2 * k) 2 cleanHex) 16)) bytes)
    (seq 0 ((n + 1) / 2))
    (repeat 0 (n / 2)).

(** The loop of [encodeSwapPath]: [tokens] and [fees] from index [i]
    on, [path] as built so far. *)
Fixpoint path_loop (tokens : list string) (fees : list Z) (path : string)
  : outcome string :=
  match tokens with
  | [] => Ok path
  | token :: tokens' =>
      match hederaIdToEvmAddress token with
      | Throw e => Throw e
      | Ok tokenAddress =>
          let path := path ++ drop 2 tokenAddress in
          match fees with
          | fee :: fees' =>
              path_loop tokens' fees'
                (path ++ padStart 6 "0" (Z_toString16 fee))
          | [] => path_loop tokens' [] path
          end
      end
  end.

(** [encodeSwapPath], with integer fees. *)
Definition encodeSwapPath (tokens : list string) (fees : list Z)
  : outcome string :=
  if negb (List.length tokens =? List.length fees + 1)%nat
  then Throw "Invalid path: tokens length must be fees length + 1"
  else
    match path_loop tokens fees EmptyString with
    | Throw e => Throw e
    | Ok path => Ok ("0x" ++ path)
    end.

End SaucerSwapAbi.

(* ================================================================= *)
(** ** src/plugin.ts: the [/pools] route *)

Module AgentRoute.

(** What the route sends: [res.json] with the pools, or status 500 with
    the error.  ([res.json] itself is taken to return.)  The entry of
    the table is held as [SAUCERSWAP_V2_FACTORY_CONTRACTS] gives it:
    [None] when it is falsy. *)
Inductive RouteResponse : Type :=
| Json (network : string) (demoMode : bool) (totalPools : nat)
    (pools : list Pool.t) (dataSource : string) (mirrorNodeUrl : string)
    (factoryContract : option string)
| Status500 (error : string).

(** The handler of the route; [env] is [process.env]. *)
Definition pools_route (env : Settings) : M RouteResponse :=
  try_catch
    (let network := str_or (HEDERA_NETWORK env) "mainnet" in
     let mirrorNodeUrl := HEDERA_MIRROR_NODE_URL env in
     let demoMode :=
       match DEMO_MODE env with
       | Some v => String.eqb v "true"
       | None => false
       end in
     let factoryContract :=
       AgentPlugin.SAUCERSWAP_V2_FACTORY_CONTRACTS network in
     '(pools, dataSource) <-
       (if demoMode
        then ret (AgentPlugin.mockPoolsData, "Demo Mode (Mock Data)")
        else
          let hederaApiUrl :=
            AgentPlugin.getHederaMirrorNodeUrl network mirrorNodeUrl in
          match factoryContract with
          | None =>
              ret (AgentPlugin.mockPoolsData,
                   "Demo Mode (" ++ network ++ " not supported)")
          | Some factory =>
              try_catch
                (d <- axios_get (hederaApiUrl ++ "/api/v1/contracts/"
                                   ++ factory ++ "/results/logs?limit=20") ;;
                 b <- the_object "logs" d ;;
                 let logs := match j_logs b with Some l => l | None => [] end in
                 pools <- AgentPlugin.parsePoolCreationEvents logs
                            hederaApiUrl ;;
                 if (List.length pools =? 0)%nat
                 then ret (AgentPlugin.mockPoolsData,
                           "Hedera Mirror Node (" ++ hederaApiUrl
                             ++ ") - No pools found, using mock data")
                 else ret (pools,
                           "Hedera Mirror Node (" ++ hederaApiUrl ++ ") - "
                             ++ nat_toString (List.length pools)
                             ++ " pools from contract events"))
                (fun _ =>
                   ret (AgentPlugin.mockPoolsData,
                        "Hedera Mirror Node (" ++ hederaApiUrl
                          ++ ") - Error fetching data, using mock data"))
          end) ;;
     ret (Json network
            (demoMode || match factoryContract with
                         | Some _ => false
                         | None => true
                         end)
            (List.length pools) (firstn 20 pools) dataSource
            (AgentPlugin.getHederaMirrorNodeUrl network mirrorNodeUrl)
            factoryContract))
    (fun error => ret (Status500 error)).

End AgentRoute.

(* ================================================================= *)
(** ** Vocabulary of the statements *)

(** Hexadecimal digits and the number a string of them denotes. *)
Definition is_hex (c : ascii) : bool :=
  match radix_digit 16 c with
  | Some _ => true
  | None => false
  end.

Fixpoint all_hex (s : string) : bool :=
  match s with
  | EmptyString => true
  | String c r => is_hex c && all_hex r
  end.

Fixpoint hex_number (acc : Z) (s : string) : Z :=
  match s with
  | EmptyString => acc
  | String c r =>
      hex_number (16 * acc + match digit_value c with Some d => d | None => 0 end) r
  end.

(** A string without its [0x] prefix, when it has one. *)
Definition strip_0x_prefix (s : string) : string :=
  if String.prefix "0x" s then drop 2 s else s.

(** A 32-byte topic: 64 hex digits, with or without the [0x] prefix. *)
Definition is_topic32 (s : string) : bool :=
  (String.length (strip_0x_prefix s) =? 64)%nat
  && all_hex (strip_0x_prefix s).

(** The identifier of an entity number [n], with [0.0.0] for a number
    that is 0 or above 100000000. *)
Definition entity_id (n : Z) : string :=
  if (n =? 0) || (100000000 <? n) then "0.0.0" else "0.0." ++ Z_to_string n.

(** The first topic of an entry and the number of its topics; an entry
    without a [topics] array has none. *)
Definition first_topic (log : RawLog) : option string :=
  match topics log with
  | Some (t :: _) => Some t
  | _ => None
  end.

Definition topic_count (log : RawLog) : nat :=
  match topics log with
  | Some ts => List.length ts
  | None => 0
  end.

(** An entry that is no pool creation: another first topic, or fewer
    than four topics. *)
Definition not_pool_creation (log : RawLog) : Prop :=
  first_topic log <> Some POOL_CREATED_TOPIC \/ (topic_count log < 4)%nat.

(** A pool-creation entry with its three indexed topics. *)
Definition creation_log (topic1 topic2 topic3 : string) (more : list string)
    (eventData : option string) : RawLog :=
  {| topics := Some (POOL_CREATED_TOPIC :: topic1 :: topic2 :: topic3 :: more);
     data := eventData |}.

(** The record [plugin-hedera-dex] pushes for a candidate. *)
Definition dex_record (index : nat) (poolId : string) (a b : ApiToken.t)
    (fee : jsnum) : Pool.t :=
  {| Pool.id := index;
     Pool.contractId := poolId;
     Pool.tokenA := a;
     Pool.amountA := "0";
     Pool.tokenB := b;
     Pool.amountB := "0";
     Pool.fee := fee;
     Pool.sqrtRatioX96 := "79228162514264337593543950336";
     Pool.tickCurrent := 0;
     Pool.liquidity := "Available" |}.

(** The record [src/plugin.ts] pushes for a candidate. *)
Definition agent_record (index : nat) (poolId : string) (a b : ApiToken.t)
    (fee : jsnum) : Pool.t :=
  {| Pool.id := index;
     Pool.contractId := poolId;
     Pool.tokenA := a;
     Pool.amountA := "0";
     Pool.tokenB := b;
     Pool.amountB := "0";
     Pool.fee := fee;
     Pool.sqrtRatioX96 := "79228162514264337593543950336";
     Pool.tickCurrent := 0;
     Pool.liquidity := "0" |}.

(** The two tokens of a record were both returned by [fetch], one call
    after the other. *)
Definition both_fetched
    (fetch : string -> string -> M (option ApiToken.t))
    (mirrorNodeUrl : string) (w : World) (p : Pool.t) : Prop :=
  exists id0 id1 tr0 tr1 tr2,
    fetch id0 mirrorNodeUrl w tr0 = (Ok (Some (Pool.tokenA p)), tr1)
    /\ fetch id1 mirrorNodeUrl w tr1 = (Ok (Some (Pool.tokenB p)), tr2).

(** One of the three identifiers [plugin-hedera-dex] decodes from a
    pool-creation entry is the sentinel. *)
Definition dex_invalid (topic1 topic2 : string) (eventData : option string)
  : bool :=
  String.eqb (DexPlugin.hexToHederaId topic1) "0.0.0"
  || String.eqb (DexPlugin.hexToHederaId topic2) "0.0.0"
  || String.eqb (DexPlugin.extractPoolContractId eventData
                   (DexPlugin.hexToHederaId topic1)
                   (DexPlugin.hexToHederaId topic2)) "0.0.0".

(** Sample data, after the repository's integration tests. *)
Module Sample.

Definition topic_1234 : string :=
  "0x0000000000000000000000000000000000000000000000000000000000001234".
Definition topic_5678 : string :=
  "0x0000000000000000000000000000000000000000000000000000000000005678".
Definition topic_fee_3000 : string :=
  "0x0000000000000000000000000000000000000000000000000000000000000bb8".
Definition event_data : string :=
  "0x000000000000000000000000000000000000000000000000000000000000002000000000000000000000000000000000000000000000000000000000000000409abc123400000000000000000000000000000000000000000000000000000000".

(** A token reply with every property, one with none. *)
Definition whbar : Body :=
  {| j_logs := None; j_decimals := JNumber (Num 8);
     j_name := Some "Wrapped HBAR"; j_symbol := Some "WHBAR";
     j_token_id := Some "0.0.4660"; j_memo := None |}.
Definition bare : Body :=
  {| j_logs := None; j_decimals := JUndefined;
     j_name := None; j_symbol := None;
     j_token_id := None; j_memo := None |}.
Definition only_symbol : Body :=
  {| j_logs := None; j_decimals := JUndefined;
     j_name := None; j_symbol := Some "ABC";
     j_token_id := None; j_memo := None |}.

Definition usdc : Body :=
  {| j_logs := None; j_decimals := JNumber (Num 6);
     j_name := Some "USD Coin"; j_symbol := Some "USDC";
     j_token_id := Some "0.0.22136"; j_memo := None |}.

(** A mirror node that serves [logs] first, and afterwards the token
    the request names: WHBAR for 0.0.4660, USDC for any other. *)
Definition mirror (logs : list RawLog) : World :=
  {| reply := fun history url =>
       match history with
       | [] => Ok (Some {| j_logs := Some logs; j_decimals := JUndefined;
                           j_name := None; j_symbol := None;
                           j_token_id := None; j_memo := None |})
       | _ => if includes "/tokens/0.0.4660" url then Ok (Some whbar)
              else Ok (Some usdc)
       end |}.

(** A mirror node that answers every request with [b]. *)
Definition always (b : Body) : World := {| reply := fun _ _ => Ok (Some b) |}.

(** A mirror node that is down. *)
Definition down : World := {| reply := fun _ _ => Throw "Network error" |}.

(** A mirror node that serves [logs] first and [b] afterwards. *)
Definition serving (logs : list RawLog) (b : Body) : World :=
  {| reply := fun history _ =>
       match history with
       | [] => Ok (Some {| j_logs := Some logs; j_decimals := JUndefined;
                           j_name := None; j_symbol := None;
                           j_token_id := None; j_memo := None |})
       | _ => Ok (Some b)
       end |}.

Definition testnet : Settings :=
  {| HEDERA_NETWORK := Some "testnet";
     HEDERA_MIRROR_NODE_URL := Some "https://testnet.mirrornode.hedera.com";
     DEMO_MODE := None |}.

Definition testnet_demo : Settings :=
  {| HEDERA_NETWORK := Some "testnet";
     HEDERA_MIRROR_NODE_URL := Some "https://testnet.mirrornode.hedera.com";
     DEMO_MODE := Some "true" |}.

End Sample.

(** A topic holding the entity number of one hex digit [d]. *)
Definition small_topic (d : string) : string :=
  "0x000000000000000000000000000000000000000000000000000000000000000" ++ d.

(** The live path both handlers of [plugin-hedera-dex] start with: the
    settings, the request for the logs and the decoding. *)
Definition decoded_pools (runtime : Settings) : M (string * list Pool.t) :=
  '(network, mirrorNodeUrl, factoryContract) <- DexPlugin.configuration runtime ;;
  d <- axios_get (mirrorNodeUrl ++ "/api/v1/contracts/" ++ factoryContract
                    ++ "/results/logs?limit=100") ;;
  b <- the_object "logs" d ;;
  allPools <- DexPlugin.parsePoolCreationEvents
                (match j_logs b with Some l => l | None => [] end)
                mirrorNodeUrl ;;
  ret (mirrorNodeUrl, allPools).

(** The pools of a result, when it has some. *)
Definition result_pools (r : outcome ActionResult) : option (list Pool.t) :=
  match r with
  | Ok (Succeeded _ _ pools _) => Some pools
  | _ => None
  end.

(** Two lists of strings hold the same elements. *)
Definition subset_b (l1 l2 : list string) : bool :=
  forallb (fun x => existsb (String.eqb x) l2) l1.

Definition same_set_b (l1 l2 : list string) : bool :=
  subset_b l1 l2 && subset_b l2 l1.

(** The two symbols of a record, upper-cased, are as a set the two
    requested symbols, upper-cased. *)
Definition is_requested_pair (symbolA symbolB : string) (p : Pool.t) : bool :=
  match ApiToken.symbol (Pool.tokenA p), ApiToken.symbol (Pool.tokenB p) with
  | Some a, Some b =>
      same_set_b [toUpperCase a; toUpperCase b]
        [toUpperCase symbolA; toUpperCase symbolB]
  | _, _ => false
  end.

(** Both tokens of a record have a symbol. *)
Definition has_symbols (p : Pool.t) : Prop :=
  ApiToken.symbol (Pool.tokenA p) <> None
  /\ ApiToken.symbol (Pool.tokenB p) <> None.

(** The settings with another value of [DEMO_MODE]. *)
Definition with_demo_mode (v : option string) (runtime : Settings) : Settings :=
  {| HEDERA_NETWORK := HEDERA_NETWORK runtime;
     HEDERA_MIRROR_NODE_URL := HEDERA_MIRROR_NODE_URL runtime;
     DEMO_MODE := v |}.

(** [DEMO_MODE] is the string [true]. *)
Definition demo_mode_on (runtime : Settings) : bool :=
  match DEMO_MODE runtime with
  | Some v => String.eqb v "true"
  | None => false
  end.

(** The network name a handler works with. *)
Definition network_of (runtime : Settings) : string :=
  str_or (HEDERA_NETWORK runtime) "mainnet".

(** The request for the factory's logs, in either plugin. *)
Definition agent_logs_url (runtime : Settings) (factoryContract : string)
  : string :=
  AgentPlugin.getHederaMirrorNodeUrl (network_of runtime)
    (HEDERA_MIRROR_NODE_URL runtime)
  ++ "/api/v1/contracts/" ++ factoryContract ++ "/results/logs?limit=20".

Definition dex_logs_url (mirrorNodeUrl factoryContract : string) : string :=
  mirrorNodeUrl ++ "/api/v1/contracts/" ++ factoryContract
  ++ "/results/logs?limit=100".

(** The request for the logs did not give an object to read. *)
Definition fetch_failed (r : outcome (option Body)) : Prop :=
  match r with
  | Ok (Some _) => False
  | _ => True
  end.

(** A token with an identifier other than the sentinel, a name and a
    symbol that are not empty, and decimals that are not falsy. *)
Definition token_complete (t : ApiToken.t) : Prop :=
  (exists i, ApiToken.id t = Some i /\ i <> "0.0.0")
  /\ (exists n, ApiToken.name t = Some n /\ n <> EmptyString)
  /\ (exists y, ApiToken.symbol t = Some y /\ y <> EmptyString)
  /\ jsval_or (ApiToken.decimals t) JUndefined <> JUndefined.

(** A record as [plugin-hedera-dex] emits them. *)
Definition dex_well_formed (p : Pool.t) : Prop :=
  Pool.contractId p <> "0.0.0"
  /\ token_complete (Pool.tokenA p)
  /\ token_complete (Pool.tokenB p)
  /\ Pool.liquidity p = "Available".

(** What some turns of the decoder's loop may do to the array [s] and
    the requests [tr]: add records at the end, numbered from the length
    of the array on and satisfying [Q], at a price of two requests each,
    and make at most two requests a turn. *)
Definition accounted (Q : Pool.t -> Prop) (s : list Pool.t)
    (tr : list string) (r : outcome (list Pool.t) * list string)
    (turns : nat) : Prop :=
  exists added rest,
    r = (Ok (s ++ added)%list, (tr ++ rest)%list)
    /\ (List.length rest <= 2 * turns)%nat
    /\ (2 * List.length added <= List.length rest)%nat
    /\ Forall Q added
    /\ map Pool.id added = seq (List.length s + 1) (List.length added).

(** [response.data.logs || []]. *)
Definition logs_of (b : Body) : list RawLog :=
  match j_logs b with
  | Some l => l
  | None => []
  end.

(** The message [plugin-hedera-dex] fails with on a network it has no
    addresses for: it depends on whether a mirror-node URL is set. *)
Definition config_error (runtime : Settings) : string :=
  match truthy (HEDERA_MIRROR_NODE_URL runtime) with
  | Some _ => "Factory contract not found for network: " ++ network_of runtime
  | None => "Unsupported network: " ++ network_of runtime
  end.



(** The number of occurrences of a character. *)
Fixpoint count_char (c : ascii) (s : string) : nat :=
  match s with
  | EmptyString => 0
  | String x r => (if Ascii.eqb x c then 1 else 0) + count_char c r
  end.

(** The bytes a string of hex digits denotes, two digits a byte; a last
    single digit is left out. *)
Fixpoint bytes_of_hex (s : string) : list Z :=
  match s with
  | String a (String b r) =>
      hex_number 0 (String a (String b EmptyString)) :: bytes_of_hex r
  | _ => []
  end.

(** The identifiers [0.0.n] of some entity numbers. *)
Definition entity_ids (ns : list Z) : list string :=
  map (fun n => "0.0." ++ Z_to_string n) ns.

(** The EVM address of the entity number [n]: 40 hex digits after [0x]. *)
Definition evm_address (n : Z) : string :=
  "0x" ++ padStart 40 "0" (Z_toString16 n).

(** The fields of a swap path: 40 hex digits a token, 6 a fee, a fee
    after each token that has one. *)
Fixpoint path_fields (ns fees : list Z) : string :=
  match ns with
  | [] => EmptyString
  | n :: ns' =>
      match fees with
      | f :: fees' =>
          padStart 40 "0" (Z_toString16 n)
          ++ padStart 6 "0" (Z_toString16 f) ++ path_fields ns' fees'
      | [] => padStart 40 "0" (Z_toString16 n) ++ path_fields ns' []
      end
  end.

(** Entity numbers below [2^53], and fees of at most 3 bytes. *)
Definition entity_number (n : Z) : Prop := 0 <= n < 2 ^ 53.
Definition fee_3_bytes (f : Z) : Prop := 0 <= f < 16 ^ 6.

(** The byte of [hexToUint8Array] at index [k] of the clean string. *)
Definition byte_at (cleanHex : string) (k : nat) : Z :=
  toUint8 (parseInt (substr (2 * k) 2 cleanHex) 16).

(** An identifier that [hederaIdToEvmAddress] turns into an address. *)
Definition converts (token : string) : Prop :=
  exists address, SaucerSwapAbi.hederaIdToEvmAddress token = Ok address.

(** A byte. *)
Definition is_byte (b : Z) : Prop := 0 <= b < 256.

(** A request for the metadata of a token at a mirror node. *)
Definition token_request (mirrorNodeUrl request : string) : Prop :=
  exists tokenId, request = mirrorNodeUrl ++ "/api/v1/tokens/" ++ tokenId.

(** The requests of a run of a handler: none, or the one for the logs
    and then requests for tokens at the same mirror node. *)
Definition logs_then_tokens (logsUrl mirrorNodeUrl : string)
    (requests : list string) : Prop :=
  exists lookups,
    requests = logsUrl :: lookups
    /\ Forall (token_request mirrorNodeUrl) lookups.

(** The answer of [FETCH_ALL_POOLS] of [src/plugin.ts] once it has
    settled on its pools and on their label.  Its callback is awaited
    before it returns: the answer is a success with the first 10 pools
    when the callback returns, and a failure with the error of the call
    when there is no callback or when it throws. *)
Definition agent_result (callback : Callback) (pools : list Pool.t)
    (dataSource : string) : ActionResult :=
  match callback with
  | CallbackReturns =>
      Succeeded ("Successfully fetched " ++ nat_toString (List.length pools)
                   ++ " pools from SaucerSwap")
        (List.length pools) (firstn 10 pools) dataSource
  | NoCallback =>
      Failed ("Failed to fetch pools from SaucerSwap: "
                ++ "callback is not a function")
        "FETCH_POOLS_FAILED" "callback is not a function"
  | CallbackThrows e =>
      Failed ("Failed to fetch pools from SaucerSwap: " ++ e)
        "FETCH_POOLS_FAILED" e
  end.


(* ================================================================= *)
(** ** Facts about the built-ins *)

Section StringFacts.

Lemma append_length (s t : string) :
  String.length (s ++ t) = (String.length s + String.length t)%nat.
Proof. induction s as [|c s IH]; simpl; [reflexivity | now rewrite IH]. Qed.

Lemma drop_append (s t : string) : drop (String.length s) (s ++ t) = t.
Proof. induction s as [|c s IH]; simpl; [now destruct t | exact IH]. Qed.

Lemma slice_last_append (n : nat) (s t : string) :
  String.length t = n -> slice_last n (s ++ t) = t.
Proof.
  intros <-. unfold slice_last. rewrite append_length.
  replace (String.length s + String.length t - String.length t)%nat
    with (String.length s) by lia.
  apply drop_append.
Qed.

Lemma slice_last_all (n : nat) (t : string) :
  String.length t = n -> slice_last n t = t.
Proof. intros H. apply (slice_last_append n EmptyString t H). Qed.

End StringFacts.

Section ParseFacts.

Lemma is_hex_plain (c : ascii) :
  is_hex c = true ->
  is_white c = false /\ Ascii.eqb c "-" = false /\ Ascii.eqb c "+" = false
  /\ Ascii.eqb c "x" = false /\ Ascii.eqb c "X" = false.
Proof.
  destruct c as [[] [] [] [] [] [] [] []]; vm_compute; intros H;
    try discriminate H; repeat split.
Qed.

Lemma digit_value_nonneg (c : ascii) (d : Z) :
  digit_value c = Some d -> 0 <= d.
Proof.
  destruct c as [[] [] [] [] [] [] [] []]; vm_compute; intros H;
    try discriminate H; injection H as <-; discriminate.
Qed.

Lemma hex_number_mono (s : string) (a : Z) : 0 <= a -> 0 <= hex_number a s.
Proof.
  revert a. induction s as [|c s IH]; cbn [hex_number]; intros a Ha;
    [assumption|].
  apply IH. destruct (digit_value c) as [d|] eqn:E; [|lia].
  apply digit_value_nonneg in E. lia.
Qed.

Lemma digits_prefix_hex (s : string) (a : Z) :
  all_hex s = true -> digits_prefix 16 s (Some a) = Some (hex_number a s).
Proof.
  revert a. induction s as [|c s IH]; cbn [all_hex digits_prefix hex_number];
    intros a H; [reflexivity|].
  apply andb_prop in H as [Hc Hs]. unfold is_hex, radix_digit in *.
  destruct (digit_value c) as [d|]; [|discriminate].
  destruct (d <? 16); [|discriminate]. now apply IH.
Qed.

Lemma digits_prefix_hex_start (c : ascii) (s : string) :
  all_hex (String c s) = true ->
  digits_prefix 16 (String c s) None = Some (hex_number 0 (String c s)).
Proof.
  cbn [all_hex digits_prefix hex_number]. intros H.
  apply andb_prop in H as [Hc Hs]. unfold is_hex, radix_digit in *.
  destruct (digit_value c) as [d|]; [|discriminate].
  destruct (d <? 16); [|discriminate]. now apply digits_prefix_hex.
Qed.

(** On a non-empty string of hex digits [parseInt(_, 16)] reads them all. *)
Lemma parseInt_hex (t : string) :
  all_hex t = true -> t <> EmptyString -> parseInt t 16 = Num (hex_number 0 t).
Proof.
  destruct t as [|c0 r]; [congruence|]. intros H _.
  pose proof (digits_prefix_hex_start c0 r H) as Hd.
  simpl in H. apply andb_prop in H as [H0 Hr].
  destruct (is_hex_plain c0 H0) as (Hw & Hm & Hp & _).
  unfold parseInt. cbn [trim_start]. rewrite Hw, Hm, Hp.
  cbn [Z.eqb Z.ltb Z.compare Pos.compare Pos.compare_cont negb andb orb].
  destruct r as [|c1 r'].
  - rewrite Hd. f_equal. lia.
  - simpl in Hr. apply andb_prop in Hr as [H1 _].
    destruct (is_hex_plain c1 H1) as (_ & _ & _ & Hx & HX).
    rewrite Hx, HX, andb_false_r. rewrite Hd. f_equal. lia.
Qed.

Lemma prefix_0x (s : string) :
  String.prefix "0x" s = true -> exists r, s = String "0" (String "x" r).
Proof.
  destruct s as [|c0 [|c1 r]]; cbn [String.prefix].
  - discriminate.
  - destruct (ascii_dec "0" c0); discriminate.
  - destruct (ascii_dec "0" c0) as [<-|]; [|discriminate].
    destruct (ascii_dec "x" c1) as [<-|]; [|discriminate].
    intros _. now exists r.
Qed.

(** Removing the first [0x] leaves a string of hex digits alone, also
    at the end of a longer string. *)
Lemma replace_0x_hex (t : string) :
  all_hex t = true -> replace "0x" EmptyString t = t.
Proof.
  induction t as [|c r IH]; [reflexivity|]. intros H.
  cbn [all_hex] in H. apply andb_prop in H as [Hc Hr].
  cbn [replace]. rewrite (IH Hr).
  destruct (String.prefix "0x" (String c r)) eqn:E; [|reflexivity].
  exfalso. apply prefix_0x in E as [r' [= -> ->]].
  cbn [all_hex] in Hr. apply andb_prop in Hr as [Hx _]. discriminate Hx.
Qed.

Lemma replace_0x_suffix (p t : string) :
  all_hex t = true ->
  exists p', replace "0x" EmptyString (p ++ t) = p' ++ t.
Proof.
  intros Ht. induction p as [|c q [q' IH]].
  - exists EmptyString. now apply replace_0x_hex.
  - cbn [append replace].
    destruct (String.prefix "0x" (String c (q ++ t))) eqn:E.
    + apply prefix_0x in E as [r' [= -> E]].
      destruct q as [|c1 q1]; cbn [append] in E.
      * exfalso. subst t. cbn [all_hex] in Ht.
        apply andb_prop in Ht as [Hx _]. discriminate Hx.
      * injection E as -> <-. exists q1. reflexivity.
    + exists (String c q'). cbn [append]. now rewrite IH.
Qed.

Lemma Z_to_int_normal (z : Z) :
  Z.to_int z <> Decimal.Pos Decimal.Nil /\ Z.to_int z <> Decimal.Neg Decimal.Nil.
Proof.
  destruct z; simpl; split; try discriminate.
  - intros [= H]. revert H. apply DecimalPos.Unsigned.to_uint_nonnil.
  - intros [= H]. revert H. apply DecimalPos.Unsigned.to_uint_nonnil.
Qed.

(** Printing an integer loses nothing. *)
Lemma Z_to_string_inj (a b : Z) : Z_to_string a = Z_to_string b -> a = b.
Proof.
  unfold Z_to_string. intros H.
  destruct (Z_to_int_normal a) as [Ha1 Ha2].
  destruct (Z_to_int_normal b) as [Hb1 Hb2].
  apply DecimalZ.to_int_inj.
  pose proof (NilZero.isi _ Ha1 Ha2) as Ia.
  pose proof (NilZero.isi _ Hb1 Hb2) as Ib.
  rewrite H in Ia. congruence.
Qed.

End ParseFacts.

Section HexTopics.

Lemma take_drop (n : nat) (s : string) : take n s ++ drop n s = s.
Proof.
  revert s. induction n as [|n IH]; intros [|c r]; cbn [take drop append];
    try reflexivity. now rewrite IH.
Qed.

Lemma drop_length (n : nat) (s : string) :
  String.length (drop n s) = (String.length s - n)%nat.
Proof.
  revert s. induction n as [|n IH]; intros [|c r]; simpl; try lia.
  apply IH.
Qed.

Lemma all_hex_drop (n : nat) (s : string) :
  all_hex s = true -> all_hex (drop n s) = true.
Proof.
  revert s. induction n as [|n IH]; intros [|c r]; cbn [drop all_hex];
    try easy. intros H. apply andb_prop in H as [_ H]. now apply IH.
Qed.

Lemma hex_number_bound (s : string) (a : Z) :
  all_hex s = true -> 0 <= a ->
  hex_number a s < (a + 1) * 16 ^ Z.of_nat (String.length s).
Proof.
  revert a. induction s as [|c s IH]; intros a H Ha.
  - cbn. lia.
  - cbn [all_hex] in H. apply andb_prop in H as [Hc Hs].
    cbn [hex_number String.length]. unfold is_hex, radix_digit in Hc.
    destruct (digit_value c) as [d|] eqn:E; [|discriminate].
    destruct (d <? 16) eqn:L; [|discriminate]. apply Z.ltb_lt in L.
    apply digit_value_nonneg in E.
    specialize (IH (16 * a + d) Hs ltac:(lia)).
    rewrite Nat2Z.inj_succ, Z.pow_succ_r by lia.
    pose proof (Z.pow_pos_nonneg 16 (Z.of_nat (String.length s))
                  ltac:(lia) ltac:(lia)).
    nia.
Qed.

(** What is left of [hex] once [0x] is removed ends with the hex digits
    its prefix-free form ends with. *)
Lemma clean_suffix (hex p t : string) :
  strip_0x_prefix hex = p ++ t -> all_hex t = true ->
  exists p', replace "0x" EmptyString hex = p' ++ t.
Proof.
  unfold strip_0x_prefix. intros H Ht.
  destruct (String.prefix "0x" hex) eqn:E.
  - apply prefix_0x in E as [r ->]. cbn [drop] in H.
    exists p. cbn. now destruct r.
  - rewrite H. now apply replace_0x_suffix.
Qed.

(** [hexToHederaId] is [entity_id] of the number in the last 8 digits. *)
Lemma hexToHederaId_decode (hex p t : string) :
  strip_0x_prefix hex = p ++ t -> String.length t = 8%nat ->
  all_hex t = true ->
  DexPlugin.hexToHederaId hex = entity_id (hex_number 0 t).
Proof.
  intros H Hl Ht. destruct (clean_suffix hex p t H Ht) as [p' Hc].
  unfold DexPlugin.hexToHederaId. rewrite Hc, (slice_last_append 8 p' t Hl).
  rewrite parseInt_hex by (try assumption; now destruct t).
  reflexivity.
Qed.

Lemma strip_0x_hex (t : string) : all_hex t = true -> strip_0x_prefix t = t.
Proof.
  intros Ht. unfold strip_0x_prefix.
  destruct (String.prefix "0x" t) eqn:E; [|reflexivity].
  apply prefix_0x in E as [r ->]. cbn [all_hex] in Ht.
  apply andb_prop in Ht as [_ Ht]. apply andb_prop in Ht as [Hx _].
  discriminate Hx.
Qed.

Lemma entity_id_cases (n : Z) :
  0 <= n ->
  (entity_id n = "0.0.0" <-> n = 0 \/ 100000000 < n)
  /\ (entity_id n = "0.0.0"
      \/ 0 < n <= 100000000 /\ entity_id n = "0.0." ++ Z_to_string n).
Proof.
  intros Hn. unfold entity_id.
  destruct (n =? 0) eqn:E0; [apply Z.eqb_eq in E0|apply Z.eqb_neq in E0];
    cbn [orb].
  - split; [split; auto | now left].
  - destruct (100000000 <? n) eqn:E1;
      [apply Z.ltb_lt in E1|apply Z.ltb_ge in E1].
    + split; [split; auto | now left].
    + split; [|right; split; [lia | reflexivity]].
      split; [|lia]. intros H. exfalso. apply E0.
      apply Z_to_string_inj. cbn [append] in H. now injection H.
Qed.

End HexTopics.

(** C10.  For a string whose last 8 characters, once an optional [0x]
    prefix is removed, are hex digits, [hexToHederaId] (a total function:
    nothing in it throws on a string) gives what it gives on those 8
    characters alone, and that is either the sentinel [0.0.0] or [0.0.n]
    for an integer [n] with [0 < n <= 100000000]. *)
Theorem hexToHederaId_last_8_digits (hex p t : string) :
  strip_0x_prefix hex = p ++ t ->
  String.length t = 8%nat ->
  all_hex t = true ->
  DexPlugin.hexToHederaId hex = DexPlugin.hexToHederaId t
  /\ (DexPlugin.hexToHederaId hex = "0.0.0"
      \/ exists n, 0 < n <= 100000000
                   /\ DexPlugin.hexToHederaId hex = "0.0." ++ Z_to_string n).
Proof.
  intros H Hl Ht.
  rewrite (hexToHederaId_decode hex p t H Hl Ht).
  rewrite (hexToHederaId_decode t EmptyString t (strip_0x_hex t Ht) Hl Ht).
  split; [reflexivity|].
  destruct (entity_id_cases (hex_number 0 t)
              (hex_number_mono t 0 ltac:(lia))) as [_ [E|[B E]]].
  - now left.
  - right. now exists (hex_number 0 t).
Qed.

Lemma hexToHederaId_last_8_digits_witness :
  (strip_0x_prefix "0x00000000000000001234" = "000000000000" ++ "00001234"
   /\ String.length "00001234" = 8%nat /\ all_hex "00001234" = true)
  /\ DexPlugin.hexToHederaId "0x00000000000000001234"
     = DexPlugin.hexToHederaId "00001234"
  /\ (DexPlugin.hexToHederaId "0x00000000000000001234" = "0.0.0"
      \/ exists n, 0 < n <= 100000000
                   /\ DexPlugin.hexToHederaId "0x00000000000000001234"
                      = "0.0." ++ Z_to_string n).
Proof.
  split; [repeat split|].
  apply (hexToHederaId_last_8_digits "0x00000000000000001234"
           "000000000000" "00001234"); reflexivity.
Defined.

(* ================================================================= *)
(** ** The loop over the log entries *)

Section LoopFacts.

Context {A S : Type} (body : S -> A -> M S).

Lemma for_of_app (l1 l2 : list A) (s : S) (w : World) (tr : list string) :
  for_of body (l1 ++ l2)%list s w tr
  = match for_of body l1 s w tr with
    | (Ok s', tr') => for_of body l2 s' w tr'
    | (Throw e, tr') => (Throw e, tr')
    end.
Proof.
  revert s tr. induction l1 as [|x l1 IH]; intros s tr.
  - reflexivity.
  - cbn [for_of app]. unfold bind.
    destruct (body s x w tr) as [[s'|e] tr']; [apply IH | reflexivity].
Qed.

(** An entry on which the body changes nothing can be taken out. *)
Lemma for_of_skip (x : A) (l1 l2 : list A) (s : S) (w : World)
    (tr : list string) :
  (forall s' tr', body s' x w tr' = (Ok s', tr')) ->
  for_of body (l1 ++ x :: l2)%list s w tr
  = for_of body (l1 ++ l2)%list s w tr.
Proof.
  intros Hx. rewrite !for_of_app.
  destruct (for_of body l1 s w tr) as [[s'|e] tr']; [|reflexivity].
  cbn [for_of]. unfold bind. now rewrite Hx.
Qed.

(** A loop whose body always returns, returns. *)
Lemma for_of_returns (l : list A) (s : S) (w : World) (tr : list string) :
  (forall s' x tr', exists s'' tr'', body s' x w tr' = (Ok s'', tr'')) ->
  exists s' tr', for_of body l s w tr = (Ok s', tr').
Proof.
  intros Hb. revert s tr. induction l as [|x l IH]; intros s tr.
  - now exists s, tr.
  - cbn [for_of]. unfold bind. destruct (Hb s x tr) as (s1 & tr1 & ->).
    apply IH.
Qed.

(** An invariant of the state that every step keeps holds at the end. *)
Lemma for_of_invariant (P : S -> Prop) (l : list A) (s : S) (w : World)
    (tr : list string) (s' : S) (tr' : list string) :
  (forall s0 x tr0 s1 tr1, P s0 -> body s0 x w tr0 = (Ok s1, tr1) -> P s1) ->
  P s -> for_of body l s w tr = (Ok s', tr') -> P s'.
Proof.
  intros Hb. revert s tr. induction l as [|x l IH]; intros s tr Hs.
  - cbn. now intros [= <- <-].
  - cbn [for_of]. unfold bind.
    destruct (body s x w tr) as [[s1|e] tr1] eqn:E; [|discriminate].
    apply IH. exact (Hb _ _ _ _ _ Hs E).
Qed.

(** Entries on which the body changes nothing leave the state and the
    list of requests as they were. *)
Lemma for_of_all_skipped (l : list A) (s : S) (w : World) (tr : list string) :
  Forall (fun x => forall s' tr', body s' x w tr' = (Ok s', tr')) l ->
  for_of body l s w tr = (Ok s, tr).
Proof.
  induction 1 as [|x l Hx _ IH]; [reflexivity|].
  cbn [for_of]. unfold bind. now rewrite Hx.
Qed.

End LoopFacts.

(* ================================================================= *)
(** ** plugin-hedera-dex: the decoder *)

Section DexDecoder.

Import DexPlugin.

Variables (mirrorNodeUrl : string) (w : World).

(** [fetchTokenInfo] makes one request and always returns. *)
Lemma dex_fetch_returns (tokenId : string) (tr : list string) :
  exists r, fetchTokenInfo tokenId mirrorNodeUrl w tr
            = (Ok r, (tr ++ [(mirrorNodeUrl ++ "/api/v1/tokens/" ++ tokenId)%string])%list).
Proof.
  unfold fetchTokenInfo, try_catch, bind, axios_get, the_object, ret, throw.
  destruct (reply w tr _) as [[b|]|e]; eauto.
Qed.

(** An entry that is no pool creation leaves the array and the network
    alone. *)
Lemma dex_parse_log_other (pools : list Pool.t) (log : RawLog)
    (tr : list string) :
  not_pool_creation log ->
  parse_log mirrorNodeUrl pools log w tr = (Ok pools, tr).
Proof.
  unfold not_pool_creation, first_topic, topic_count, parse_log.
  destruct (topics log) as [[|t [|t1 [|t2 [|t3 more]]]]|]; try reflexivity.
  intros [H|H]; [|cbn in H; lia].
  destruct (String.eqb_spec t POOL_CREATED_TOPIC) as [->|_];
    [congruence | reflexivity].
Qed.

(** The loop body on a pool-creation entry, step by step. *)
Lemma dex_parse_log_creation (pools : list Pool.t)
    (topic1 topic2 topic3 : string) (more : list string)
    (eventData : option string) (tr : list string) :
  parse_log mirrorNodeUrl pools
    (creation_log topic1 topic2 topic3 more eventData) w tr
  = if dex_invalid topic1 topic2 eventData then (Ok pools, tr)
    else
      match fetchTokenInfo (hexToHederaId topic1) mirrorNodeUrl w tr with
      | (Throw _, tr1) => (Ok pools, tr1)
      | (Ok a, tr1) =>
          match fetchTokenInfo (hexToHederaId topic2) mirrorNodeUrl w tr1 with
          | (Throw _, tr2) => (Ok pools, tr2)
          | (Ok b, tr2) =>
              (Ok match a, b with
                  | Some a, Some b =>
                      (pools ++
                         [dex_record (List.length pools + 1)
                            (extractPoolContractId eventData
                               (hexToHederaId topic1) (hexToHederaId topic2))
                            a b (parseInt topic3 16)])%list
                  | _, _ => pools
                  end, tr2)
          end
      end.
Proof.
  unfold parse_log, creation_log, dex_invalid. cbn [topics data].
  rewrite String.eqb_refl. unfold try_catch at 1.
  destruct (_ || _ || _); [reflexivity|].
  unfold bind, ret.
  destruct (fetchTokenInfo (hexToHederaId topic1) mirrorNodeUrl w tr)
    as [[a|e] tr1]; [|reflexivity].
  destruct (fetchTokenInfo (hexToHederaId topic2) mirrorNodeUrl w tr1)
    as [[b|e] tr2]; [|reflexivity].
  destruct a, b; reflexivity.
Qed.

(** Every entry is of one of the two kinds. *)
Lemma log_kinds (log : RawLog) :
  not_pool_creation log
  \/ exists topic1 topic2 topic3 more,
       log = creation_log topic1 topic2 topic3 more (data log).
Proof.
  destruct log as [[[|t [|t1 [|t2 [|t3 more]]]]|] d];
    try (left; right; cbn; lia).
  destruct (String.eqb_spec t POOL_CREATED_TOPIC) as [->|N].
  - right. now exists t1, t2, t3, more.
  - left. left. cbn. congruence.
Qed.

(** The loop body returns, and either leaves the array as it was or
    adds one record whose two tokens were fetched. *)
Lemma dex_parse_log_step (pools : list Pool.t) (log : RawLog)
    (tr : list string) :
  exists pools' tr',
    parse_log mirrorNodeUrl pools log w tr = (Ok pools', tr')
    /\ (pools' = pools
        \/ exists p, pools' = (pools ++ [p])%list
                     /\ both_fetched fetchTokenInfo mirrorNodeUrl w p).
Proof.
  destruct (log_kinds log) as [H|(t1 & t2 & t3 & more & ->)].
  - exists pools, tr. split; [now apply dex_parse_log_other | now left].
  - cbn [data creation_log]. fold (creation_log t1 t2 t3 more (data log)).
    rewrite dex_parse_log_creation.
    destruct (dex_invalid _ _ _); [exists pools, tr; auto|].
    destruct (dex_fetch_returns (hexToHederaId t1) tr) as [a Ea]. rewrite Ea.
    destruct (dex_fetch_returns (hexToHederaId t2)
                (tr ++ [(mirrorNodeUrl ++ "/api/v1/tokens/" ++ hexToHederaId t1)%string])%list)
      as [b Eb].
    rewrite Eb. eexists _, _. split; [reflexivity|].
    destruct a as [a|]; [|now left]. destruct b as [b|]; [|now left].
    right. eexists. split; [reflexivity|].
    unfold both_fetched. cbn [Pool.tokenA Pool.tokenB dex_record]. eauto 10.
Qed.

(** The whole pipeline returns, and every record it gives has two
    fetched tokens. *)
Lemma dex_parse_fetched (logs : list RawLog) (tr : list string) :
  exists pools tr',
    parsePoolCreationEvents logs mirrorNodeUrl w tr = (Ok pools, tr')
    /\ Forall (both_fetched fetchTokenInfo mirrorNodeUrl w) pools.
Proof.
  unfold parsePoolCreationEvents.
  destruct (for_of_returns (parse_log mirrorNodeUrl) logs [] w tr)
    as (pools & tr' & E).
  { intros s' x tr0.
    destruct (dex_parse_log_step s' x tr0) as (s1 & tr1 & H & _). eauto. }
  exists pools, tr'. split; [exact E|].
  refine (for_of_invariant (parse_log mirrorNodeUrl)
            (Forall (both_fetched fetchTokenInfo mirrorNodeUrl w))
            logs [] w tr pools tr' _ (Forall_nil _) E).
  intros s0 x tr0 s1 tr1 Hs Hx.
  destruct (dex_parse_log_step s0 x tr0) as (s2 & tr2 & H & [->|(p & -> & Hp)]);
    rewrite H in Hx; injection Hx as <- <-; [assumption|].
  apply Forall_app. split; [assumption | now constructor].
Qed.

End DexDecoder.

(* ================================================================= *)
(** ** src/plugin.ts: the decoder *)

Section AgentDecoder.

Import AgentPlugin.

Variables (mirrorNodeUrl : string) (w : World).

Lemma agent_fetch_returns (tokenId : string) (tr : list string) :
  exists r, fetchTokenInfo tokenId mirrorNodeUrl w tr
            = (Ok r, (tr ++ [(mirrorNodeUrl ++ "/api/v1/tokens/" ++ tokenId)%string])%list).
Proof.
  unfold fetchTokenInfo, try_catch, bind, axios_get, the_object, ret, throw.
  destruct (reply w tr _) as [[b|]|e]; eauto.
Qed.

Lemma agent_parse_log_other (pools : list Pool.t) (log : RawLog)
    (tr : list string) :
  not_pool_creation log ->
  parse_log mirrorNodeUrl pools log w tr = (Ok pools, tr).
Proof.
  unfold not_pool_creation, first_topic, topic_count, parse_log.
  destruct (topics log) as [[|t [|t1 [|t2 [|t3 more]]]]|]; try reflexivity.
  intros [H|H]; [|cbn in H; lia].
  destruct (String.eqb_spec t POOL_CREATED_TOPIC) as [->|_];
    [congruence | reflexivity].
Qed.

(** The loop body on a pool-creation entry, step by step. *)
Lemma agent_parse_log_creation (pools : list Pool.t)
    (topic1 topic2 topic3 : string) (more : list string)
    (eventData : option string) (tr : list string) :
  parse_log mirrorNodeUrl pools
    (creation_log topic1 topic2 topic3 more eventData) w tr
  = match eventData with
    | None => (Ok pools, tr)
    | Some d =>
        match fetchTokenInfo (hexToHederaId topic1) mirrorNodeUrl w tr with
        | (Throw _, tr1) => (Ok pools, tr1)
        | (Ok a, tr1) =>
            match fetchTokenInfo (hexToHederaId topic2) mirrorNodeUrl w tr1 with
            | (Throw _, tr2) => (Ok pools, tr2)
            | (Ok b, tr2) =>
                (Ok match a, b with
                    | Some a, Some b =>
                        (pools ++
                           [agent_record (List.length pools + 1)
                              (hexToHederaId ("0x" ++ slice 66 106 d))
                              a b (parseInt topic3 16)])%list
                    | _, _ => pools
                    end, tr2)
            end
        end
    end.
Proof.
  unfold parse_log, creation_log. cbn [topics data].
  rewrite String.eqb_refl. unfold try_catch at 1.
  destruct eventData as [d|]; [|reflexivity].
  unfold bind, ret.
  destruct (fetchTokenInfo (hexToHederaId topic1) mirrorNodeUrl w tr)
    as [[a|e] tr1]; [|reflexivity].
  destruct (fetchTokenInfo (hexToHederaId topic2) mirrorNodeUrl w tr1)
    as [[b|e] tr2]; [|reflexivity].
  destruct a, b; reflexivity.
Qed.

Lemma agent_parse_log_step (pools : list Pool.t) (log : RawLog)
    (tr : list string) :
  exists pools' tr',
    parse_log mirrorNodeUrl pools log w tr = (Ok pools', tr')
    /\ (pools' = pools
        \/ exists p, pools' = (pools ++ [p])%list
                     /\ both_fetched fetchTokenInfo mirrorNodeUrl w p).
Proof.
  destruct (log_kinds log) as [H|(t1 & t2 & t3 & more & ->)].
  - exists pools, tr. split; [now apply agent_parse_log_other | now left].
  - cbn [data creation_log]. fold (creation_log t1 t2 t3 more (data log)).
    rewrite agent_parse_log_creation.
    destruct (data log) as [d|]; [|exists pools, tr; auto].
    destruct (agent_fetch_returns (hexToHederaId t1) tr) as [a Ea]. rewrite Ea.
    destruct (agent_fetch_returns (hexToHederaId t2)
                (tr ++ [(mirrorNodeUrl ++ "/api/v1/tokens/" ++ hexToHederaId t1)%string])%list)
      as [b Eb].
    rewrite Eb. eexists _, _. split; [reflexivity|].
    destruct a as [a|]; [|now left]. destruct b as [b|]; [|now left].
    right. eexists. split; [reflexivity|].
    unfold both_fetched. cbn [Pool.tokenA Pool.tokenB agent_record]. eauto 10.
Qed.

Lemma agent_parse_fetched (logs : list RawLog) (tr : list string) :
  exists pools tr',
    parsePoolCreationEvents logs mirrorNodeUrl w tr = (Ok pools, tr')
    /\ Forall (both_fetched fetchTokenInfo mirrorNodeUrl w) pools.
Proof.
  unfold parsePoolCreationEvents.
  destruct (for_of_returns (parse_log mirrorNodeUrl) logs [] w tr)
    as (pools & tr' & E).
  { intros s' x tr0.
    destruct (agent_parse_log_step s' x tr0) as (s1 & tr1 & H & _). eauto. }
  exists pools, tr'. split; [exact E|].
  refine (for_of_invariant (parse_log mirrorNodeUrl)
            (Forall (both_fetched fetchTokenInfo mirrorNodeUrl w))
            logs [] w tr pools tr' _ (Forall_nil _) E).
  intros s0 x tr0 s1 tr1 Hs Hx.
  destruct (agent_parse_log_step s0 x tr0)
    as (s2 & tr2 & H & [->|(p & -> & Hp)]);
    rewrite H in Hx; injection Hx as <- <-; [assumption|].
  apply Forall_app. split; [assumption | now constructor].
Qed.

End AgentDecoder.

(* ================================================================= *)
(** ** The decoder: the properties of the specification *)

(** C7.  An entry whose first topic is not the pool-created signature,
    or that has fewer than four topics, is skipped by the decoder of
    either plugin: the loop body returns the array it was given, makes
    no request and does not throw, so the result of the whole batch is
    that of the batch without the entry. *)
Theorem other_entries_are_skipped (log : RawLog) (mirrorNodeUrl : string)
    (w : World) (pools : list Pool.t) (before after : list RawLog)
    (tr : list string) :
  not_pool_creation log ->
  DexPlugin.parse_log mirrorNodeUrl pools log w tr = (Ok pools, tr)
  /\ AgentPlugin.parse_log mirrorNodeUrl pools log w tr = (Ok pools, tr)
  /\ DexPlugin.parsePoolCreationEvents (before ++ log :: after) mirrorNodeUrl w tr
     = DexPlugin.parsePoolCreationEvents (before ++ after) mirrorNodeUrl w tr
  /\ AgentPlugin.parsePoolCreationEvents (before ++ log :: after) mirrorNodeUrl w tr
     = AgentPlugin.parsePoolCreationEvents (before ++ after) mirrorNodeUrl w tr.
Proof.
  intros H. repeat split.
  - now apply dex_parse_log_other.
  - now apply agent_parse_log_other.
  - apply for_of_skip. intros. now apply dex_parse_log_other.
  - apply for_of_skip. intros. now apply agent_parse_log_other.
Qed.

Lemma other_entries_are_skipped_witness :
  let log := {| topics := Some ["0xddf252ad"; Sample.topic_1234;
                                Sample.topic_5678; Sample.topic_fee_3000];
                data := Some Sample.event_data |} in
  let url := "https://testnet.mirrornode.hedera.com" in
  let w := Sample.always Sample.whbar in
  not_pool_creation log
  /\ DexPlugin.parse_log url [] log w [] = (Ok [], [])
  /\ AgentPlugin.parse_log url [] log w [] = (Ok [], [])
  /\ DexPlugin.parsePoolCreationEvents ([] ++ log :: []) url w []
     = DexPlugin.parsePoolCreationEvents ([] ++ []) url w []
  /\ AgentPlugin.parsePoolCreationEvents ([] ++ log :: []) url w []
     = AgentPlugin.parsePoolCreationEvents ([] ++ []) url w [].
Proof.
  intros log url w.
  assert (H : not_pool_creation log) by (left; discriminate).
  split; [exact H|].
  exact (other_entries_are_skipped log url w [] [] [] [] H).
Defined.

Section Topics32.

Lemma append_assoc (a b c : string) : (a ++ b) ++ c = a ++ (b ++ c).
Proof. induction a as [|x a IH]; cbn [append]; [reflexivity | now rewrite IH]. Qed.

Lemma strip_0x_split (s : string) : exists q, s = q ++ strip_0x_prefix s.
Proof.
  unfold strip_0x_prefix. destruct (String.prefix "0x" s) eqn:E.
  - apply prefix_0x in E as [r ->]. now exists "0x".
  - now exists EmptyString.
Qed.

(** A 32-byte topic ends with 8 hex digits, and its prefix-free form
    with the same 8. *)
Lemma topic32_last_8 (topic : string) :
  is_topic32 topic = true ->
  exists p, strip_0x_prefix topic = p ++ slice_last 8 topic
            /\ String.length (slice_last 8 topic) = 8%nat
            /\ all_hex (slice_last 8 topic) = true.
Proof.
  unfold is_topic32. intros H. apply andb_prop in H as [Hl Hh].
  apply Nat.eqb_eq in Hl.
  set (h := strip_0x_prefix topic) in *.
  assert (L8 : String.length (drop 56 h) = 8%nat)
    by (rewrite drop_length, Hl; reflexivity).
  assert (E : slice_last 8 topic = drop 56 h).
  { destruct (strip_0x_split topic) as [q Hq]. fold h in Hq.
    rewrite Hq at 1. rewrite <- (take_drop 56 h) at 1.
    rewrite <- append_assoc. now apply slice_last_append. }
  rewrite E. exists (take 56 h).
  split; [symmetry; apply take_drop|]. split; [exact L8|].
  now apply all_hex_drop.
Qed.

End Topics32.

(** C3.  On a 32-byte hex topic [hexToHederaId] reads the last 4 bytes
    (the final 8 hex characters) as an unsigned integer [n], and gives
    the sentinel [0.0.0] exactly when [n] is 0 or above 100000000
    (otherwise [0.0.n]).  A pool-creation entry for which token0, token1
    or the pool id is the sentinel is discarded: the loop body returns
    the array unchanged without throwing and without a request, and the
    batch gives what it gives without that entry, so the other entries
    are processed as before. *)
Theorem sentinel_identifiers_are_discarded :
  (forall topic : string,
      is_topic32 topic = true ->
      let n := hex_number 0 (slice_last 8 topic) in
      0 <= n < 2 ^ 32
      /\ DexPlugin.hexToHederaId topic = entity_id n
      /\ (DexPlugin.hexToHederaId topic = "0.0.0" <-> n = 0 \/ 100000000 < n))
  /\ (forall (mirrorNodeUrl : string) (w : World) (pools : list Pool.t)
             (topic1 topic2 topic3 : string) (more : list string)
             (eventData : option string) (before after : list RawLog)
             (tr : list string),
         DexPlugin.hexToHederaId topic1 = "0.0.0"
         \/ DexPlugin.hexToHederaId topic2 = "0.0.0"
         \/ DexPlugin.extractPoolContractId eventData
              (DexPlugin.hexToHederaId topic1)
              (DexPlugin.hexToHederaId topic2) = "0.0.0" ->
         let log := creation_log topic1 topic2 topic3 more eventData in
         DexPlugin.parse_log mirrorNodeUrl pools log w tr = (Ok pools, tr)
         /\ DexPlugin.parsePoolCreationEvents (before ++ log :: after)
              mirrorNodeUrl w tr
            = DexPlugin.parsePoolCreationEvents (before ++ after)
                mirrorNodeUrl w tr).
Proof.
  split.
  - intros topic H n.
    destruct (topic32_last_8 topic H) as (p & Hp & Hl & Hh).
    pose proof (hexToHederaId_decode topic p _ Hp Hl Hh) as E. fold n in E.
    pose proof (hex_number_mono (slice_last 8 topic) 0 ltac:(lia)) as N0.
    pose proof (hex_number_bound (slice_last 8 topic) 0 Hh ltac:(lia)) as N1.
    rewrite Hl in N1. fold n in N0, N1.
    split; [split; [exact N0 | exact N1]|]. split; [exact E|].
    rewrite E. apply (entity_id_cases n N0).
  - intros url w pools t1 t2 t3 more d before after tr H log.
    assert (I : dex_invalid t1 t2 d = true).
    { unfold dex_invalid. destruct H as [H|[H|H]]; rewrite H; cbn;
        now rewrite ?orb_true_r. }
    assert (Hlog : forall s' tr',
               DexPlugin.parse_log url s' log w tr' = (Ok s', tr')).
    { intros s' tr'. unfold log. rewrite dex_parse_log_creation.
      now rewrite I. }
    split; [apply Hlog|]. apply for_of_skip. exact Hlog.
Qed.

Lemma sentinel_identifiers_are_discarded_witness :
  let zero := "0x0000000000000000000000000000000000000000000000000000000000000000" in
  let url := "https://testnet.mirrornode.hedera.com" in
  let w := Sample.always Sample.whbar in
  let log := creation_log zero Sample.topic_5678 Sample.topic_fee_3000 []
               (Some Sample.event_data) in
  (is_topic32 Sample.topic_1234 = true
   /\ DexPlugin.hexToHederaId Sample.topic_1234 = entity_id 4660
   /\ is_topic32 zero = true
   /\ (DexPlugin.hexToHederaId zero = "0.0.0" <-> 0 = 0 \/ 100000000 < 0))
  /\ DexPlugin.hexToHederaId zero = "0.0.0"
  /\ DexPlugin.parse_log url [] log w [] = (Ok [], [])
  /\ DexPlugin.parsePoolCreationEvents ([] ++ log :: []) url w []
     = DexPlugin.parsePoolCreationEvents ([] ++ []) url w [].
Proof.
  intros zero url w log.
  destruct sentinel_identifiers_are_discarded as [D S].
  assert (T1 : is_topic32 Sample.topic_1234 = true) by reflexivity.
  assert (T0 : is_topic32 zero = true) by reflexivity.
  assert (Z0 : DexPlugin.hexToHederaId zero = "0.0.0") by reflexivity.
  split.
  - split; [exact T1|]. split; [exact (proj1 (proj2 (D _ T1)))|].
    split; [exact T0|]. exact (proj2 (proj2 (D _ T0))).
  - split; [exact Z0|].
    exact (S url w [] zero Sample.topic_5678 Sample.topic_fee_3000 []
             (Some Sample.event_data) [] [] [] (or_introl Z0)).
Defined.

(** C2, as the code has it.  In either plugin the pipeline returns, and
    every record it emits carries two tokens that [fetchTokenInfo]
    returned (neither is [null]); a pool-creation entry for which either
    fetch gave [null] adds nothing to the array.  The two identifiers are
    not compared with each other. *)
Theorem emitted_records_have_both_tokens :
  (forall (logs : list RawLog) (mirrorNodeUrl : string) (w : World)
          (tr : list string),
      (exists pools tr',
          DexPlugin.parsePoolCreationEvents logs mirrorNodeUrl w tr
          = (Ok pools, tr')
          /\ Forall (both_fetched DexPlugin.fetchTokenInfo mirrorNodeUrl w)
               pools)
      /\ (exists pools tr',
             AgentPlugin.parsePoolCreationEvents logs mirrorNodeUrl w tr
             = (Ok pools, tr')
             /\ Forall (both_fetched AgentPlugin.fetchTokenInfo mirrorNodeUrl w)
                  pools))
  /\ (forall (mirrorNodeUrl : string) (w : World) (pools : list Pool.t)
             (topic1 topic2 topic3 : string) (more : list string)
             (eventData : option string) (tr tr1 tr2 : list string)
             (a b : option ApiToken.t),
         DexPlugin.fetchTokenInfo (DexPlugin.hexToHederaId topic1)
           mirrorNodeUrl w tr = (Ok a, tr1) ->
         DexPlugin.fetchTokenInfo (DexPlugin.hexToHederaId topic2)
           mirrorNodeUrl w tr1 = (Ok b, tr2) ->
         a = None \/ b = None ->
         fst (DexPlugin.parse_log mirrorNodeUrl pools
                (creation_log topic1 topic2 topic3 more eventData) w tr)
         = Ok pools)
  /\ (forall (mirrorNodeUrl : string) (w : World) (pools : list Pool.t)
             (topic1 topic2 topic3 : string) (more : list string)
             (eventData : option string) (tr tr1 tr2 : list string)
             (a b : option ApiToken.t),
         AgentPlugin.fetchTokenInfo (AgentPlugin.hexToHederaId topic1)
           mirrorNodeUrl w tr = (Ok a, tr1) ->
         AgentPlugin.fetchTokenInfo (AgentPlugin.hexToHederaId topic2)
           mirrorNodeUrl w tr1 = (Ok b, tr2) ->
         a = None \/ b = None ->
         fst (AgentPlugin.parse_log mirrorNodeUrl pools
                (creation_log topic1 topic2 topic3 more eventData) w tr)
         = Ok pools).
Proof.
  split; [|split].
  - intros logs url w tr. split.
    + apply dex_parse_fetched.
    + apply agent_parse_fetched.
  - intros url w pools t1 t2 t3 more d tr tr1 tr2 a b Ea Eb H.
    rewrite dex_parse_log_creation.
    destruct (dex_invalid t1 t2 d); [reflexivity|].
    rewrite Ea, Eb. destruct H as [-> | ->]; [reflexivity|].
    now destruct a.
  - intros url w pools t1 t2 t3 more d tr tr1 tr2 a b Ea Eb H.
    rewrite agent_parse_log_creation.
    destruct d as [d|]; [|reflexivity].
    rewrite Ea, Eb. destruct H as [-> | ->]; [reflexivity|].
    now destruct a.
Qed.

Lemma emitted_records_have_both_tokens_witness :
  let url := "https://testnet.mirrornode.hedera.com" in
  let log := creation_log Sample.topic_1234 Sample.topic_5678
               Sample.topic_fee_3000 [] (Some Sample.event_data) in
  (exists pools tr',
      DexPlugin.parsePoolCreationEvents [log] url (Sample.always Sample.whbar) []
      = (Ok pools, tr')
      /\ Forall (both_fetched DexPlugin.fetchTokenInfo url
                   (Sample.always Sample.whbar)) pools)
  /\ (DexPlugin.fetchTokenInfo (DexPlugin.hexToHederaId Sample.topic_1234)
        url Sample.down []
      = (Ok None, ["https://testnet.mirrornode.hedera.com/api/v1/tokens/0.0.4660"])
      /\ fst (DexPlugin.parse_log url [] log Sample.down []) = Ok [])
  /\ (AgentPlugin.fetchTokenInfo (AgentPlugin.hexToHederaId Sample.topic_1234)
        url Sample.down []
      = (Ok None, ["https://testnet.mirrornode.hedera.com/api/v1/tokens/0.0.4660"])
      /\ fst (AgentPlugin.parse_log url [] log Sample.down []) = Ok []).
Proof.
  intros url log.
  destruct emitted_records_have_both_tokens as (P & D & A).
  split; [exact (proj1 (P [log] url (Sample.always Sample.whbar) []))|].
  split.
  - split; [reflexivity|].
    refine (D url Sample.down [] Sample.topic_1234 Sample.topic_5678
              Sample.topic_fee_3000 [] (Some Sample.event_data)
              [] _ _ None None _ _ (or_introl eq_refl)); reflexivity.
  - split; [reflexivity|].
    refine (A url Sample.down [] Sample.topic_1234 Sample.topic_5678
              Sample.topic_fee_3000 [] (Some Sample.event_data)
              [] _ _ None None _ _ (or_introl eq_refl)); reflexivity.
Defined.

(** C2 as stated fails: an entry whose two token topics are the same
    gives a record whose tokenA and tokenB have the same identifier. *)
Lemma equal_token_identifiers_are_emitted :
  let log := creation_log Sample.topic_1234 Sample.topic_1234
               Sample.topic_fee_3000 [] (Some Sample.event_data) in
  exists p,
    fst (DexPlugin.parsePoolCreationEvents [log]
           "https://testnet.mirrornode.hedera.com"
           (Sample.always Sample.whbar) [])
    = Ok [p]
    /\ ApiToken.id (Pool.tokenA p) = Some "0.0.4660"
    /\ ApiToken.id (Pool.tokenB p) = Some "0.0.4660".
Proof.
  intros log. eexists. split; [vm_compute; reflexivity|].
  split; reflexivity.
Qed.

(** C9.  A batch with one pool-creation entry (the other entries, if
    any, being no pool creations) whose fee topic decodes to 3000, whose
    identifiers are valid and whose two token fetches succeed, gives one
    record; its fee is 3000, unchanged, and the fee tier shown for it,
    [(fee / 10_000.0).toFixed(2)], is [0.30]. *)
Theorem fee_3000_is_shown_as_0_30 (mirrorNodeUrl : string) (w : World)
    (before after : list RawLog)
    (topic1 topic2 topic3 : string) (more : list string)
    (eventData : option string) (tr tr1 tr2 : list string)
    (a b : ApiToken.t) :
  Forall not_pool_creation before ->
  Forall not_pool_creation after ->
  parseInt topic3 16 = Num 3000 ->
  dex_invalid topic1 topic2 eventData = false ->
  DexPlugin.fetchTokenInfo (DexPlugin.hexToHederaId topic1) mirrorNodeUrl w tr
  = (Ok (Some a), tr1) ->
  DexPlugin.fetchTokenInfo (DexPlugin.hexToHederaId topic2) mirrorNodeUrl w tr1
  = (Ok (Some b), tr2) ->
  exists p,
    DexPlugin.parsePoolCreationEvents
      (before ++ creation_log topic1 topic2 topic3 more eventData :: after)
      mirrorNodeUrl w tr
    = (Ok [p], tr2)
    /\ Pool.tokenA p = a /\ Pool.tokenB p = b
    /\ Pool.fee p = Num 3000
    /\ feeTier (Pool.fee p) = Some "0.30".
Proof.
  intros Hbefore Hafter Hfee Hvalid Ea Eb.
  assert (Skip : forall l, Forall not_pool_creation l ->
            Forall (fun x => forall s' tr',
                      DexPlugin.parse_log mirrorNodeUrl s' x w tr' = (Ok s', tr'))
              l).
  { intros l Hl. eapply Forall_impl; [|exact Hl].
    intros x Hx s' tr'. now apply dex_parse_log_other. }
  unfold DexPlugin.parsePoolCreationEvents.
  rewrite for_of_app, (for_of_all_skipped _ _ _ _ _ (Skip _ Hbefore)).
  cbn [for_of]. unfold bind.
  rewrite dex_parse_log_creation, Hvalid, Ea, Eb, Hfee.
  rewrite (for_of_all_skipped _ _ _ _ _ (Skip _ Hafter)).
  eexists. split; [reflexivity|].
  cbn [dex_record Pool.tokenA Pool.tokenB Pool.fee].
  split; [reflexivity|]. split; [reflexivity|]. split; [reflexivity|].
  vm_compute. reflexivity.
Qed.

Lemma fee_3000_is_shown_as_0_30_witness :
  let url := "https://testnet.mirrornode.hedera.com" in
  let w := Sample.always Sample.whbar in
  let other := {| topics := Some ["0xddf252ad"]; data := None |} in
  let log := creation_log Sample.topic_1234 Sample.topic_5678
               Sample.topic_fee_3000 [] (Some Sample.event_data) in
  (Forall not_pool_creation [other]
   /\ parseInt Sample.topic_fee_3000 16 = Num 3000
   /\ dex_invalid Sample.topic_1234 Sample.topic_5678 (Some Sample.event_data)
      = false)
  /\ exists p tr2,
      DexPlugin.parsePoolCreationEvents ([other] ++ log :: []) url w []
      = (Ok [p], tr2)
      /\ Pool.fee p = Num 3000
      /\ feeTier (Pool.fee p) = Some "0.30".
Proof.
  intros url w other log.
  assert (O : Forall not_pool_creation [other])
    by (constructor; [left; discriminate | constructor]).
  split; [split; [exact O | split; reflexivity]|].
  destruct (fee_3000_is_shown_as_0_30 url w [other] [] Sample.topic_1234
              Sample.topic_5678 Sample.topic_fee_3000 []
              (Some Sample.event_data) [] _ _ _ _
              O (Forall_nil _) eq_refl eq_refl eq_refl eq_refl)
    as (p & E & _ & _ & F & T).
  exists p. eexists. split; [exact E|]. split; [exact F | exact T].
Defined.

(** C4.  The synthetic pool id is computed from the two entity numbers
    alone, but through their sum: the pairs (1, 4) and (2, 3) get the
    same id.  Two entries for these pairs are decoded into two records
    with different tokens and one contract id. *)
Theorem synthetic_pool_id_collides :
  DexPlugin.extractPoolContractId None "0.0.1" "0.0.4" = "0.0.1000005"
  /\ DexPlugin.extractPoolContractId None "0.0.2" "0.0.3" = "0.0.1000005"
  /\ exists p q,
      fst (DexPlugin.parsePoolCreationEvents
             [creation_log (small_topic "1") (small_topic "4")
                Sample.topic_fee_3000 [] None;
              creation_log (small_topic "2") (small_topic "3")
                Sample.topic_fee_3000 [] None]
             "https://testnet.mirrornode.hedera.com"
             (Sample.always Sample.whbar) [])
      = Ok [p; q]
      /\ ApiToken.id (Pool.tokenA p) = Some "0.0.1"
      /\ ApiToken.id (Pool.tokenB p) = Some "0.0.4"
      /\ ApiToken.id (Pool.tokenA q) = Some "0.0.2"
      /\ ApiToken.id (Pool.tokenB q) = Some "0.0.3"
      /\ Pool.contractId p = Pool.contractId q.
Proof.
  split; [reflexivity|]. split; [reflexivity|].
  eexists _, _. split; [vm_compute; reflexivity|].
  repeat split.
Qed.

(* ================================================================= *)
(** ** plugin-hedera-dex: the lookup by symbol pair *)

Section FindPool.

Import DexPlugin.

Lemma same_set_pair (a b c d : string) :
  same_set_b [a; b] [c; d]
  = (String.eqb a c && String.eqb b d) || (String.eqb a d && String.eqb b c).
Proof.
  unfold same_set_b, subset_b. cbn [forallb existsb].
  rewrite (String.eqb_sym c a), (String.eqb_sym c b),
    (String.eqb_sym d a), (String.eqb_sym d b).
  destruct (String.eqb a c), (String.eqb a d), (String.eqb b c),
    (String.eqb b d); reflexivity.
Qed.

Lemma is_requested_pair_sym (symbolA symbolB : string) (p : Pool.t) :
  is_requested_pair symbolA symbolB p = is_requested_pair symbolB symbolA p.
Proof.
  unfold is_requested_pair.
  destruct (ApiToken.symbol (Pool.tokenA p)) as [a|]; [|reflexivity].
  destruct (ApiToken.symbol (Pool.tokenB p)) as [b|]; [|reflexivity].
  rewrite !same_set_pair. apply orb_comm.
Qed.

(** The filter's callback decides the unordered pair. *)
Lemma pool_matches_pair (symbolA symbolB : string) (p : Pool.t) :
  has_symbols p ->
  pool_matches (toUpperCase symbolA) (toUpperCase symbolB) p
  = Ok (is_requested_pair symbolA symbolB p).
Proof.
  unfold has_symbols, pool_matches, symbol_upper, is_requested_pair.
  destruct (ApiToken.symbol (Pool.tokenA p)) as [a|]; [|intros [[] _]; reflexivity].
  destruct (ApiToken.symbol (Pool.tokenB p)) as [b|]; [|intros [_ []]; reflexivity].
  intros _. now rewrite same_set_pair.
Qed.

Lemma matchingPools_filter (symbolA symbolB : string) (allPools : list Pool.t) :
  Forall has_symbols allPools ->
  matchingPools (toUpperCase symbolA) (toUpperCase symbolB) allPools
  = Ok (filter (is_requested_pair symbolA symbolB) allPools).
Proof.
  induction 1 as [|p l Hp _ IH]; [reflexivity|].
  cbn [matchingPools filter]. now rewrite (pool_matches_pair _ _ p Hp), IH.
Qed.

(** A fetched token has a symbol, and the identifier it was asked by. *)
Lemma dex_fetch_some (tokenId url : string) (w : World) (tr tr' : list string)
    (a : ApiToken.t) :
  fetchTokenInfo tokenId url w tr = (Ok (Some a), tr') ->
  ApiToken.symbol a <> None /\ ApiToken.id a = Some tokenId.
Proof.
  unfold fetchTokenInfo, try_catch, bind, axios_get, the_object, ret, throw.
  destruct (reply w tr _) as [[b|]|e]; intros [= <- _]; cbn; now split.
Qed.

Lemma both_fetched_symbols (url : string) (w : World) (p : Pool.t) :
  both_fetched fetchTokenInfo url w p -> has_symbols p.
Proof.
  intros (id0 & id1 & tr0 & tr1 & tr2 & Ea & Eb).
  split; [exact (proj1 (dex_fetch_some _ _ _ _ _ _ Ea))
         | exact (proj1 (dex_fetch_some _ _ _ _ _ _ Eb))].
Qed.

Lemma decoded_pools_symbols (runtime : Settings) (w : World)
    (tr tr' : list string) (url : string) (allPools : list Pool.t) :
  decoded_pools runtime w tr = (Ok (url, allPools), tr') ->
  Forall has_symbols allPools.
Proof.
  unfold decoded_pools, bind.
  destruct (configuration runtime w tr) as [[[[network u] f]|e] tr1];
    [|discriminate].
  destruct (axios_get _ w tr1) as [[d|e] tr2]; [|discriminate].
  destruct (the_object "logs" d w tr2) as [[b|e] tr3]; [|discriminate].
  destruct (dex_parse_fetched u w
              (match j_logs b with Some l => l | None => [] end) tr3)
    as (pools & tr4 & E & F).
  rewrite E. unfold ret. intros [= <- <- <-].
  eapply Forall_impl; [|exact F]. intros p. apply both_fetched_symbols.
Qed.

(** The handler, from the decoded pools on. *)
Lemma getPoolInfoAction_run (runtime : Settings) (symbolA symbolB : string)
    (callback : Callback) (w : World) (tr : list string) :
  getPoolInfoAction runtime (TokenPair symbolA symbolB) callback w tr
  = let failed := fun e tr' =>
        (Ok (Failed ("Failed to get pool information: " ++ e)
               "GET_POOL_INFO_FAILED" e), tr') in
    let tokenPair := toUpperCase symbolA ++ "/" ++ toUpperCase symbolB in
    match decoded_pools runtime w tr with
    | (Throw e, tr') => failed e tr'
    | (Ok (url, allPools), tr') =>
        match matchingPools (toUpperCase symbolA) (toUpperCase symbolB)
                allPools with
        | Throw e => failed e tr'
        | Ok matching =>
            if (List.length matching =? 0)%nat then
              failed ("No pools found for " ++ tokenPair
                        ++ ". Available tokens: "
                        ++ String.concat ", " (firstn 20 (availableTokens allPools))
                        ++ (if (20 <? List.length (availableTokens allPools))%nat
                            then "..." else EmptyString)) tr'
            else
              match callback with
              | CallbackThrows e => failed e tr'
              | _ =>
                  (Ok (Succeeded
                         ("Found " ++ nat_toString (List.length matching)
                            ++ " pool(s) for " ++ tokenPair)
                         (List.length matching) matching
                         ("Hedera Mirror Node (" ++ url ++ ")")), tr')
              end
        end
    end.
Proof.
  unfold getPoolInfoAction, decoded_pools, try_catch, bind.
  destruct (configuration runtime w tr) as [[[[network u] f]|e] tr1];
    [|reflexivity].
  destruct (axios_get _ w tr1) as [[d|e] tr2]; [|reflexivity].
  destruct (the_object "logs" d w tr2) as [[b|e] tr3]; [|reflexivity].
  destruct (parsePoolCreationEvents _ u w tr3) as [[allPools|e] tr4];
    [|reflexivity].
  unfold ret, lift, throw. cbv zeta.
  destruct (matchingPools _ _ allPools) as [matching|e]; [|reflexivity].
  destruct (List.length matching =? 0)%nat; [reflexivity|].
  destruct callback; reflexivity.
Qed.

End FindPool.

(** C5, as the code has it.  The filter of [GET_POOL_INFO] keeps
    exactly the decoded records whose two symbols, upper-cased, are as a
    set the two requested symbols, upper-cased, in the order of the
    decoding, and the result does not depend on the order of the two
    requested symbols.  The handler returns exactly these records when
    there is one at least and its callback does not throw (none is
    needed); when no record is kept, or when the callback throws, it
    returns a failure result, which has no records. *)
Theorem find_pool_keeps_the_unordered_pair (runtime : Settings)
    (symbolA symbolB : string) (callback : Callback) (w : World)
    (tr : list string) :
  (forall allPools : list Pool.t,
      Forall has_symbols allPools ->
      DexPlugin.matchingPools (toUpperCase symbolA) (toUpperCase symbolB)
        allPools
      = Ok (filter (is_requested_pair symbolA symbolB) allPools))
  /\ (forall text count pools dataSource,
         fst (DexPlugin.getPoolInfoAction runtime
                (DexPlugin.TokenPair symbolA symbolB) callback w tr)
         = Ok (Succeeded text count pools dataSource) ->
         exists url allPools tr',
           decoded_pools runtime w tr = (Ok (url, allPools), tr')
           /\ pools = filter (is_requested_pair symbolA symbolB) allPools)
  /\ (forall url allPools tr',
         decoded_pools runtime w tr = (Ok (url, allPools), tr') ->
         let kept := filter (is_requested_pair symbolA symbolB) allPools in
         match kept, callback with
         | [], _ =>
             exists e,
               fst (DexPlugin.getPoolInfoAction runtime
                      (DexPlugin.TokenPair symbolA symbolB) callback w tr)
               = Ok (Failed ("Failed to get pool information: " ++ e)
                       "GET_POOL_INFO_FAILED" e)
         | _ :: _, CallbackThrows e =>
             fst (DexPlugin.getPoolInfoAction runtime
                    (DexPlugin.TokenPair symbolA symbolB) callback w tr)
             = Ok (Failed ("Failed to get pool information: " ++ e)
                     "GET_POOL_INFO_FAILED" e)
         | _ :: _, _ =>
             result_pools
               (fst (DexPlugin.getPoolInfoAction runtime
                       (DexPlugin.TokenPair symbolA symbolB) callback w tr))
             = Some kept
         end)
  /\ result_pools
       (fst (DexPlugin.getPoolInfoAction runtime
               (DexPlugin.TokenPair symbolA symbolB) callback w tr))
     = result_pools
         (fst (DexPlugin.getPoolInfoAction runtime
                 (DexPlugin.TokenPair symbolB symbolA) callback w tr)).
Proof.
  split; [intros; now apply matchingPools_filter|].
  rewrite !getPoolInfoAction_run. cbv zeta.
  destruct (decoded_pools runtime w tr) as [[[url allPools]|e] tr'] eqn:E;
    [|split; [discriminate | split; [discriminate | reflexivity]]].
  pose proof (decoded_pools_symbols _ _ _ _ _ _ E) as Hs.
  rewrite !(matchingPools_filter _ _ allPools Hs).
  rewrite (filter_ext _ _ (is_requested_pair_sym symbolB symbolA)).
  split; [|split].
  3: { destruct (List.length _ =? 0)%nat; [reflexivity|].
       destruct callback; reflexivity. }
  - destruct (List.length _ =? 0)%nat; [discriminate|].
    destruct callback; cbn [fst]; try discriminate;
      intros text count pools ds [= _ _ <- _]; eauto.
  - intros url0 all0 tr0 [= <- <- <-].
    destruct (filter (is_requested_pair symbolA symbolB) allPools) as [|p l].
    + cbn [List.length Nat.eqb fst]. now eexists.
    + cbn [List.length Nat.eqb]. destruct callback; reflexivity.
Qed.

Lemma find_pool_keeps_the_unordered_pair_witness :
  let log := creation_log Sample.topic_1234 Sample.topic_5678
               Sample.topic_fee_3000 [] (Some Sample.event_data) in
  let w := Sample.mirror [log] in
  (exists p,
      fst (DexPlugin.getPoolInfoAction Sample.testnet
             (DexPlugin.TokenPair "usdc" "whbar") CallbackReturns w [])
      = Ok (Succeeded "Found 1 pool(s) for USDC/WHBAR" 1 [p]
              "Hedera Mirror Node (https://testnet.mirrornode.hedera.com)")
      /\ has_symbols p
      /\ DexPlugin.matchingPools (toUpperCase "usdc") (toUpperCase "whbar") [p]
         = Ok (filter (is_requested_pair "usdc" "whbar") [p]))
  /\ exists url allPools tr' p,
      decoded_pools Sample.testnet w [] = (Ok (url, allPools), tr')
      /\ [p] = filter (is_requested_pair "usdc" "whbar") allPools
      /\ result_pools
           (fst (DexPlugin.getPoolInfoAction Sample.testnet
                   (DexPlugin.TokenPair "usdc" "whbar") CallbackReturns w []))
         = Some (filter (is_requested_pair "usdc" "whbar") allPools).
Proof.
  intros log w.
  destruct (find_pool_keeps_the_unordered_pair Sample.testnet "usdc" "whbar"
              CallbackReturns w []) as (F & H & R & _).
  split.
  - eexists. split; [vm_compute; reflexivity|].
    assert (S : has_symbols
                  (dex_record 1 "0.0.1026796"
                     {| ApiToken.decimals := JNumber (Num 8);
                        ApiToken.id := Some "0.0.4660";
                        ApiToken.name := Some "Wrapped HBAR";
                        ApiToken.price := "0";
                        ApiToken.symbol := Some "WHBAR";
                        ApiToken.description := None |}
                     {| ApiToken.decimals := JNumber (Num 6);
                        ApiToken.id := Some "0.0.22136";
                        ApiToken.name := Some "USD Coin";
                        ApiToken.price := "0";
                        ApiToken.symbol := Some "USDC";
                        ApiToken.description := None |}
                     (Num 3000)))
      by (split; discriminate).
    split; [exact S|]. exact (F _ (Forall_cons _ S (Forall_nil _))).
  - destruct (H "Found 1 pool(s) for USDC/WHBAR" 1%nat _
                "Hedera Mirror Node (https://testnet.mirrornode.hedera.com)"
                eq_refl) as (url & allPools & tr' & E & P).
    exists url, allPools, tr'. eexists. split; [exact E|]. split; [exact P|].
    specialize (R url allPools tr' E). cbv zeta in R.
    rewrite <- P in R. rewrite <- P. exact R.
Defined.

(** C5 as stated fails when the callback throws: a decoded record has
    the requested pair, and [GET_POOL_INFO] returns a failure result
    with the error of the callback and no records. *)
Lemma find_pool_fails_when_the_callback_throws :
  let log := creation_log Sample.topic_1234 Sample.topic_5678
               Sample.topic_fee_3000 [] (Some Sample.event_data) in
  let w := Sample.mirror [log] in
  (exists url p tr',
      decoded_pools Sample.testnet w [] = (Ok (url, [p]), tr')
      /\ filter (is_requested_pair "usdc" "whbar") [p] = [p])
  /\ fst (DexPlugin.getPoolInfoAction Sample.testnet
            (DexPlugin.TokenPair "usdc" "whbar")
            (CallbackThrows "channel closed") w [])
     = Ok (Failed "Failed to get pool information: channel closed"
             "GET_POOL_INFO_FAILED" "channel closed")
  /\ result_pools
       (fst (DexPlugin.getPoolInfoAction Sample.testnet
               (DexPlugin.TokenPair "usdc" "whbar")
               (CallbackThrows "channel closed") w []))
     = None.
Proof.
  intros log w. split; [|split; vm_compute; reflexivity].
  eexists _, _, _. split; vm_compute; reflexivity.
Qed.

(* ================================================================= *)
(** ** The token metadata fetcher *)

(** C8, as the code has it.  A token reply that is an object never fails
    the fetch, whatever properties it lacks.  [plugin-hedera-dex] fills
    in 8 for missing decimals, [Unknown Token] for a missing name and
    [UNKNOWN] for a missing symbol; [src/plugin.ts] takes the symbol for
    a missing name and has no default for the decimals, which become
    [NaN]. *)
Theorem missing_token_fields (tokenId mirrorNodeUrl : string) (w : World)
    (tr : list string) (payload : Body) :
  reply w tr (mirrorNodeUrl ++ "/api/v1/tokens/" ++ tokenId)
  = Ok (Some payload) ->
  (exists t,
      fst (DexPlugin.fetchTokenInfo tokenId mirrorNodeUrl w tr) = Ok (Some t)
      /\ (j_decimals payload = JUndefined ->
          ApiToken.decimals t = JNumber (Num 8))
      /\ (j_name payload = None -> ApiToken.name t = Some "Unknown Token")
      /\ (j_symbol payload = None -> ApiToken.symbol t = Some "UNKNOWN"))
  /\ (exists t,
         fst (AgentPlugin.fetchTokenInfo tokenId mirrorNodeUrl w tr)
         = Ok (Some t)
         /\ (j_name payload = None -> ApiToken.name t = j_symbol payload)
         /\ ApiToken.symbol t = j_symbol payload
         /\ (j_decimals payload = JUndefined ->
             ApiToken.decimals t = JNumber NaN)).
Proof.
  intros H. split.
  - unfold DexPlugin.fetchTokenInfo, try_catch, bind, axios_get, the_object, ret.
    rewrite H. eexists. split; [reflexivity|]. cbn.
    repeat split; intros ->; reflexivity.
  - unfold AgentPlugin.fetchTokenInfo, try_catch, bind, axios_get, the_object,
      ret.
    rewrite H. eexists. split; [reflexivity|]. cbn.
    repeat split; intros ->; reflexivity.
Qed.

Lemma missing_token_fields_witness :
  let url := "https://testnet.mirrornode.hedera.com" in
  let w := Sample.always Sample.bare in
  reply w [] (url ++ "/api/v1/tokens/" ++ "0.0.4660") = Ok (Some Sample.bare)
  /\ (exists t,
         fst (DexPlugin.fetchTokenInfo "0.0.4660" url w []) = Ok (Some t)
         /\ ApiToken.decimals t = JNumber (Num 8)
         /\ ApiToken.name t = Some "Unknown Token"
         /\ ApiToken.symbol t = Some "UNKNOWN")
  /\ (exists t,
         fst (AgentPlugin.fetchTokenInfo "0.0.4660" url w []) = Ok (Some t)
         /\ ApiToken.name t = None
         /\ ApiToken.decimals t = JNumber NaN).
Proof.
  intros url w.
  destruct (missing_token_fields "0.0.4660" url w [] Sample.bare eq_refl)
    as [(t & E & D & N & S) (u & E' & N' & _ & D')].
  split; [reflexivity|]. split.
  - exists t. split; [exact E|]. split; [exact (D eq_refl)|].
    split; [exact (N eq_refl) | exact (S eq_refl)].
  - exists u. split; [exact E'|]. split; [exact (N' eq_refl) | exact (D' eq_refl)].
Defined.

(** C8 as stated fails in both plugins: for a reply that has a symbol
    but neither name nor decimals, [plugin-hedera-dex] gives the name
    [Unknown Token], not the symbol, and [src/plugin.ts] gives the
    decimals [NaN], not 8. *)
Lemma token_defaults_differ :
  let url := "https://testnet.mirrornode.hedera.com" in
  let w := Sample.always Sample.only_symbol in
  (exists t,
      fst (DexPlugin.fetchTokenInfo "0.0.4660" url w []) = Ok (Some t)
      /\ ApiToken.symbol t = Some "ABC"
      /\ ApiToken.name t = Some "Unknown Token")
  /\ (exists t,
         fst (AgentPlugin.fetchTokenInfo "0.0.4660" url w []) = Ok (Some t)
         /\ ApiToken.decimals t = JNumber NaN).
Proof.
  intros url w. split; eexists; (split; [vm_compute; reflexivity|]);
    repeat split.
Qed.

(* ================================================================= *)
(** ** The two list-pools handlers *)

Section Handlers.

(** A [try] whose [catch] returns, returns. *)
Lemma try_catch_returns {A} (body : M A) (f : string -> A) (w : World)
    (tr : list string) :
  exists r tr', try_catch body (fun e => ret (f e)) w tr = (Ok r, tr').
Proof.
  unfold try_catch, ret. destruct (body w tr) as [[a|e] tr']; eauto.
Qed.

Lemma includes_append (sub a b : string) :
  includes sub b = true -> includes sub (a ++ b) = true.
Proof.
  intros H. induction a as [|c a IH]; [exact H|].
  cbn [append includes]. rewrite IH. now destruct (String.prefix sub _).
Qed.

(** [src/plugin.ts] on a failed request for the logs: the demo dataset,
    labelled as such. *)
Lemma agent_fetch_failure (runtime : Settings) (factoryContract : string)
    (callback : Callback) (w : World) (tr : list string) :
  demo_mode_on runtime = false ->
  AgentPlugin.SAUCERSWAP_V2_FACTORY_CONTRACTS (network_of runtime)
  = Some factoryContract ->
  fetch_failed (reply w tr (agent_logs_url runtime factoryContract)) ->
  AgentPlugin.fetchAllPoolsAction runtime callback w tr
  = (Ok (agent_result callback AgentPlugin.mockPoolsData
           ("Hedera Mirror Node ("
              ++ AgentPlugin.getHederaMirrorNodeUrl (network_of runtime)
                   (HEDERA_MIRROR_NODE_URL runtime)
              ++ ") - Error fetching data, using mock data")),
     (tr ++ [agent_logs_url runtime factoryContract])%list).
Proof.
  unfold demo_mode_on, network_of, agent_logs_url, fetch_failed.
  intros Hd Hf Hr.
  unfold AgentPlugin.fetchAllPoolsAction. cbv zeta.
  rewrite Hd, Hf.
  unfold try_catch, bind, axios_get, the_object, ret, throw.
  destruct (reply w tr _) as [[b|]|e]; [contradiction| |];
    destruct callback; reflexivity.
Qed.

(** [src/plugin.ts] in demo mode: the demo dataset, and the list of
    requests is left as it was. *)
Lemma agent_demo_mode (runtime : Settings) (callback : Callback) (w : World)
    (tr : list string) :
  demo_mode_on runtime = true ->
  AgentPlugin.fetchAllPoolsAction runtime callback w tr
  = (Ok (agent_result callback AgentPlugin.mockPoolsData
           "Demo Mode (Mock Data)"), tr).
Proof.
  unfold demo_mode_on. intros Hd.
  unfold AgentPlugin.fetchAllPoolsAction. cbv zeta. rewrite Hd.
  destruct callback; reflexivity.
Qed.

(** [plugin-hedera-dex] on a failed request for the logs: a failure
    result with the error's message. *)
Lemma dex_fetch_failure (runtime : Settings) (callback : Callback)
    (network mirrorNodeUrl factoryContract : string) (w : World)
    (tr : list string) :
  DexPlugin.configuration runtime w tr
  = (Ok (network, mirrorNodeUrl, factoryContract), tr) ->
  fetch_failed (reply w tr (dex_logs_url mirrorNodeUrl factoryContract)) ->
  exists e,
    DexPlugin.listPoolsAction runtime callback w tr
    = (Ok (Failed ("Failed to fetch pools from SaucerSwap: " ++ e)
             "FETCH_POOLS_FAILED" e),
       (tr ++ [dex_logs_url mirrorNodeUrl factoryContract])%list).
Proof.
  unfold dex_logs_url, fetch_failed. intros Hc Hr.
  unfold DexPlugin.listPoolsAction, try_catch, bind. rewrite Hc.
  unfold axios_get, the_object, ret, throw.
  destruct (reply w tr _) as [[b|]|e]; [contradiction| |]; eauto.
Qed.

(** [plugin-hedera-dex] does not read [DEMO_MODE]. *)
Lemma dex_ignores_demo_mode (v : option string) (runtime : Settings)
    (callback : Callback) :
  DexPlugin.listPoolsAction (with_demo_mode v runtime) callback
  = DexPlugin.listPoolsAction runtime callback.
Proof. reflexivity. Qed.

(** [src/plugin.ts], whatever the mirror node does: once the callback
    has returned, a result with pools, and never an empty list of them. *)
Lemma agent_returns_pools (runtime : Settings) (w : World)
    (tr : list string) :
  exists text count pools dataSource tr',
    AgentPlugin.fetchAllPoolsAction runtime CallbackReturns w tr
    = (Ok (Succeeded text count pools dataSource), tr')
    /\ pools <> [].
Proof.
  unfold AgentPlugin.fetchAllPoolsAction. cbv zeta.
  destruct (match DEMO_MODE runtime with
            | Some v => String.eqb v "true"
            | None => false
            end).
  { eexists _, _, _, _, _. split; [reflexivity | discriminate]. }
  destruct (AgentPlugin.SAUCERSWAP_V2_FACTORY_CONTRACTS _) as [factory|].
  2: { eexists _, _, _, _, _. split; [reflexivity | discriminate]. }
  unfold try_catch, bind.
  destruct (axios_get _ w tr) as [[d|e] tr1].
  2: { eexists _, _, _, _, _. split; [reflexivity | discriminate]. }
  destruct (the_object "logs" d w tr1) as [[b|e] tr2].
  2: { eexists _, _, _, _, _. split; [reflexivity | discriminate]. }
  destruct (agent_parse_fetched
              (AgentPlugin.getHederaMirrorNodeUrl
                 (str_or (HEDERA_NETWORK runtime) "mainnet")
                 (HEDERA_MIRROR_NODE_URL runtime)) w
              (match j_logs b with Some l => l | None => [] end) tr2)
    as (pools & tr3 & E & _).
  rewrite E. destruct pools as [|p pools].
  - eexists _, _, _, _, _. split; [reflexivity | discriminate].
  - eexists _, _, _, _, _. split; [reflexivity | discriminate].
Qed.

End Handlers.

(** C1, as the code has it.  Neither handler raises to its caller,
    whatever the mirror node and the callback do.  [FETCH_ALL_POOLS] of
    [src/plugin.ts] awaits its callback before it returns: when the
    callback returns, its result holds pools, never none, and when the
    request for the logs failed these are the demo dataset, under a
    data-source label that holds the word [mock]; when there is no
    callback or when it throws, the result is a failure with the error
    of the call and no pools, also after a failed request.  [LIST_POOLS]
    of [plugin-hedera-dex] returns, when the request for the logs fails,
    a failure result that carries the error and no pools, whatever the
    callback. *)
Theorem list_pools_on_fetch_failure :
  (forall (runtime : Settings) (callback : Callback) (w : World)
          (tr : list string),
      (exists r tr',
          AgentPlugin.fetchAllPoolsAction runtime callback w tr = (Ok r, tr'))
      /\ (exists r tr',
             DexPlugin.listPoolsAction runtime callback w tr = (Ok r, tr'))
      /\ (exists pools,
             result_pools
               (fst (AgentPlugin.fetchAllPoolsAction runtime CallbackReturns
                       w tr))
             = Some pools
             /\ pools <> []))
  /\ (forall (runtime : Settings) (factoryContract : string)
             (callback : Callback) (w : World) (tr : list string),
         demo_mode_on runtime = false ->
         AgentPlugin.SAUCERSWAP_V2_FACTORY_CONTRACTS (network_of runtime)
         = Some factoryContract ->
         fetch_failed (reply w tr (agent_logs_url runtime factoryContract)) ->
         exists dataSource,
           includes "mock" dataSource = true
           /\ fst (AgentPlugin.fetchAllPoolsAction runtime callback w tr)
              = Ok (agent_result callback AgentPlugin.mockPoolsData dataSource)
           /\ result_pools
                (Ok (agent_result callback AgentPlugin.mockPoolsData
                       dataSource))
              = match callback with
                | CallbackReturns => Some AgentPlugin.mockPoolsData
                | _ => None
                end)
  /\ (forall (runtime : Settings) (callback : Callback)
             (network mirrorNodeUrl factoryContract : string) (w : World)
             (tr : list string),
         DexPlugin.configuration runtime w tr
         = (Ok (network, mirrorNodeUrl, factoryContract), tr) ->
         fetch_failed (reply w tr (dex_logs_url mirrorNodeUrl factoryContract)) ->
         exists e,
           fst (DexPlugin.listPoolsAction runtime callback w tr)
           = Ok (Failed ("Failed to fetch pools from SaucerSwap: " ++ e)
                   "FETCH_POOLS_FAILED" e)).
Proof.
  split; [|split].
  - intros runtime callback w tr.
    split; [apply try_catch_returns|]. split; [apply try_catch_returns|].
    destruct (agent_returns_pools runtime w tr)
      as (text & count & pools & ds & tr' & E & Hne).
    exists pools. now rewrite E.
  - intros runtime factory callback w tr Hd Hf Hr.
    rewrite (agent_fetch_failure runtime factory callback w tr Hd Hf Hr).
    eexists. split; [|split; [reflexivity | now destruct callback]].
    apply includes_append, includes_append. reflexivity.
  - intros runtime callback network url factory w tr Hc Hr.
    destruct (dex_fetch_failure runtime callback network url factory w tr Hc Hr)
      as [e ->].
    now exists e.
Qed.

Lemma list_pools_on_fetch_failure_witness :
  (demo_mode_on Sample.testnet = false
   /\ AgentPlugin.SAUCERSWAP_V2_FACTORY_CONTRACTS (network_of Sample.testnet)
      = Some "0.0.1197038"
   /\ fetch_failed (reply Sample.down []
                      (agent_logs_url Sample.testnet "0.0.1197038")))
  /\ (exists dataSource,
         includes "mock" dataSource = true
         /\ fst (AgentPlugin.fetchAllPoolsAction Sample.testnet
                   CallbackReturns Sample.down [])
            = Ok (Succeeded "Successfully fetched 1 pools from SaucerSwap" 1
                    AgentPlugin.mockPoolsData dataSource))
  /\ (exists dataSource,
         includes "mock" dataSource = true
         /\ fst (AgentPlugin.fetchAllPoolsAction Sample.testnet
                   (CallbackThrows "no reply") Sample.down [])
            = Ok (Failed "Failed to fetch pools from SaucerSwap: no reply"
                    "FETCH_POOLS_FAILED" "no reply"))
  /\ (DexPlugin.configuration Sample.testnet Sample.down []
      = (Ok ("testnet", "https://testnet.mirrornode.hedera.com", "0.0.1197038"),
         [])
      /\ exists e,
          fst (DexPlugin.listPoolsAction Sample.testnet CallbackReturns
                 Sample.down [])
          = Ok (Failed ("Failed to fetch pools from SaucerSwap: " ++ e)
                  "FETCH_POOLS_FAILED" e)).
Proof.
  destruct list_pools_on_fetch_failure as (_ & A & D).
  split; [repeat split|]. split; [|split].
  - destruct (A Sample.testnet "0.0.1197038" CallbackReturns Sample.down []
                eq_refl eq_refl I) as (ds & M & E & _).
    exists ds. split; [exact M | exact E].
  - destruct (A Sample.testnet "0.0.1197038" (CallbackThrows "no reply")
                Sample.down [] eq_refl eq_refl I) as (ds & M & E & _).
    exists ds. split; [exact M | exact E].
  - split; [reflexivity|].
    exact (D Sample.testnet CallbackReturns "testnet"
             "https://testnet.mirrornode.hedera.com" "0.0.1197038"
             Sample.down [] eq_refl I).
Defined.

(** C1 as stated fails for [LIST_POOLS] of [plugin-hedera-dex]: with the
    mirror node down it returns a failure result, not the demo dataset. *)
Lemma dex_list_pools_has_no_fallback :
  DexPlugin.listPoolsAction Sample.testnet CallbackReturns Sample.down []
  = (Ok (Failed "Failed to fetch pools from SaucerSwap: Network error"
           "FETCH_POOLS_FAILED" "Network error"),
     ["https://testnet.mirrornode.hedera.com/api/v1/contracts/0.0.1197038/results/logs?limit=100"])
  /\ result_pools
       (fst (DexPlugin.listPoolsAction Sample.testnet CallbackReturns
               Sample.down []))
     = None.
Proof. split; reflexivity. Qed.

(* ================================================================= *)
(** ** More on the decoder: order, indices and requests *)

Section LoopAccounting.

Variables (body : list Pool.t -> RawLog -> M (list Pool.t)) (w : World)
  (Q : Pool.t -> Prop).

Hypothesis body_accounted :
  forall s x tr, accounted Q s tr (body s x w tr) 1.

Lemma for_of_accounted (l : list RawLog) (s : list Pool.t)
    (tr : list string) :
  accounted Q s tr (for_of body l s w tr) (List.length l).
Proof.
  revert s tr. induction l as [|x l IH]; intros s tr.
  - exists [], []. cbn. rewrite !app_nil_r. repeat split; auto.
  - cbn [for_of]. unfold bind.
    destruct (body_accounted s x tr) as (a1 & r1 & -> & L1 & P1 & Q1 & I1).
    destruct (IH (s ++ a1)%list (tr ++ r1)%list)
      as (a2 & r2 & -> & L2 & P2 & Q2 & I2).
    exists (a1 ++ a2)%list, (r1 ++ r2)%list.
    rewrite <- !app_assoc. split; [reflexivity|].
    rewrite !length_app. cbn [List.length] in *.
    split; [lia|]. split; [lia|]. split; [now apply Forall_app|].
    rewrite map_app, I1, I2, length_app, seq_app. do 2 f_equal. lia.
Qed.

End LoopAccounting.

Section DexAccounting.

Import DexPlugin.

Variables (mirrorNodeUrl : string) (w : World).

Lemma str_or_nonempty (o : option string) (d : string) :
  d <> EmptyString -> str_or o d <> EmptyString.
Proof.
  intros Hd. unfold str_or, truthy. destruct o as [x|]; [|exact Hd].
  destruct (String.eqb_spec x EmptyString); assumption.
Qed.

Lemma jsval_or_truthy (v : jsval) :
  jsval_or (jsval_or v (JNumber (Num 8))) JUndefined <> JUndefined.
Proof.
  destruct v as [|[|z]|x]; cbn; try discriminate.
  - destruct (z =? 0) eqn:E; cbn; [discriminate|]. now rewrite E.
  - destruct (String.eqb x EmptyString) eqn:E; cbn; [discriminate|].
    now rewrite E.
Qed.

(** What [fetchTokenInfo] returns for a valid identifier is complete. *)
Lemma dex_fetch_complete (tokenId : string) (tr tr' : list string)
    (a : ApiToken.t) :
  tokenId <> "0.0.0" ->
  fetchTokenInfo tokenId mirrorNodeUrl w tr = (Ok (Some a), tr') ->
  token_complete a.
Proof.
  intros Hid.
  unfold fetchTokenInfo, try_catch, bind, axios_get, the_object, ret, throw.
  destruct (reply w tr _) as [[b|]|e]; intros [= <- _].
  unfold token_complete. cbn. repeat split.
  - now exists tokenId.
  - eexists. split; [reflexivity|]. now apply str_or_nonempty.
  - eexists. split; [reflexivity|]. now apply str_or_nonempty.
  - apply jsval_or_truthy.
Qed.

Lemma dex_invalid_false (topic1 topic2 : string) (d : option string) :
  dex_invalid topic1 topic2 d = false ->
  hexToHederaId topic1 <> "0.0.0" /\ hexToHederaId topic2 <> "0.0.0"
  /\ extractPoolContractId d (hexToHederaId topic1) (hexToHederaId topic2)
     <> "0.0.0".
Proof.
  unfold dex_invalid. intros H.
  apply orb_false_elim in H as [H H3]. apply orb_false_elim in H as [H1 H2].
  now rewrite !String.eqb_neq in *.
Qed.

Lemma dex_step_accounted (pools : list Pool.t) (log : RawLog)
    (tr : list string) :
  accounted dex_well_formed pools tr (parse_log mirrorNodeUrl pools log w tr) 1.
Proof.
  assert (Nothing : forall rest, (List.length rest <= 2)%nat ->
            accounted dex_well_formed pools tr (Ok pools, (tr ++ rest)%list) 1).
  { intros rest Hr. exists [], rest. rewrite app_nil_r. cbn.
    repeat split; auto; lia. }
  destruct (log_kinds log) as [H|(t1 & t2 & t3 & more & ->)].
  - rewrite (dex_parse_log_other mirrorNodeUrl w pools log tr H).
    rewrite <- (app_nil_r tr) at 2. apply Nothing. cbn. lia.
  - cbn [data creation_log]. fold (creation_log t1 t2 t3 more (data log)).
    rewrite dex_parse_log_creation.
    destruct (dex_invalid t1 t2 (data log)) eqn:V.
    { rewrite <- (app_nil_r tr) at 2. apply Nothing. cbn. lia. }
    apply dex_invalid_false in V as (V1 & V2 & V3).
    destruct (dex_fetch_returns mirrorNodeUrl w (hexToHederaId t1) tr)
      as [a Ea].
    rewrite Ea.
    destruct (dex_fetch_returns mirrorNodeUrl w (hexToHederaId t2)
                (tr ++ [(mirrorNodeUrl ++ "/api/v1/tokens/" ++ hexToHederaId t1)%string])%list)
      as [b Eb].
    rewrite Eb. rewrite <- app_assoc. cbn [app].
    destruct a as [a|]; [|apply Nothing; cbn; lia].
    destruct b as [b|]; [|apply Nothing; cbn; lia].
    eexists [_], _. split; [reflexivity|]. cbn [List.length map seq].
    split; [lia|]. split; [lia|]. split.
    + constructor; [|constructor]. unfold dex_well_formed.
      cbn [dex_record Pool.contractId Pool.tokenA Pool.tokenB Pool.liquidity].
      split; [exact V3|]. split; [|split; [|reflexivity]].
      * exact (dex_fetch_complete _ _ _ _ V1 Ea).
      * exact (dex_fetch_complete _ _ _ _ V2 Eb).
    + reflexivity.
Qed.

Lemma dex_parse_accounted (logs : list RawLog) (tr : list string) :
  accounted dex_well_formed [] tr
    (parsePoolCreationEvents logs mirrorNodeUrl w tr) (List.length logs).
Proof.
  apply for_of_accounted. intros. apply dex_step_accounted.
Qed.

End DexAccounting.

Section AgentAccounting.

Import AgentPlugin.

Variables (mirrorNodeUrl : string) (w : World).

Lemma agent_step_accounted (pools : list Pool.t) (log : RawLog)
    (tr : list string) :
  accounted (fun _ => True) pools tr
    (parse_log mirrorNodeUrl pools log w tr) 1.
Proof.
  assert (Nothing : forall rest, (List.length rest <= 2)%nat ->
            accounted (fun _ => True) pools tr (Ok pools, (tr ++ rest)%list) 1).
  { intros rest Hr. exists [], rest. rewrite app_nil_r. cbn.
    repeat split; auto; lia. }
  destruct (log_kinds log) as [H|(t1 & t2 & t3 & more & ->)].
  - rewrite (agent_parse_log_other mirrorNodeUrl w pools log tr H).
    rewrite <- (app_nil_r tr) at 2. apply Nothing. cbn. lia.
  - cbn [data creation_log]. fold (creation_log t1 t2 t3 more (data log)).
    rewrite agent_parse_log_creation.
    destruct (data log) as [d|].
    2: { rewrite <- (app_nil_r tr) at 2. apply Nothing. cbn. lia. }
    destruct (agent_fetch_returns mirrorNodeUrl w (hexToHederaId t1) tr)
      as [a Ea].
    rewrite Ea.
    destruct (agent_fetch_returns mirrorNodeUrl w (hexToHederaId t2)
                (tr ++ [(mirrorNodeUrl ++ "/api/v1/tokens/" ++ hexToHederaId t1)%string])%list)
      as [b Eb].
    rewrite Eb. rewrite <- app_assoc. cbn [app].
    destruct a as [a|]; [|apply Nothing; cbn; lia].
    destruct b as [b|]; [|apply Nothing; cbn; lia].
    eexists [_], _. split; [reflexivity|]. cbn [List.length map seq].
    split; [lia|]. split; [lia|]. split; [repeat constructor | reflexivity].
Qed.

Lemma agent_parse_accounted (logs : list RawLog) (tr : list string) :
  accounted (fun _ => True) [] tr
    (parsePoolCreationEvents logs mirrorNodeUrl w tr) (List.length logs).
Proof.
  apply for_of_accounted. intros. apply agent_step_accounted.
Qed.

End AgentAccounting.

(** X1.  In either plugin the decoder numbers its records by position:
    the [id]s of the records of a batch are 1, 2, ..., and there are at
    most as many records as entries. *)
Theorem pool_ids_are_positions (logs : list RawLog) (mirrorNodeUrl : string)
    (w : World) (tr : list string) :
  (exists pools tr',
      DexPlugin.parsePoolCreationEvents logs mirrorNodeUrl w tr
      = (Ok pools, tr')
      /\ map Pool.id pools = seq 1 (List.length pools)
      /\ (List.length pools <= List.length logs)%nat)
  /\ (exists pools tr',
         AgentPlugin.parsePoolCreationEvents logs mirrorNodeUrl w tr
         = (Ok pools, tr')
         /\ map Pool.id pools = seq 1 (List.length pools)
         /\ (List.length pools <= List.length logs)%nat).
Proof.
  split.
  - destruct (dex_parse_accounted mirrorNodeUrl w logs tr)
      as (added & rest & E & L & P & _ & I).
    exists added, (tr ++ rest)%list. repeat split; [exact E | exact I | lia].
  - destruct (agent_parse_accounted mirrorNodeUrl w logs tr)
      as (added & rest & E & L & P & _ & I).
    exists added, (tr ++ rest)%list. repeat split; [exact E | exact I | lia].
Qed.

(** X2.  In either plugin the decoder only adds requests to those made
    before it: at most two for an entry, and two for every record it
    emits. *)
Theorem decoder_requests_are_bounded (logs : list RawLog)
    (mirrorNodeUrl : string) (w : World) (tr : list string) :
  (exists pools rest,
      DexPlugin.parsePoolCreationEvents logs mirrorNodeUrl w tr
      = (Ok pools, (tr ++ rest)%list)
      /\ (2 * List.length pools <= List.length rest <= 2 * List.length logs)%nat)
  /\ (exists pools rest,
         AgentPlugin.parsePoolCreationEvents logs mirrorNodeUrl w tr
         = (Ok pools, (tr ++ rest)%list)
         /\ (2 * List.length pools <= List.length rest
             <= 2 * List.length logs)%nat).
Proof.
  split.
  - destruct (dex_parse_accounted mirrorNodeUrl w logs tr)
      as (added & rest & E & L & P & _ & I).
    exists added, rest. split; [exact E | lia].
  - destruct (agent_parse_accounted mirrorNodeUrl w logs tr)
      as (added & rest & E & L & P & _ & I).
    exists added, rest. split; [exact E | lia].
Qed.

(** X3.  Every record [plugin-hedera-dex] emits is well formed: its
    contract id and its two token ids are not the sentinel [0.0.0], its
    tokens have a name and a symbol that are not empty and decimals that
    are not falsy, and its liquidity is the marker [Available]. *)
Theorem dex_records_are_well_formed (logs : list RawLog)
    (mirrorNodeUrl : string) (w : World) (tr : list string) :
  exists pools tr',
    DexPlugin.parsePoolCreationEvents logs mirrorNodeUrl w tr
    = (Ok pools, tr')
    /\ Forall dex_well_formed pools.
Proof.
  destruct (dex_parse_accounted mirrorNodeUrl w logs tr)
    as (added & rest & E & _ & _ & F & _).
  now exists added, (tr ++ rest)%list.
Qed.

(* ================================================================= *)
(** ** Printing and reading numbers back *)

Section DecimalRoundTrip.

Lemma digits_prefix_step (R : Z) (c : ascii) (s : string) (a d : Z) :
  radix_digit R c = Some d ->
  digits_prefix R (String c s) (Some a) = digits_prefix R s (Some (R * a + d)).
Proof. intros H. cbn [digits_prefix]. now rewrite H. Qed.

Lemma digits_prefix_start (R : Z) (c : ascii) (s : string) (d : Z) :
  radix_digit R c = Some d ->
  digits_prefix R (String c s) None = digits_prefix R s (Some (R * 0 + d)).
Proof. intros H. cbn [digits_prefix]. now rewrite H. Qed.

Lemma digits_prefix_uint_acc (d : Decimal.uint) (a : positive) :
  digits_prefix 10 (NilEmpty.string_of_uint d) (Some (Zpos a))
  = Some (Zpos (Pos.of_uint_acc d a)).
Proof.
  revert a.
  induction d as [|d IH|d IH|d IH|d IH|d IH|d IH|d IH|d IH|d IH|d IH];
    intros a; cbn [NilEmpty.string_of_uint Pos.of_uint_acc];
    [reflexivity|..];
    (erewrite digits_prefix_step by (vm_compute; reflexivity));
    rewrite <- IH; do 2 f_equal; lia.
Qed.

Lemma digits_prefix_uint (d : Decimal.uint) :
  digits_prefix 10 (NilEmpty.string_of_uint d) (Some 0)
  = Some (Z.of_N (Pos.of_uint d)).
Proof.
  induction d as [|d IH|d IH|d IH|d IH|d IH|d IH|d IH|d IH|d IH|d IH];
    cbn [NilEmpty.string_of_uint Pos.of_uint];
    [reflexivity|..];
    (erewrite digits_prefix_step by (vm_compute; reflexivity));
    [exact IH|..]; apply digits_prefix_uint_acc.
Qed.

Lemma digits_prefix_uint_start (d : Decimal.uint) :
  d <> Decimal.Nil ->
  digits_prefix 10 (NilEmpty.string_of_uint d) None
  = Some (Z.of_N (Pos.of_uint d)).
Proof.
  destruct d; [congruence|..]; intros _;
    cbn [NilEmpty.string_of_uint Pos.of_uint];
    (erewrite digits_prefix_start by (vm_compute; reflexivity));
    [apply digits_prefix_uint|..]; apply digits_prefix_uint_acc.
Qed.

Lemma string_of_uint_hex (d : Decimal.uint) :
  all_hex (NilEmpty.string_of_uint d) = true.
Proof.
  induction d; cbn [NilEmpty.string_of_uint all_hex]; [reflexivity|..];
    rewrite IHd; reflexivity.
Qed.

(** [parseInt] without a radix on a non-empty string of hex digits takes
    the longest run of decimal digits. *)
Lemma parseInt_plain (s : string) :
  all_hex s = true -> s <> EmptyString ->
  parseInt s 0 = match digits_prefix 10 s None with
                 | None => NaN
                 | Some m => Num m
                 end.
Proof.
  destruct s as [|c0 r]; [congruence|]. intros H _.
  cbn [all_hex] in H. apply andb_prop in H as [H0 Hr].
  destruct (is_hex_plain c0 H0) as (Hw & Hm & Hp & _).
  unfold parseInt. cbn [trim_start]. rewrite Hw, Hm, Hp.
  cbn [Z.eqb negb andb orb].
  destruct r as [|c1 r'].
  - destruct (digits_prefix 10 _ None) as [m|]; [f_equal; lia | reflexivity].
  - cbn [all_hex] in Hr. apply andb_prop in Hr as [H1 _].
    destruct (is_hex_plain c1 H1) as (_ & _ & _ & Hx & HX).
    rewrite Hx, HX, andb_false_r.
    destruct (digits_prefix 10 _ None) as [m|]; [f_equal; lia | reflexivity].
Qed.

Lemma uint_string_nonempty (d : Decimal.uint) :
  d <> Decimal.Nil -> NilEmpty.string_of_uint d <> EmptyString.
Proof. destruct d; [congruence|..]; discriminate. Qed.

(** Reading back the decimal digits of a number that is not negative. *)
Lemma parseInt_Z_to_string (n : Z) :
  0 <= n -> parseInt (Z_to_string n) 0 = Num n.
Proof.
  intros Hn. destruct n as [|p|p]; [reflexivity| |lia].
  unfold Z_to_string. cbn [Z.to_int NilZero.string_of_int].
  pose proof (DecimalPos.Unsigned.to_uint_nonnil p) as Hnil.
  assert (E : NilZero.string_of_uint (Pos.to_uint p)
              = NilEmpty.string_of_uint (Pos.to_uint p)).
  { unfold NilZero.string_of_uint. now destruct (Pos.to_uint p). }
  rewrite E.
  rewrite parseInt_plain
    by (apply string_of_uint_hex || now apply uint_string_nonempty).
  rewrite (digits_prefix_uint_start _ Hnil).
  now rewrite DecimalPos.Unsigned.of_to.
Qed.

Lemma Z_to_string_hex (n : Z) : 0 <= n -> all_hex (Z_to_string n) = true.
Proof.
  intros Hn. destruct n as [|p|p]; [reflexivity| |lia].
  unfold Z_to_string. cbn [Z.to_int NilZero.string_of_int].
  unfold NilZero.string_of_uint.
  destruct (Pos.to_uint p) eqn:E; try reflexivity;
    rewrite <- E; apply string_of_uint_hex.
Qed.

(** A string of hex digits holds no dot. *)
Lemma split_hex (s : string) : all_hex s = true -> split "." s = [s].
Proof.
  induction s as [|c r IH]; [reflexivity|]. cbn [all_hex split]. intros H.
  apply andb_prop in H as [Hc Hr]. rewrite (IH Hr).
  destruct (Ascii.eqb_spec c ".") as [->|_]; [discriminate Hc | reflexivity].
Qed.

Lemma split_entity (t : string) :
  all_hex t = true -> split "." ("0.0." ++ t) = ["0"; "0"; t].
Proof. intros H. cbn. now rewrite (split_hex t H). Qed.

(** The entity number of [0.0.n] is [n]. *)
Lemma entity_of_entity_id (n : Z) :
  0 <= n -> DexPlugin.entity_of_id ("0.0." ++ Z_to_string n) = Num n.
Proof.
  intros Hn. unfold DexPlugin.entity_of_id.
  rewrite (split_entity _ (Z_to_string_hex n Hn)). cbn [nth_error str_toString].
  now apply parseInt_Z_to_string.
Qed.

End DecimalRoundTrip.

Section DecodedIdentifiers.

Lemma entity_id_valid (n : Z) :
  0 < n <= 100000000 -> entity_id n = "0.0." ++ Z_to_string n.
Proof.
  intros H. unfold entity_id.
  destruct (Z.eqb_spec n 0); [lia|]. destruct (Z.ltb_spec 100000000 n); [lia|].
  reflexivity.
Qed.

(** [hexToHederaId] of [plugin-hedera-dex] on a 32-byte topic. *)
Lemma dex_topic_id (topic : string) :
  is_topic32 topic = true ->
  DexPlugin.hexToHederaId topic
  = entity_id (hex_number 0 (slice_last 8 topic)).
Proof.
  intros H. destruct (topic32_last_8 topic H) as (p & Hp & Hl & Hh).
  exact (hexToHederaId_decode topic p _ Hp Hl Hh).
Qed.

Lemma synthetic_id (n1 n2 : Z) (d : option string) :
  0 <= n1 -> 0 <= n2 ->
  DexPlugin.extractPoolContractId d ("0.0." ++ Z_to_string n1)
    ("0.0." ++ Z_to_string n2)
  = "0.0." ++ Z_to_string (n1 + n2 + 1000000).
Proof.
  intros H1 H2. unfold DexPlugin.extractPoolContractId.
  rewrite !entity_of_entity_id by assumption.
  cbn [num_add num_abs number_toString]. now rewrite Z.abs_eq by lia.
Qed.

Lemma hex_number_acc (s : string) (a : Z) :
  hex_number a s = a * 16 ^ Z.of_nat (String.length s) + hex_number 0 s.
Proof.
  revert a. induction s as [|c r IH]; intros a.
  - cbn. lia.
  - cbn [hex_number String.length]. rewrite (IH (16 * a + _)), (IH (16 * 0 + _)).
    rewrite Nat2Z.inj_succ, Z.pow_succ_r by lia. ring.
Qed.

Lemma hex_number_append (p t : string) (a : Z) :
  hex_number a (p ++ t) = hex_number (hex_number a p) t.
Proof.
  revert a. induction p as [|c r IH]; intros a; [reflexivity|].
  cbn [append hex_number]. apply IH.
Qed.

(** [parseInt(_, 16)] on [0x] followed by hex digits. *)
Lemma parseInt_0x (h : string) :
  all_hex h = true -> h <> EmptyString ->
  parseInt ("0x" ++ h) 16 = Num (hex_number 0 h).
Proof.
  intros H Hne. destruct h as [|c r]; [congruence|].
  pose proof (digits_prefix_hex_start c r H) as Hd.
  unfold parseInt. cbn [append trim_start].
  change (is_white "0") with false. cbv iota.
  change (Ascii.eqb "0" "-") with false.
  change (Ascii.eqb "0" "+") with false. cbv iota.
  cbn [Z.eqb Z.ltb Z.compare Pos.compare Pos.compare_cont negb andb orb].
  change (Ascii.eqb "0" "0") with true.
  change (Ascii.eqb "x" "x") with true.
  change ((16 =? 16)%positive) with true. cbn [andb orb]. cbv iota beta.
  rewrite Hd. f_equal. lia.
Qed.

End DecodedIdentifiers.

(** X4.  For two 32-byte topics whose entity numbers [n1] and [n2] are
    valid (from 1 to 100000000), the synthetic pool id is
    [0.0.(n1 + n2 + 1000000)]: it does not depend on the event data or
    on the order of the two tokens, and it is never the sentinel, so
    such an entry is never discarded for its pool id. *)
Theorem pool_id_of_valid_tokens (topic1 topic2 : string)
    (eventData : option string) :
  is_topic32 topic1 = true ->
  is_topic32 topic2 = true ->
  0 < hex_number 0 (slice_last 8 topic1) <= 100000000 ->
  0 < hex_number 0 (slice_last 8 topic2) <= 100000000 ->
  DexPlugin.extractPoolContractId eventData
    (DexPlugin.hexToHederaId topic1) (DexPlugin.hexToHederaId topic2)
  = "0.0." ++ Z_to_string (hex_number 0 (slice_last 8 topic1)
                             + hex_number 0 (slice_last 8 topic2) + 1000000)
  /\ DexPlugin.extractPoolContractId None
       (DexPlugin.hexToHederaId topic2) (DexPlugin.hexToHederaId topic1)
     = DexPlugin.extractPoolContractId eventData
         (DexPlugin.hexToHederaId topic1) (DexPlugin.hexToHederaId topic2)
  /\ dex_invalid topic1 topic2 eventData = false.
Proof.
  intros T1 T2 V1 V2.
  set (n1 := hex_number 0 (slice_last 8 topic1)) in *.
  set (n2 := hex_number 0 (slice_last 8 topic2)) in *.
  assert (E1 : DexPlugin.hexToHederaId topic1 = "0.0." ++ Z_to_string n1)
    by (rewrite (dex_topic_id _ T1); now apply entity_id_valid).
  assert (E2 : DexPlugin.hexToHederaId topic2 = "0.0." ++ Z_to_string n2)
    by (rewrite (dex_topic_id _ T2); now apply entity_id_valid).
  assert (S : forall a b : Z, "0.0." ++ Z_to_string a = "0.0.0" -> a = 0).
  { intros a b H. apply Z_to_string_inj. cbn [append] in H. now injection H. }
  unfold dex_invalid. rewrite E1, E2, !synthetic_id by lia.
  split; [reflexivity|]. split; [now rewrite (Z.add_comm n2 n1)|].
  repeat (apply orb_false_intro); apply String.eqb_neq; intros H;
    apply (S _ 0) in H; lia.
Qed.

Lemma pool_id_of_valid_tokens_witness :
  (is_topic32 Sample.topic_1234 = true /\ is_topic32 Sample.topic_5678 = true
   /\ 0 < hex_number 0 (slice_last 8 Sample.topic_1234) <= 100000000
   /\ 0 < hex_number 0 (slice_last 8 Sample.topic_5678) <= 100000000)
  /\ DexPlugin.extractPoolContractId (Some Sample.event_data)
       (DexPlugin.hexToHederaId Sample.topic_1234)
       (DexPlugin.hexToHederaId Sample.topic_5678)
     = "0.0." ++ Z_to_string (4660 + 22136 + 1000000)
  /\ dex_invalid Sample.topic_1234 Sample.topic_5678 (Some Sample.event_data)
     = false.
Proof.
  assert (V1 : 0 < hex_number 0 (slice_last 8 Sample.topic_1234) <= 100000000)
    by (vm_compute; split; [reflexivity | discriminate]).
  assert (V2 : 0 < hex_number 0 (slice_last 8 Sample.topic_5678) <= 100000000)
    by (vm_compute; split; [reflexivity | discriminate]).
  split; [repeat split; try reflexivity; try apply V1; apply V2|].
  destruct (pool_id_of_valid_tokens Sample.topic_1234 Sample.topic_5678
              (Some Sample.event_data) eq_refl eq_refl V1 V2) as (E & _ & I).
  split; [exact E | exact I].
Defined.

(** X5.  On a topic of [0x] and 64 hex digits whose value [N] is below
    [2^53], [hexToHederaId] of [src/plugin.ts] gives [0.0.N], and the
    two plugins decode the same identifier exactly when
    [N <= 100000000]. *)
Theorem token_decoders_agree_up_to_100000000 (h : string) :
  String.length h = 64%nat ->
  all_hex h = true ->
  hex_number 0 h < 2 ^ 53 ->
  AgentPlugin.hexToHederaId ("0x" ++ h)
  = "0.0." ++ Z_to_string (hex_number 0 h)
  /\ (DexPlugin.hexToHederaId ("0x" ++ h)
      = AgentPlugin.hexToHederaId ("0x" ++ h)
      <-> hex_number 0 h <= 100000000).
Proof.
  intros Hl Hh _.
  assert (A : AgentPlugin.hexToHederaId ("0x" ++ h)
              = "0.0." ++ Z_to_string (hex_number 0 h)).
  { unfold AgentPlugin.hexToHederaId.
    rewrite parseInt_0x by (try assumption; now destruct h). reflexivity. }
  split; [exact A|]. rewrite A.
  set (t := drop 56 h). set (p := take 56 h).
  assert (Hpt : h = p ++ t) by (symmetry; apply take_drop).
  assert (Ht : all_hex t = true) by now apply all_hex_drop.
  assert (Lt : String.length t = 8%nat)
    by (unfold t; rewrite drop_length, Hl; reflexivity).
  assert (D : DexPlugin.hexToHederaId ("0x" ++ h)
              = entity_id (hex_number 0 t)).
  { apply (hexToHederaId_decode _ p t); [|exact Lt|exact Ht].
    rewrite <- Hpt. unfold strip_0x_prefix.
    assert (P : String.prefix "0x" ("0x" ++ h) = true)
      by (vm_compute; now destruct h).
    rewrite P. reflexivity. }
  rewrite D.
  assert (N : hex_number 0 h
              = hex_number 0 p * 16 ^ 8 + hex_number 0 t).
  { rewrite Hpt at 1. rewrite hex_number_append, hex_number_acc, Lt.
    reflexivity. }
  pose proof (hex_number_mono p 0 ltac:(lia)) as P0.
  pose proof (hex_number_mono t 0 ltac:(lia)) as T0.
  pose proof (hex_number_bound t 0 Ht ltac:(lia)) as T1. rewrite Lt in T1.
  change (16 ^ Z.of_nat 8) with 4294967296 in T1.
  change (16 ^ 8) with 4294967296 in N.
  assert (S : forall a b : Z,
             "0.0." ++ Z_to_string a = "0.0." ++ Z_to_string b -> a = b).
  { intros a b H. apply Z_to_string_inj. cbn [append] in H. now injection H. }
  destruct (entity_id_cases (hex_number 0 t) T0) as [_ [E|[B E]]]; rewrite E.
  - split.
    + intros H. apply (S 0) in H. lia.
    + intros H. assert (hex_number 0 h = hex_number 0 t) as Heq by lia.
      rewrite Heq in *.
      destruct (entity_id_cases (hex_number 0 t) T0) as [C _].
      apply C in E. destruct E as [E|E]; [|lia]. now rewrite E.
  - split.
    + intros H. apply S in H. lia.
    + intros H. f_equal. f_equal. lia.
Qed.

Lemma token_decoders_agree_up_to_100000000_witness :
  let h := "0000000000000000000000000000000000000000000000000000000000001234" in
  (String.length h = 64%nat /\ all_hex h = true /\ hex_number 0 h < 2 ^ 53)
  /\ AgentPlugin.hexToHederaId ("0x" ++ h) = "0.0." ++ Z_to_string 4660
  /\ (DexPlugin.hexToHederaId ("0x" ++ h)
      = AgentPlugin.hexToHederaId ("0x" ++ h)
      <-> hex_number 0 h <= 100000000).
Proof.
  intros h. split; [repeat split|].
  exact (token_decoders_agree_up_to_100000000 h eq_refl eq_refl eq_refl).
Defined.

(* ================================================================= *)
(** ** plugin-hedera-dex: more on the two handlers *)

Section DexHandlers.

Import DexPlugin.

(** [LIST_POOLS], from the decoded pools on. *)
Lemma listPoolsAction_run (runtime : Settings) (callback : Callback)
    (w : World) (tr : list string) :
  listPoolsAction runtime callback w tr
  = let failed := fun e tr' =>
        (Ok (Failed ("Failed to fetch pools from SaucerSwap: " ++ e)
               "FETCH_POOLS_FAILED" e), tr') in
    match decoded_pools runtime w tr with
    | (Throw e, tr') => failed e tr'
    | (Ok (url, allPools), tr') =>
        if (List.length allPools =? 0)%nat
        then failed "No pools found in contract events" tr'
        else
          match callback with
          | CallbackThrows e => failed e tr'
          | _ =>
              (Ok (Succeeded
                     ("Successfully fetched "
                        ++ nat_toString (List.length allPools)
                        ++ " pools from SaucerSwap")
                     (List.length allPools) (firstn 20 allPools)
                     ("Hedera Mirror Node (" ++ url ++ ") - "
                        ++ nat_toString (List.length allPools)
                        ++ " pools from contract events")), tr')
          end
    end.
Proof.
  unfold listPoolsAction, decoded_pools, try_catch, bind.
  destruct (configuration runtime w tr) as [[[[network u] f]|e] tr1];
    [|reflexivity].
  destruct (axios_get _ w tr1) as [[d|e] tr2]; [|reflexivity].
  destruct (the_object "logs" d w tr2) as [[b|e] tr3]; [|reflexivity].
  destruct (parsePoolCreationEvents _ u w tr3) as [[allPools|e] tr4];
    [|reflexivity].
  unfold ret, throw. cbv zeta.
  destruct (List.length allPools =? 0)%nat; [reflexivity|].
  destruct callback; reflexivity.
Qed.

(** On a network without addresses the settings are refused, with no
    request made. *)
Lemma configuration_refused (runtime : Settings) (w : World)
    (tr : list string) :
  CONTRACT_ADDRESSES (network_of runtime) = None ->
  configuration runtime w tr = (Throw (config_error runtime), tr).
Proof.
  unfold configuration, config_error, network_of. intros ->. cbn [option_map].
  now destruct (truthy (HEDERA_MIRROR_NODE_URL runtime)).
Qed.

Lemma decoded_pools_refused (runtime : Settings) (w : World)
    (tr : list string) :
  CONTRACT_ADDRESSES (network_of runtime) = None ->
  decoded_pools runtime w tr = (Throw (config_error runtime), tr).
Proof.
  intros H. unfold decoded_pools, bind.
  now rewrite (configuration_refused runtime w tr H).
Qed.

(** The decoded pools when the logs hold no pool creation. *)
Lemma decoded_pools_none (runtime : Settings) (w : World) (tr : list string)
    (network mirrorNodeUrl factoryContract : string) (b : Body) :
  configuration runtime w tr
  = (Ok (network, mirrorNodeUrl, factoryContract), tr) ->
  reply w tr (dex_logs_url mirrorNodeUrl factoryContract) = Ok (Some b) ->
  Forall not_pool_creation (logs_of b) ->
  decoded_pools runtime w tr
  = (Ok (mirrorNodeUrl, []),
     (tr ++ [dex_logs_url mirrorNodeUrl factoryContract])%list).
Proof.
  unfold dex_logs_url, logs_of. intros Hc Hr Hl.
  unfold decoded_pools, bind. rewrite Hc.
  unfold axios_get. rewrite Hr. unfold the_object, ret.
  unfold parsePoolCreationEvents.
  rewrite for_of_all_skipped; [reflexivity|].
  eapply Forall_impl; [|exact Hl].
  intros x Hx s' tr'. now apply dex_parse_log_other.
Qed.

End DexHandlers.

(** X6.  On a network [plugin-hedera-dex] has no addresses for (any but
    mainnet and testnet), [LIST_POOLS] and [GET_POOL_INFO] fail at once,
    without a request: with [Unsupported network] when no mirror-node
    URL is set, and with [Factory contract not found] when one is, so
    that a URL of the user does not make another network usable. *)
Theorem dex_unsupported_network_fails_without_request (runtime : Settings)
    (callback : Callback) (symbolA symbolB : string) (w : World)
    (tr : list string) :
  DexPlugin.CONTRACT_ADDRESSES (network_of runtime) = None ->
  DexPlugin.listPoolsAction runtime callback w tr
  = (Ok (Failed ("Failed to fetch pools from SaucerSwap: "
                   ++ config_error runtime)
           "FETCH_POOLS_FAILED" (config_error runtime)), tr)
  /\ DexPlugin.getPoolInfoAction runtime
       (DexPlugin.TokenPair symbolA symbolB) callback w tr
     = (Ok (Failed ("Failed to get pool information: "
                      ++ config_error runtime)
              "GET_POOL_INFO_FAILED" (config_error runtime)), tr).
Proof.
  intros H. rewrite listPoolsAction_run, getPoolInfoAction_run. cbv zeta.
  now rewrite (decoded_pools_refused runtime w tr H).
Qed.

Lemma dex_unsupported_network_fails_without_request_witness :
  let runtime := {| HEDERA_NETWORK := Some "previewnet";
                    HEDERA_MIRROR_NODE_URL :=
                      Some "https://previewnet.mirrornode.hedera.com";
                    DEMO_MODE := None |} in
  DexPlugin.CONTRACT_ADDRESSES (network_of runtime) = None
  /\ DexPlugin.listPoolsAction runtime CallbackReturns
       (Sample.always Sample.whbar) []
     = (Ok (Failed ("Failed to fetch pools from SaucerSwap: "
                      ++ "Factory contract not found for network: previewnet")
              "FETCH_POOLS_FAILED"
              "Factory contract not found for network: previewnet"), []).
Proof.
  intros runtime. split; [reflexivity|].
  exact (proj1 (dex_unsupported_network_fails_without_request runtime
                  CallbackReturns "whbar" "usdc"
                  (Sample.always Sample.whbar) [] eq_refl)).
Defined.

(** X7.  When the factory's logs hold no pool creation (none at all, no
    [logs] property, or only other events), [LIST_POOLS] of
    [plugin-hedera-dex] fails with [No pools found in contract events]
    after its one request, whatever the callback. *)
Theorem dex_list_pools_fails_on_empty_logs (runtime : Settings)
    (callback : Callback) (w : World) (tr : list string)
    (network mirrorNodeUrl factoryContract : string) (b : Body) :
  DexPlugin.configuration runtime w tr
  = (Ok (network, mirrorNodeUrl, factoryContract), tr) ->
  reply w tr (dex_logs_url mirrorNodeUrl factoryContract) = Ok (Some b) ->
  Forall not_pool_creation (logs_of b) ->
  DexPlugin.listPoolsAction runtime callback w tr
  = (Ok (Failed ("Failed to fetch pools from SaucerSwap: "
                   ++ "No pools found in contract events")
           "FETCH_POOLS_FAILED" "No pools found in contract events"),
     (tr ++ [dex_logs_url mirrorNodeUrl factoryContract])%list).
Proof.
  intros Hc Hr Hl. rewrite listPoolsAction_run. cbv zeta.
  now rewrite (decoded_pools_none runtime w tr _ _ _ b Hc Hr Hl).
Qed.

Lemma dex_list_pools_fails_on_empty_logs_witness :
  let w := Sample.mirror [] in
  (DexPlugin.configuration Sample.testnet w []
   = (Ok ("testnet", "https://testnet.mirrornode.hedera.com", "0.0.1197038"),
      [])
   /\ Forall not_pool_creation ([] : list RawLog))
  /\ DexPlugin.listPoolsAction Sample.testnet CallbackReturns w []
     = (Ok (Failed ("Failed to fetch pools from SaucerSwap: "
                      ++ "No pools found in contract events")
              "FETCH_POOLS_FAILED" "No pools found in contract events"),
        ([] ++ [dex_logs_url "https://testnet.mirrornode.hedera.com"
                  "0.0.1197038"])%list).
Proof.
  intros w. split; [split; [reflexivity | constructor]|].
  exact (dex_list_pools_fails_on_empty_logs Sample.testnet CallbackReturns w []
           "testnet" "https://testnet.mirrornode.hedera.com" "0.0.1197038"
           _ eq_refl eq_refl (Forall_nil _)).
Defined.

(** X8.  A successful [LIST_POOLS] of [plugin-hedera-dex] carries the
    first 20 decoded pools, in the order of the decoding: never more
    than 20 and never none, while its pool count is the number of all
    the decoded pools. *)
Theorem dex_list_pools_returns_first_20 (runtime : Settings)
    (callback : Callback) (w : World) (tr : list string)
    (text : string) (count : nat) (pools : list Pool.t) (dataSource : string) :
  fst (DexPlugin.listPoolsAction runtime callback w tr)
  = Ok (Succeeded text count pools dataSource) ->
  exists url allPools tr',
    decoded_pools runtime w tr = (Ok (url, allPools), tr')
    /\ pools = firstn 20 allPools
    /\ count = List.length allPools
    /\ (1 <= List.length pools <= 20)%nat
    /\ (List.length pools <= count)%nat.
Proof.
  rewrite listPoolsAction_run. cbv zeta.
  destruct (decoded_pools runtime w tr) as [[[url allPools]|e] tr'] eqn:E;
    [|discriminate].
  destruct (List.length allPools =? 0)%nat eqn:L; [discriminate|].
  apply Nat.eqb_neq in L.
  pose proof (length_firstn 20 allPools) as LF.
  remember (firstn 20 allPools) as F eqn:HF.
  assert (R : forall t d,
             @Ok ActionResult (Succeeded t (List.length allPools) F d)
             = Ok (Succeeded text count pools dataSource) ->
              exists url0 allPools0 tr0,
                (Ok (url, allPools), tr') = (Ok (url0, allPools0), tr0)
                /\ pools = firstn 20 allPools0
                /\ count = List.length allPools0
                /\ (1 <= List.length pools <= 20)%nat
                /\ (List.length pools <= count)%nat).
  { intros t d H. injection H as _ Hc Hp _. subst count pools.
    exists url, allPools, tr'. rewrite <- HF. repeat split; lia. }
  destruct callback; cbn [fst]; intros H; try discriminate H;
    exact (R _ _ H).
Qed.

Lemma dex_list_pools_returns_first_20_witness :
  let log := creation_log Sample.topic_1234 Sample.topic_5678
               Sample.topic_fee_3000 [] (Some Sample.event_data) in
  let w := Sample.mirror [log] in
  exists text pools dataSource,
    fst (DexPlugin.listPoolsAction Sample.testnet CallbackReturns w [])
    = Ok (Succeeded text 1 pools dataSource)
    /\ exists url allPools tr',
        decoded_pools Sample.testnet w [] = (Ok (url, allPools), tr')
        /\ pools = firstn 20 allPools
        /\ (1 <= List.length pools <= 20)%nat.
Proof.
  intros log w. eexists _, _, _. split; [vm_compute; reflexivity|].
  destruct (dex_list_pools_returns_first_20 Sample.testnet CallbackReturns
              w [] _ _ _ _ eq_refl) as (url & all & tr' & E & P & _ & L & _).
  exists url, all, tr'. split; [exact E|]. split; [exact P | exact L].
Defined.

(* ================================================================= *)
(** ** The tokens named when no pool is found *)

Section AvailableTokens.

Import DexPlugin.








End AvailableTokens.



(* ================================================================= *)
(** ** src/plugin.ts: more on the action and the route *)

Section AgentHandlers.

Import AgentPlugin.

(** The pools and the label both the action and the route work with. *)
Lemma agent_run (runtime : Settings) (callback : Callback) (w : World)
    (tr : list string) :
  exists allPools dataSource tr',
    fetchAllPoolsAction runtime callback w tr
    = (Ok (agent_result callback allPools dataSource), tr')
    /\ AgentRoute.pools_route runtime w tr
       = (Ok (AgentRoute.Json (network_of runtime)
                (demo_mode_on runtime
                 || match SAUCERSWAP_V2_FACTORY_CONTRACTS (network_of runtime)
                    with
                    | Some _ => false
                    | None => true
                    end)
                (List.length allPools) (firstn 20 allPools) dataSource
                (getHederaMirrorNodeUrl (network_of runtime)
                   (HEDERA_MIRROR_NODE_URL runtime))
                (SAUCERSWAP_V2_FACTORY_CONTRACTS (network_of runtime))), tr')
    /\ allPools <> [].
Proof.
  unfold fetchAllPoolsAction, AgentRoute.pools_route, network_of, demo_mode_on.
  cbv zeta.
  destruct (match DEMO_MODE runtime with
            | Some v => String.eqb v "true"
            | None => false
            end).
  { eexists mockPoolsData, _, _.
    split; [destruct callback; reflexivity|].
    split; [reflexivity | discriminate]. }
  destruct (SAUCERSWAP_V2_FACTORY_CONTRACTS _) as [factory|].
  2: { eexists mockPoolsData, _, _.
       split; [destruct callback; reflexivity|].
       split; [reflexivity | discriminate]. }
  unfold try_catch, bind.
  destruct (axios_get _ w tr) as [[d|e] tr1].
  2: { eexists mockPoolsData, _, _.
       split; [destruct callback; reflexivity|].
       split; [reflexivity | discriminate]. }
  destruct (the_object "logs" d w tr1) as [[b|e] tr2].
  2: { eexists mockPoolsData, _, _.
       split; [destruct callback; reflexivity|].
       split; [reflexivity | discriminate]. }
  destruct (agent_parse_fetched
              (getHederaMirrorNodeUrl
                 (str_or (HEDERA_NETWORK runtime) "mainnet")
                 (HEDERA_MIRROR_NODE_URL runtime)) w
              (match j_logs b with Some l => l | None => [] end) tr2)
    as (pools & tr3 & E & _).
  rewrite E. destruct pools as [|p pools].
  - eexists mockPoolsData, _, _.
    split; [destruct callback; reflexivity|].
    split; [reflexivity | discriminate].
  - eexists (p :: pools), _, _.
    split; [destruct callback; reflexivity|].
    split; [reflexivity | discriminate].
Qed.

(** The action when the logs hold no pool creation. *)
Lemma agent_no_pools (runtime : Settings) (factoryContract : string)
    (callback : Callback) (w : World) (tr : list string) (b : Body) :
  demo_mode_on runtime = false ->
  SAUCERSWAP_V2_FACTORY_CONTRACTS (network_of runtime) = Some factoryContract ->
  reply w tr (agent_logs_url runtime factoryContract) = Ok (Some b) ->
  Forall not_pool_creation (logs_of b) ->
  fetchAllPoolsAction runtime callback w tr
  = (Ok (agent_result callback mockPoolsData
           ("Hedera Mirror Node ("
              ++ getHederaMirrorNodeUrl (network_of runtime)
                   (HEDERA_MIRROR_NODE_URL runtime)
              ++ ") - No pools found, using mock data")),
     (tr ++ [agent_logs_url runtime factoryContract])%list).
Proof.
  unfold agent_logs_url, demo_mode_on, network_of, logs_of.
  intros Hd Hf Hr Hl.
  unfold fetchAllPoolsAction. cbv zeta. rewrite Hd, Hf.
  unfold try_catch, bind, axios_get. rewrite Hr.
  unfold the_object, ret, parsePoolCreationEvents.
  rewrite for_of_all_skipped; [destruct callback; reflexivity|].
  eapply Forall_impl; [|exact Hl].
  intros x Hx s' tr'. now apply agent_parse_log_other.
Qed.

End AgentHandlers.

(** X10.  The [/pools] route and the [FETCH_ALL_POOLS] action of
    [src/plugin.ts] agree, whatever the callback of the action: for the
    same settings and mirror node they make the same requests and settle
    on the same list of pools, never empty, and on the same data-source
    label.  The route answers with the number of the pools and the first
    20 of them, and never with status 500.  The action answers, when its
    callback returns, with the number of the pools and the first 10 of
    them, and when it has no callback or the callback throws, with a
    failure that carries the error of the call. *)
Theorem pools_route_agrees_with_action (runtime : Settings)
    (callback : Callback) (w : World) (tr : list string) :
  exists allPools dataSource demoMode url factory tr',
    AgentRoute.pools_route runtime w tr
    = (Ok (AgentRoute.Json (network_of runtime) demoMode
             (List.length allPools) (firstn 20 allPools) dataSource url
             factory), tr')
    /\ allPools <> []
    /\ AgentPlugin.fetchAllPoolsAction runtime callback w tr
       = (Ok match callback with
             | CallbackReturns =>
                 Succeeded ("Successfully fetched "
                              ++ nat_toString (List.length allPools)
                              ++ " pools from SaucerSwap")
                   (List.length allPools) (firstn 10 allPools) dataSource
             | NoCallback =>
                 Failed ("Failed to fetch pools from SaucerSwap: "
                           ++ "callback is not a function")
                   "FETCH_POOLS_FAILED" "callback is not a function"
             | CallbackThrows e =>
                 Failed ("Failed to fetch pools from SaucerSwap: " ++ e)
                   "FETCH_POOLS_FAILED" e
             end, tr').
Proof.
  destruct (agent_run runtime callback w tr)
    as (allPools & ds & tr' & A & R & N).
  eexists allPools, ds, _, _, _, tr'.
  split; [exact R|]. split; [exact N|].
  rewrite A. now destruct callback.
Qed.

(** X11.  When the factory's logs hold no pool creation (none at all, no
    [logs] property, or only other events), [FETCH_ALL_POOLS] of
    [src/plugin.ts] settles, after its one request, on the demo dataset
    under the label [No pools found, using mock data]: it answers with
    them when its callback returns, and with a failure that carries the
    error of the call when it has no callback or the callback throws. *)
Theorem agent_falls_back_on_empty_logs (runtime : Settings)
    (factoryContract : string) (callback : Callback) (w : World)
    (tr : list string) (b : Body) :
  demo_mode_on runtime = false ->
  AgentPlugin.SAUCERSWAP_V2_FACTORY_CONTRACTS (network_of runtime)
  = Some factoryContract ->
  reply w tr (agent_logs_url runtime factoryContract) = Ok (Some b) ->
  Forall not_pool_creation (logs_of b) ->
  exists dataSource,
    includes "No pools found, using mock data" dataSource = true
    /\ AgentPlugin.fetchAllPoolsAction runtime callback w tr
       = (Ok match callback with
             | CallbackReturns =>
                 Succeeded "Successfully fetched 1 pools from SaucerSwap" 1
                   AgentPlugin.mockPoolsData dataSource
             | NoCallback =>
                 Failed ("Failed to fetch pools from SaucerSwap: "
                           ++ "callback is not a function")
                   "FETCH_POOLS_FAILED" "callback is not a function"
             | CallbackThrows e =>
                 Failed ("Failed to fetch pools from SaucerSwap: " ++ e)
                   "FETCH_POOLS_FAILED" e
             end,
          (tr ++ [agent_logs_url runtime factoryContract])%list).
Proof.
  intros Hd Hf Hr Hl.
  rewrite (agent_no_pools runtime factoryContract callback w tr b Hd Hf Hr Hl).
  eexists. split; [|now destruct callback].
  apply includes_append, includes_append. reflexivity.
Qed.

Lemma agent_falls_back_on_empty_logs_witness :
  let other := {| topics := Some ["0xddf252ad"]; data := None |} in
  let w := Sample.mirror [other] in
  (demo_mode_on Sample.testnet = false
   /\ AgentPlugin.SAUCERSWAP_V2_FACTORY_CONTRACTS (network_of Sample.testnet)
      = Some "0.0.1197038"
   /\ Forall not_pool_creation [other])
  /\ exists dataSource,
      includes "No pools found, using mock data" dataSource = true
      /\ AgentPlugin.fetchAllPoolsAction Sample.testnet CallbackReturns w []
         = (Ok (Succeeded "Successfully fetched 1 pools from SaucerSwap" 1
                  AgentPlugin.mockPoolsData dataSource),
            ([] ++ [agent_logs_url Sample.testnet "0.0.1197038"])%list).
Proof.
  intros other w.
  assert (O : Forall not_pool_creation [other])
    by (constructor; [left; discriminate | constructor]).
  split; [split; [reflexivity | split; [reflexivity | exact O]]|].
  exact (agent_falls_back_on_empty_logs Sample.testnet "0.0.1197038"
           CallbackReturns w [] _ eq_refl eq_refl eq_refl O).
Defined.

(** X12.  On a network for which the table of [src/plugin.ts] gives no
    factory (previewnet, or a name that is neither a key of the table
    nor a member every object inherits), with the demo mode off, the
    action and the route make no request and settle on the demo dataset
    under the label [Demo Mode (... not supported)]: the route answers
    with it and reports the demo mode as on; the action answers with it
    when its callback returns, and with a failure that carries the error
    of the call when it has no callback or the callback throws. *)
Theorem agent_unsupported_network_uses_demo_data (runtime : Settings)
    (callback : Callback) (w : World) (tr : list string) :
  demo_mode_on runtime = false ->
  AgentPlugin.SAUCERSWAP_V2_FACTORY_CONTRACTS (network_of runtime) = None ->
  AgentPlugin.fetchAllPoolsAction runtime callback w tr
  = (Ok match callback with
        | CallbackReturns =>
            Succeeded "Successfully fetched 1 pools from SaucerSwap" 1
              AgentPlugin.mockPoolsData
              ("Demo Mode (" ++ network_of runtime ++ " not supported)")
        | NoCallback =>
            Failed ("Failed to fetch pools from SaucerSwap: "
                      ++ "callback is not a function")
              "FETCH_POOLS_FAILED" "callback is not a function"
        | CallbackThrows e =>
            Failed ("Failed to fetch pools from SaucerSwap: " ++ e)
              "FETCH_POOLS_FAILED" e
        end, tr)
  /\ AgentRoute.pools_route runtime w tr
     = (Ok (AgentRoute.Json (network_of runtime) true 1
              AgentPlugin.mockPoolsData
              ("Demo Mode (" ++ network_of runtime ++ " not supported)")
              (AgentPlugin.getHederaMirrorNodeUrl (network_of runtime)
                 (HEDERA_MIRROR_NODE_URL runtime))
              None), tr).
Proof.
  unfold demo_mode_on, network_of. intros Hd Hf.
  unfold AgentPlugin.fetchAllPoolsAction, AgentRoute.pools_route. cbv zeta.
  rewrite Hd, Hf. split; [destruct callback|]; reflexivity.
Qed.

Lemma agent_unsupported_network_uses_demo_data_witness :
  let runtime := {| HEDERA_NETWORK := Some "previewnet";
                    HEDERA_MIRROR_NODE_URL := None;
                    DEMO_MODE := Some "false" |} in
  (demo_mode_on runtime = false
   /\ AgentPlugin.SAUCERSWAP_V2_FACTORY_CONTRACTS (network_of runtime) = None)
  /\ AgentPlugin.fetchAllPoolsAction runtime CallbackReturns Sample.down []
     = (Ok (Succeeded "Successfully fetched 1 pools from SaucerSwap" 1
              AgentPlugin.mockPoolsData
              ("Demo Mode (" ++ "previewnet" ++ " not supported)")), []).
Proof.
  intros runtime. split; [split; reflexivity|].
  exact (proj1 (agent_unsupported_network_uses_demo_data runtime
                  CallbackReturns Sample.down [] eq_refl eq_refl)).
Defined.

(* ================================================================= *)
(** ** saucerswap-abi.ts: addresses, paths and bytes *)

Section HexPrinting.

Lemma hex_digit_value (d : Z) :
  0 <= d < 16 -> radix_digit 16 (hex_digit d) = Some d.
Proof.
  intros H.
  assert (E : d = 0 \/ d = 1 \/ d = 2 \/ d = 3 \/ d = 4 \/ d = 5 \/ d = 6
              \/ d = 7 \/ d = 8 \/ d = 9 \/ d = 10 \/ d = 11 \/ d = 12
              \/ d = 13 \/ d = 14 \/ d = 15) by lia.
  repeat (destruct E as [->|E]; [reflexivity|]). subst. reflexivity.
Qed.

Lemma hex_digit_is_hex (d : Z) : 0 <= d < 16 -> is_hex (hex_digit d) = true.
Proof. intros H. unfold is_hex. now rewrite (hex_digit_value d H). Qed.

Lemma hex_digit_digit (d : Z) :
  0 <= d < 16 -> digit_value (hex_digit d) = Some d.
Proof.
  intros H. pose proof (hex_digit_value d H) as E. unfold radix_digit in E.
  destruct (digit_value (hex_digit d)) as [x|]; [|discriminate].
  now destruct (x <? 16).
Qed.

Lemma all_hex_append (a b : string) :
  all_hex (a ++ b) = all_hex a && all_hex b.
Proof.
  induction a as [|c a IH]; cbn [append all_hex]; [reflexivity|].
  now rewrite IH, andb_assoc.
Qed.

Lemma hex_digits_hex (fuel : nat) (n : Z) :
  0 <= n -> all_hex (hex_digits fuel n) = true.
Proof.
  revert n. induction fuel as [|f IH]; intros n Hn; [reflexivity|].
  cbn [hex_digits]. destruct (Z.ltb_spec n 16).
  - cbn [all_hex]. now rewrite hex_digit_is_hex by lia.
  - rewrite all_hex_append, IH by (apply Z.div_pos; lia). cbn [all_hex].
    rewrite hex_digit_is_hex; [reflexivity|]. apply Z.mod_pos_bound. lia.
Qed.

Lemma hex_digits_value (fuel : nat) (n : Z) :
  0 <= n < 16 ^ Z.of_nat fuel -> hex_number 0 (hex_digits fuel n) = n.
Proof.
  revert n. induction fuel as [|f IH]; intros n Hn.
  - cbn in Hn. cbn. lia.
  - cbn [hex_digits]. destruct (Z.ltb_spec n 16).
    + cbn [hex_number]. rewrite hex_digit_digit by lia. lia.
    + rewrite hex_number_append, IH.
      * cbn [hex_number].
        rewrite hex_digit_digit by (apply Z.mod_pos_bound; lia).
        pose proof (Z.div_mod n 16 ltac:(lia)). lia.
      * rewrite Nat2Z.inj_succ, Z.pow_succ_r in Hn by lia.
        split; [apply Z.div_pos; lia|].
        apply Z.div_lt_upper_bound; lia.
Qed.

Lemma hex_digits_length (fuel k : nat) (n : Z) :
  (1 <= k)%nat -> 0 <= n < 16 ^ Z.of_nat k ->
  (String.length (hex_digits fuel n) <= k)%nat.
Proof.
  revert k n. induction fuel as [|f IH]; intros k n Hk Hn; [cbn; lia|].
  cbn [hex_digits]. destruct (Z.ltb_spec n 16); [cbn; lia|].
  rewrite append_length. cbn [String.length].
  destruct k as [|k]; [lia|]. destruct k as [|k]; [cbn in Hn; lia|].
  rewrite Nat2Z.inj_succ, Z.pow_succ_r in Hn by lia.
  specialize (IH (S k) (n / 16) ltac:(lia)).
  assert (0 <= n / 16 < 16 ^ Z.of_nat (S k)).
  { split; [apply Z.div_pos; lia|]. apply Z.div_lt_upper_bound; lia. }
  specialize (IH H0). lia.
Qed.

Lemma hex_digits_nonempty (fuel : nat) (n : Z) :
  hex_digits (S fuel) n <> EmptyString.
Proof.
  cbn [hex_digits]. destruct (n <? 16); [discriminate|].
  destruct (hex_digits fuel (n / 16)); discriminate.
Qed.

Lemma log2_fuel (n : Z) :
  0 <= n -> n < 16 ^ Z.of_nat (S (Z.to_nat (Z.log2 n))).
Proof.
  intros Hn. rewrite Nat2Z.inj_succ, Z2Nat.id by apply Z.log2_nonneg.
  destruct (Z.eq_dec n 0) as [->|N0]; [cbn; lia|].
  pose proof (Z.log2_spec n ltac:(lia)) as [_ H].
  eapply Z.lt_le_trans; [exact H|].
  change 16 with (2 ^ 4). rewrite <- Z.pow_mul_r by (pose proof (Z.log2_nonneg n); lia).
  apply Z.pow_le_mono_r; pose proof (Z.log2_nonneg n); lia.
Qed.

(** [n.toString(16)] for [n >= 0]: hex digits that read back as [n]. *)
Lemma Z_toString16_spec (n : Z) :
  0 <= n ->
  all_hex (Z_toString16 n) = true
  /\ hex_number 0 (Z_toString16 n) = n
  /\ Z_toString16 n <> EmptyString
  /\ forall k, (1 <= k)%nat -> n < 16 ^ Z.of_nat k ->
               (String.length (Z_toString16 n) <= k)%nat.
Proof.
  intros Hn. unfold Z_toString16.
  destruct (Z.ltb_spec n 0); [lia|].
  split; [now apply hex_digits_hex|].
  split; [apply hex_digits_value; split; [lia | now apply log2_fuel]|].
  split; [apply hex_digits_nonempty|].
  intros k Hk Hb. apply hex_digits_length; [exact Hk | lia].
Qed.

Lemma repeat_char_length (k : nat) (c : ascii) :
  String.length (repeat_char k c) = k.
Proof. induction k as [|k IH]; cbn; [reflexivity | now rewrite IH]. Qed.

Lemma padStart_length (k : nat) (c : ascii) (s : string) :
  String.length (padStart k c s) = Nat.max k (String.length s).
Proof. unfold padStart. rewrite append_length, repeat_char_length. lia. Qed.

Lemma repeat_zero_hex (k : nat) (a : Z) :
  all_hex (repeat_char k "0") = true
  /\ hex_number a (repeat_char k "0") = a * 16 ^ Z.of_nat k.
Proof.
  revert a. induction k as [|k IH]; intros a; [cbn; split; [reflexivity|lia]|].
  destruct (IH (16 * a)) as [H1 H2]. split; [exact (proj1 (IH 0))|].
  cbn [repeat_char hex_number].
  change (digit_value "0") with (Some 0).
  rewrite Z.add_0_r, H2, Nat2Z.inj_succ, Z.pow_succ_r by lia. ring.
Qed.

Lemma padStart_zero_hex (k : nat) (s : string) :
  all_hex s = true ->
  all_hex (padStart k "0" s) = true
  /\ hex_number 0 (padStart k "0" s) = hex_number 0 s.
Proof.
  intros H. unfold padStart.
  destruct (repeat_zero_hex (k - String.length s) 0) as [H1 H2].
  split; [now rewrite all_hex_append, H1, H|].
  now rewrite hex_number_append, H2.
Qed.

(** The address of an entity number below [16^40]. *)
Lemma evm_address_spec (n : Z) :
  0 <= n < 16 ^ 40 ->
  String.length (drop 2 (evm_address n)) = 40%nat
  /\ all_hex (drop 2 (evm_address n)) = true
  /\ hex_number 0 (drop 2 (evm_address n)) = n.
Proof.
  intros Hn. unfold evm_address. cbn [append drop].
  destruct (Z_toString16_spec n ltac:(lia)) as (Hh & Hv & _ & Hl).
  specialize (Hl 40%nat ltac:(lia) ltac:(lia)).
  destruct (padStart_zero_hex 40 _ Hh) as [P1 P2].
  rewrite padStart_length. split; [lia|]. split; [exact P1|].
  now rewrite P2.
Qed.

End HexPrinting.

Section EvmAddresses.

Import SaucerSwapAbi.

Lemma split_count (s : string) :
  List.length (split "." s) = S (count_char "." s).
Proof.
  induction s as [|c r IH]; [reflexivity|]. cbn [split count_char].
  destruct (Ascii.eqb c "."); cbn [List.length]; [now rewrite IH|].
  destruct (split "." r); cbn [List.length] in *; lia.
Qed.

Lemma split_no_dot (s : string) : count_char "." s = 0%nat -> split "." s = [s].
Proof.
  induction s as [|c r IH]; [reflexivity|]. cbn [split count_char].
  destruct (Ascii.eqb c "."); [discriminate|]. intros H.
  now rewrite (IH H).
Qed.

Lemma split_first (a r : string) :
  count_char "." a = 0%nat ->
  split "." (a ++ String "." r) = a :: split "." r.
Proof.
  induction a as [|c a IH]; [reflexivity|]. cbn [append split count_char].
  destruct (Ascii.eqb c "."); [discriminate|]. intros H.
  now rewrite (IH H).
Qed.

Lemma hex_no_dot (s : string) : all_hex s = true -> count_char "." s = 0%nat.
Proof.
  induction s as [|c r IH]; [reflexivity|]. cbn [all_hex count_char].
  intros H. apply andb_prop in H as [Hc Hr]. rewrite (IH Hr).
  destruct (Ascii.eqb_spec c ".") as [->|_]; [discriminate Hc | reflexivity].
Qed.

(** The address of [a.b.n]: the third part alone is read. *)
Lemma hederaIdToEvmAddress_number (a b : string) (n : Z) :
  count_char "." a = 0%nat -> count_char "." b = 0%nat -> 0 <= n ->
  hederaIdToEvmAddress (a ++ "." ++ b ++ "." ++ Z_to_string n)
  = Ok (evm_address n).
Proof.
  intros Ha Hb Hn. unfold hederaIdToEvmAddress.
  change (a ++ "." ++ b ++ "." ++ Z_to_string n)
    with (a ++ String "." (b ++ String "." (Z_to_string n))).
  rewrite (split_first a _ Ha), (split_first b _ Hb).
  rewrite (split_no_dot _ (hex_no_dot _ (Z_to_string_hex n Hn))).
  cbn [List.length Nat.eqb negb nth_error str_toString].
  now rewrite (parseInt_Z_to_string n Hn).
Qed.

Lemma evm_address_length (n : Z) :
  0 <= n < 16 ^ 40 -> String.length (evm_address n) = 42%nat.
Proof.
  intros Hn. destruct (evm_address_spec n Hn) as (L & _).
  unfold evm_address in *. cbn [append drop String.length] in *. lia.
Qed.

(** [hexToHederaId] of plugin-hedera-dex on [0x] and at least 8 hex
    digits of a value below [16^8]. *)
Lemma dex_decode_0x (h : string) :
  (8 <= String.length h)%nat -> all_hex h = true ->
  hex_number 0 h < 16 ^ 8 ->
  DexPlugin.hexToHederaId ("0x" ++ h) = entity_id (hex_number 0 h).
Proof.
  intros Hl Hh Hb.
  set (k := (String.length h - 8)%nat).
  set (t := drop k h). set (p := take k h).
  assert (Hpt : h = p ++ t) by (symmetry; apply take_drop).
  assert (Ht : all_hex t = true) by now apply all_hex_drop.
  assert (Lt : String.length t = 8%nat)
    by (unfold t, k; rewrite drop_length; lia).
  assert (D : DexPlugin.hexToHederaId ("0x" ++ h)
              = entity_id (hex_number 0 t)).
  { apply (hexToHederaId_decode _ p t); [|exact Lt|exact Ht].
    rewrite <- Hpt. unfold strip_0x_prefix.
    assert (P : String.prefix "0x" ("0x" ++ h) = true)
      by (vm_compute; now destruct h).
    rewrite P. reflexivity. }
  rewrite D. f_equal.
  assert (N : hex_number 0 h = hex_number 0 p * 16 ^ 8 + hex_number 0 t).
  { rewrite Hpt at 1. rewrite hex_number_append, hex_number_acc, Lt.
    reflexivity. }
  pose proof (hex_number_mono p 0 ltac:(lia)) as P0.
  pose proof (hex_number_mono t 0 ltac:(lia)) as T0.
  nia.
Qed.

End EvmAddresses.

(** X13.  The EVM address of [0.0.n], for an entity number [n] from 0
    to below [2^53], is [0x] followed by 40 hex digits whose value is [n];
    [hexToHederaId] of [src/plugin.ts] reads [0.0.n] back from it, and so
    does [hexToHederaId] of plugin-hedera-dex when [0 < n <= 100000000]. *)
Theorem evm_address_round_trip (n : Z) :
  0 <= n < 2 ^ 53 ->
  exists addr,
    SaucerSwapAbi.hederaIdToEvmAddress ("0.0." ++ Z_to_string n) = Ok addr
    /\ String.length addr = 42%nat
    /\ take 2 addr = "0x"
    /\ all_hex (drop 2 addr) = true
    /\ hex_number 0 (drop 2 addr) = n
    /\ AgentPlugin.hexToHederaId addr = "0.0." ++ Z_to_string n
    /\ (0 < n <= 100000000 ->
        DexPlugin.hexToHederaId addr = "0.0." ++ Z_to_string n).
Proof.
  intros Hn. exists (evm_address n).
  assert (B : 0 <= n < 16 ^ 40) by (change (16 ^ 40) with (2 ^ 53 * 2 ^ 107); nia).
  destruct (evm_address_spec n B) as (L & H & V).
  split; [now apply (hederaIdToEvmAddress_number "0" "0")|].
  split; [now apply evm_address_length|].
  split; [reflexivity|]. split; [exact H|]. split; [exact V|].
  unfold evm_address in *. cbn [append drop] in L, H, V.
  set (h := padStart 40 "0" (Z_toString16 n)) in *.
  split.
  - unfold AgentPlugin.hexToHederaId.
    rewrite parseInt_0x; [| exact H | intros E; rewrite E in L; discriminate L].
    now rewrite V.
  - intros Hr. rewrite dex_decode_0x; [| lia | exact H | rewrite V; lia].
    rewrite V. destruct (entity_id_cases n ltac:(lia)) as [C [E|[_ E]]];
      [|exact E].
    apply C in E. lia.
Qed.

Lemma evm_address_round_trip_witness :
  0 <= 1456986 < 2 ^ 53
  /\ exists addr,
    SaucerSwapAbi.hederaIdToEvmAddress ("0.0." ++ Z_to_string 1456986) = Ok addr
    /\ String.length addr = 42%nat
    /\ take 2 addr = "0x"
    /\ all_hex (drop 2 addr) = true
    /\ hex_number 0 (drop 2 addr) = 1456986
    /\ AgentPlugin.hexToHederaId addr = "0.0." ++ Z_to_string 1456986
    /\ (0 < 1456986 <= 100000000 ->
        DexPlugin.hexToHederaId addr = "0.0." ++ Z_to_string 1456986).
Proof.
  split; [lia|]. apply (evm_address_round_trip 1456986). lia.
Defined.

(** X14.  [hederaIdToEvmAddress] throws its format error exactly on the
    identifiers that do not hold two dots; the message carries the
    identifier. *)
Theorem ids_without_two_dots_are_rejected (accountId : string) :
  SaucerSwapAbi.hederaIdToEvmAddress accountId
  = Throw ("Invalid Hedera account ID format: " ++ accountId)
  <-> count_char "." accountId <> 2%nat.
Proof.
  unfold SaucerSwapAbi.hederaIdToEvmAddress.
  rewrite (split_count accountId).
  destruct (Nat.eqb_spec (S (count_char "." accountId)) 3) as [E|E];
    cbn [negb].
  - split; [|lia].
    destruct (parseInt _ 0); [|discriminate].
    intros H. cbn [append] in H. discriminate H.
  - split; [lia | reflexivity].
Qed.

(** X15.  The shard and realm parts of an identifier are not read: for
    any two dot-free parts [a] and [b], [a.b.n] gets the address of
    [0.0.n]. *)
Theorem shard_and_realm_are_ignored (a b : string) (n : Z) :
  count_char "." a = 0%nat -> count_char "." b = 0%nat ->
  0 <= n < 2 ^ 53 ->
  SaucerSwapAbi.hederaIdToEvmAddress (a ++ "." ++ b ++ "." ++ Z_to_string n)
  = SaucerSwapAbi.hederaIdToEvmAddress ("0.0." ++ Z_to_string n)
  /\ exists addr,
       SaucerSwapAbi.hederaIdToEvmAddress ("0.0." ++ Z_to_string n) = Ok addr.
Proof.
  intros Ha Hb Hn.
  rewrite (hederaIdToEvmAddress_number a b n Ha Hb ltac:(lia)).
  pose proof (hederaIdToEvmAddress_number "0" "0" n eq_refl eq_refl
                ltac:(lia)) as Z.
  change ("0" ++ "." ++ "0" ++ "." ++ Z_to_string n)
    with ("0.0." ++ Z_to_string n) in Z.
  rewrite Z. split; [reflexivity | now eexists].
Qed.

Lemma shard_and_realm_are_ignored_witness :
  (count_char "." "7" = 0%nat /\ count_char "." "shard" = 0%nat
   /\ 0 <= 456858 < 2 ^ 53)
  /\ SaucerSwapAbi.hederaIdToEvmAddress
       ("7" ++ "." ++ "shard" ++ "." ++ Z_to_string 456858)
     = SaucerSwapAbi.hederaIdToEvmAddress ("0.0." ++ Z_to_string 456858)
  /\ exists addr,
       SaucerSwapAbi.hederaIdToEvmAddress ("0.0." ++ Z_to_string 456858)
       = Ok addr.
Proof.
  split; [split; [reflexivity | split; [reflexivity | lia]]|].
  apply (shard_and_realm_are_ignored "7" "shard" 456858);
    [reflexivity | reflexivity | lia].
Defined.

Section SwapPaths.

Import SaucerSwapAbi.

Lemma field_spec (w : nat) (v : Z) :
  (1 <= w)%nat -> 0 <= v < 16 ^ Z.of_nat w ->
  String.length (padStart w "0" (Z_toString16 v)) = w
  /\ all_hex (padStart w "0" (Z_toString16 v)) = true
  /\ hex_number 0 (padStart w "0" (Z_toString16 v)) = v.
Proof.
  intros Hw Hv.
  destruct (Z_toString16_spec v ltac:(lia)) as (Hh & Hv' & _ & Hl).
  specialize (Hl w Hw ltac:(lia)).
  destruct (padStart_zero_hex w _ Hh) as [P1 P2].
  rewrite padStart_length. split; [lia|]. split; [exact P1|].
  now rewrite P2.
Qed.

Lemma entity_number_field (n : Z) :
  entity_number n -> 0 <= n < 16 ^ Z.of_nat 40.
Proof.
  unfold entity_number. intros H.
  change (16 ^ Z.of_nat 40) with (2 ^ 53 * 2 ^ 107). nia.
Qed.

(** The loop of [encodeSwapPath] appends the fields to the path. *)
Lemma path_loop_fields (ns fees : list Z) (path : string) :
  Forall entity_number ns ->
  path_loop (entity_ids ns) fees path = Ok (path ++ path_fields ns fees).
Proof.
  intros Hns. revert fees path.
  induction Hns as [|n ns Hn _ IH]; intros fees path.
  - cbn. f_equal. clear. induction path as [|c p IH]; cbn; [reflexivity | now rewrite <- IH].
  - cbn [entity_ids map path_loop path_fields].
    pose proof (hederaIdToEvmAddress_number "0" "0" n eq_refl eq_refl
                  ltac:(unfold entity_number in Hn; lia)) as Z.
    change ("0" ++ "." ++ "0" ++ "." ++ Z_to_string n)
      with ("0.0." ++ Z_to_string n) in Z.
    rewrite Z. unfold evm_address. cbn [append drop].
    fold (entity_ids ns).
    destruct fees as [|f fees]; rewrite IH; f_equal;
      now rewrite !append_assoc.
Qed.

Lemma path_fields_length (ns fees : list Z) :
  Forall entity_number ns -> Forall fee_3_bytes fees ->
  String.length (path_fields ns fees)
  = (40 * List.length ns + 6 * Nat.min (List.length ns) (List.length fees))%nat.
Proof.
  intros Hns. revert fees.
  induction Hns as [|n ns Hn _ IH]; intros fees Hf; [reflexivity|].
  destruct (field_spec 40 n ltac:(lia) (entity_number_field n Hn)) as (L & _).
  cbn [path_fields]. destruct Hf as [|f fees Hf Hfs].
  - rewrite append_length, L, (IH [] (Forall_nil _)). cbn [List.length]. lia.
  - destruct (field_spec 6 f ltac:(lia) Hf) as (Lf & _).
    rewrite !append_length, L, Lf, (IH fees Hfs). cbn [List.length]. lia.
Qed.

Lemma path_fields_hex (ns fees : list Z) :
  Forall entity_number ns -> Forall fee_3_bytes fees ->
  all_hex (path_fields ns fees) = true.
Proof.
  intros Hns. revert fees.
  induction Hns as [|n ns Hn _ IH]; intros fees Hf; [reflexivity|].
  destruct (field_spec 40 n ltac:(lia) (entity_number_field n Hn))
    as (_ & H & _).
  cbn [path_fields]. destruct Hf as [|f fees Hf Hfs].
  - now rewrite all_hex_append, H, (IH [] (Forall_nil _)).
  - destruct (field_spec 6 f ltac:(lia) Hf) as (_ & Hf' & _).
    now rewrite !all_hex_append, H, Hf', (IH fees Hfs).
Qed.

Lemma append_inj (a a' b b' : string) :
  String.length a = String.length a' -> a ++ b = a' ++ b' ->
  a = a' /\ b = b'.
Proof.
  revert a'. induction a as [|c a IH]; intros [|c' a'] L H;
    try discriminate L.
  - now split.
  - cbn [append] in H. injection H as -> H. injection L as L.
    destruct (IH a' L H) as [-> ->]. now split.
Qed.

Lemma field_inj (w : nat) (v v' : Z) (r r' : string) :
  (1 <= w)%nat -> 0 <= v < 16 ^ Z.of_nat w -> 0 <= v' < 16 ^ Z.of_nat w ->
  padStart w "0" (Z_toString16 v) ++ r
  = padStart w "0" (Z_toString16 v') ++ r' ->
  v = v' /\ r = r'.
Proof.
  intros Hw Hv Hv' H.
  destruct (field_spec w v Hw Hv) as (L & _ & V).
  destruct (field_spec w v' Hw Hv') as (L' & _ & V').
  destruct (append_inj _ _ _ _ (eq_trans L (eq_sym L')) H) as [E ->].
  split; [|reflexivity]. rewrite <- V, <- V'. now rewrite E.
Qed.

Lemma path_fields_inj (ns ns' fees fees' : list Z) :
  Forall entity_number ns -> Forall entity_number ns' ->
  Forall fee_3_bytes fees -> Forall fee_3_bytes fees' ->
  List.length ns = List.length ns' ->
  List.length fees = List.length fees' ->
  (List.length fees <= List.length ns)%nat ->
  path_fields ns fees = path_fields ns' fees' ->
  ns = ns' /\ fees = fees'.
Proof.
  intros Hns. revert ns' fees fees'.
  induction Hns as [|n ns Hn _ IH]; intros ns' fees fees' Hns' Hf Hf' Ln Lf Le H.
  - destruct ns'; [|discriminate Ln]. cbn [List.length] in Le.
    destruct fees; [|cbn in Le; lia]. destruct fees'; [|discriminate Lf].
    now split.
  - destruct Hns' as [|n' ns' Hn' Hns']; [discriminate Ln|].
    injection Ln as Ln. cbn [path_fields] in H.
    destruct Hf as [|f fees Hf Hfs]; destruct Hf' as [|f' fees' Hf' Hfs'];
      try discriminate Lf.
    + apply field_inj in H as [-> H];
        [| lia | now apply entity_number_field | now apply entity_number_field].
      destruct (IH ns' [] [] Hns' (Forall_nil _) (Forall_nil _) Ln eq_refl
                  ltac:(cbn; lia) H) as [-> _].
      now split.
    + injection Lf as Lf. cbn [List.length] in Le.
      apply field_inj in H as [-> H];
        [| lia | now apply entity_number_field | now apply entity_number_field].
      apply field_inj in H as [-> H]; [| lia | exact Hf | exact Hf'].
      destruct (IH ns' fees fees' Hns' Hfs Hfs' Ln Lf ltac:(lia) H)
        as [-> ->].
      now split.
Qed.

Lemma encodeSwapPath_fields (ns fees : list Z) :
  Forall entity_number ns ->
  List.length ns = S (List.length fees) ->
  encodeSwapPath (entity_ids ns) fees = Ok ("0x" ++ path_fields ns fees).
Proof.
  intros Hns L. unfold encodeSwapPath, entity_ids.
  rewrite length_map, L, Nat.add_1_r, Nat.eqb_refl. cbn [negb].
  fold (entity_ids ns). now rewrite (path_loop_fields ns fees _ Hns).
Qed.

(** The loop succeeds exactly when every token converts. *)
Lemma path_loop_succeeds (tokens : list string) (fees : list Z)
    (path : string) :
  (exists p, path_loop tokens fees path = Ok p) <-> Forall converts tokens.
Proof.
  revert fees path. induction tokens as [|t ts IH]; intros fees path.
  - split; [constructor | now eexists].
  - cbn [path_loop]. split.
    + intros [p H]. destruct (hederaIdToEvmAddress t) as [a|e] eqn:E;
        [|discriminate H].
      constructor; [now exists a|].
      destruct fees as [|f fs]; eapply IH; eexists; exact H.
    + intros H. inversion H as [|? ? [a Ha] Hts]; subst. rewrite Ha.
      destruct fees as [|f fs]; now apply IH.
Qed.

(** The error of the first token that does not convert is thrown. *)
Lemma path_loop_first_error (good : list string) (bad : string)
    (rest : list string) (fees : list Z) (path e : string) :
  Forall converts good -> hederaIdToEvmAddress bad = Throw e ->
  path_loop (good ++ bad :: rest)%list fees path = Throw e.
Proof.
  intros G Hb. revert fees path.
  induction G as [|t ts [a Ha] _ IH]; intros fees path.
  - cbn [app path_loop]. now rewrite Hb.
  - cbn [app path_loop]. rewrite Ha. destruct fees as [|f fs]; apply IH.
Qed.

End SwapPaths.



(** X17.  [encodeSwapPath] returns a path exactly when there is one more
    token than fees and every token converts to an address; with another
    number of tokens it throws its own error, whatever the tokens are,
    and otherwise the error of the first token that does not convert. *)
Theorem swap_path_succeeds_iff (tokens : list string) (fees : list Z) :
  ((exists path, SaucerSwapAbi.encodeSwapPath tokens fees = Ok path)
   <-> List.length tokens = S (List.length fees) /\ Forall converts tokens)
  /\ (List.length tokens <> S (List.length fees) ->
      SaucerSwapAbi.encodeSwapPath tokens fees
      = Throw "Invalid path: tokens length must be fees length + 1")
  /\ (forall good bad rest e,
        List.length tokens = S (List.length fees) ->
        tokens = (good ++ bad :: rest)%list ->
        Forall converts good ->
        SaucerSwapAbi.hederaIdToEvmAddress bad = Throw e ->
        SaucerSwapAbi.encodeSwapPath tokens fees = Throw e).
Proof.
  unfold SaucerSwapAbi.encodeSwapPath.
  destruct (Nat.eqb_spec (List.length tokens) (List.length fees + 1))
    as [L|L]; cbn [negb].
  - split; [|split; [lia|]].
    + destruct (path_loop_succeeds tokens fees EmptyString) as [A B].
      split.
      * intros [path H]. split; [lia|]. apply A.
        destruct (SaucerSwapAbi.path_loop tokens fees EmptyString);
          [now eexists | discriminate H].
      * intros [_ H]. destruct (B H) as [p ->]. now eexists.
    + intros good bad rest e _ -> G Hb.
      now rewrite (path_loop_first_error good bad rest fees EmptyString e G Hb).
  - split; [|split; [reflexivity | intros; lia]].
    split; [intros [path H]; discriminate H | intros [H _]; lia].
Qed.

(** X18.  A swap path tells its tokens and fees: two valid inputs with
    the same encoded path are the same tokens and the same fees. *)
Theorem swap_path_is_injective (ns ns' fees fees' : list Z) (path : string) :
  Forall entity_number ns -> Forall entity_number ns' ->
  Forall fee_3_bytes fees -> Forall fee_3_bytes fees' ->
  SaucerSwapAbi.encodeSwapPath (entity_ids ns) fees = Ok path ->
  SaucerSwapAbi.encodeSwapPath (entity_ids ns') fees' = Ok path ->
  ns = ns' /\ fees = fees'.
Proof.
  intros Hns Hns' Hf Hf' E E'.
  assert (L : List.length ns = S (List.length fees)).
  { destruct (Nat.eq_dec (List.length (entity_ids ns)) (S (List.length fees)))
      as [L|L]; [unfold entity_ids in L; now rewrite length_map in L|].
    unfold SaucerSwapAbi.encodeSwapPath in E.
    destruct (Nat.eqb_spec (List.length (entity_ids ns))
                (List.length fees + 1)); [lia | discriminate E]. }
  assert (L' : List.length ns' = S (List.length fees')).
  { destruct (Nat.eq_dec (List.length (entity_ids ns')) (S (List.length fees')))
      as [L'|L']; [unfold entity_ids in L'; now rewrite length_map in L'|].
    unfold SaucerSwapAbi.encodeSwapPath in E'.
    destruct (Nat.eqb_spec (List.length (entity_ids ns'))
                (List.length fees' + 1)); [lia | discriminate E']. }
  rewrite (encodeSwapPath_fields ns fees Hns L) in E.
  rewrite (encodeSwapPath_fields ns' fees' Hns' L') in E'.
  injection E as E. injection E' as E'.
  assert (P : path_fields ns fees = path_fields ns' fees').
  { rewrite <- E' in E. cbn [append] in E. now injection E. }
  pose proof (f_equal String.length P) as Q.
  rewrite (path_fields_length ns fees Hns Hf),
    (path_fields_length ns' fees' Hns' Hf') in Q.
  apply path_fields_inj; try assumption; lia.
Qed.

Lemma swap_path_is_injective_witness :
  let path :=
    "0x0000000000000000000000000000000000163b5a000bb8000000000000000000000000000000000006f89a" in
  (Forall entity_number [1456986; 456858]
   /\ Forall fee_3_bytes [3000]
   /\ SaucerSwapAbi.encodeSwapPath (entity_ids [1456986; 456858]) [3000]
      = Ok path)
  /\ ([1456986; 456858] = [1456986; 456858] /\ [3000] = [3000]).
Proof.
  intros path.
  assert (A : Forall entity_number [1456986; 456858])
    by (repeat constructor; unfold entity_number; lia).
  assert (B : Forall fee_3_bytes [3000])
    by (repeat constructor; unfold fee_3_bytes; lia).
  assert (E : SaucerSwapAbi.encodeSwapPath (entity_ids [1456986; 456858]) [3000]
              = Ok path) by (vm_compute; reflexivity).
  split; [split; [exact A | split; [exact B | exact E]]|].
  exact (swap_path_is_injective [1456986; 456858] [1456986; 456858]
           [3000] [3000] path A A B B E E).
Defined.

Section ByteArrays.

Import SaucerSwapAbi.

Lemma store_out (i : nat) (v : Z) (a : list Z) :
  (List.length a <= i)%nat -> store i v a = a.
Proof.
  revert i. induction a as [|x a IH]; intros i H; [now destruct i|].
  destruct i as [|i]; [cbn in H; lia|]. cbn [store]. f_equal.
  apply IH. cbn in H. lia.
Qed.

Lemma store_mid (v y : Z) (a b : list Z) :
  store (List.length a) v (a ++ y :: b)%list = (a ++ v :: b)%list.
Proof. induction a as [|x a IH]; cbn; [reflexivity | now rewrite IH]. Qed.

(** The loop of [hexToUint8Array] over an array of [L] zeros. *)
Lemma fold_store (v : nat -> Z) (m L : nat) :
  fold_left (fun bytes k => store k (v k) bytes) (seq 0 m) (repeat 0 L)
  = (map v (seq 0 (Nat.min m L)) ++ repeat 0 (L - m))%list.
Proof.
  induction m as [|m IH]; [now rewrite Nat.sub_0_r|].
  rewrite seq_S, fold_left_app, IH. cbn [fold_left Nat.add].
  destruct (Nat.lt_ge_cases m L) as [H|H].
  - rewrite (Nat.min_l m L), (Nat.min_l (S m) L) by lia.
    replace (L - m)%nat with (S (L - S m)) by lia. cbn [repeat].
    pose proof (store_mid (v m) 0 (map v (seq 0 m)) (repeat 0 (L - S m))) as S.
    rewrite length_map, length_seq in S. rewrite S.
    rewrite seq_S, map_app, <- app_assoc. reflexivity.
  - rewrite (Nat.min_r m L), (Nat.min_r (S m) L) by lia.
    replace (L - m)%nat with 0%nat by lia.
    replace (L - S m)%nat with 0%nat by lia.
    apply store_out. rewrite length_app, length_map, length_seq. cbn. lia.
Qed.

Lemma hexToUint8Array_clean (hex : string) :
  hexToUint8Array hex
  = let cleanHex := replace "0x" EmptyString hex in
    map (byte_at cleanHex) (seq 0 (String.length cleanHex / 2)).
Proof.
  unfold hexToUint8Array. cbv zeta.
  set (c := replace "0x" EmptyString hex). set (n := String.length c).
  rewrite (fold_store (byte_at c)).
  assert (H : (n / 2 <= (n + 1) / 2)%nat)
    by (apply Nat.Div0.div_le_mono; lia).
  rewrite Nat.min_r by exact H.
  replace (n / 2 - (n + 1) / 2)%nat with 0%nat by lia.
  apply app_nil_r.
Qed.

Lemma byte_at_first (a b : ascii) (r : string) :
  is_hex a = true -> is_hex b = true ->
  byte_at (String a (String b r)) 0
  = hex_number 0 (String a (String b EmptyString))
  /\ is_byte (hex_number 0 (String a (String b EmptyString))).
Proof.
  intros Ha Hb. set (t := String a (String b EmptyString)).
  assert (Ht : all_hex t = true) by (cbn; now rewrite Ha, Hb).
  pose proof (hex_number_bound t 0 Ht ltac:(lia)) as B.
  pose proof (hex_number_mono t 0 ltac:(lia)) as P.
  change (16 ^ Z.of_nat (String.length t)) with 256 in B.
  split; [|unfold is_byte; lia].
  unfold byte_at, substr. cbn [Nat.mul drop take]. fold t.
  rewrite parseInt_hex by (try exact Ht; discriminate).
  cbn [toUint8]. apply Z.mod_small. lia.
Qed.

Lemma byte_at_next (a b : ascii) (r : string) (k : nat) :
  byte_at (String a (String b r)) (S k) = byte_at r k.
Proof.
  unfold byte_at, substr.
  replace (2 * S k)%nat with (S (S (2 * k))) by lia. reflexivity.
Qed.

Lemma half_SS (n : nat) : (S (S n) / 2 = S (n / 2))%nat.
Proof.
  replace (S (S n)) with (n + 1 * 2)%nat by lia.
  rewrite Nat.div_add by lia. lia.
Qed.

Lemma bytes_of_digits (fuel : nat) (h : string) :
  (String.length h <= fuel)%nat -> all_hex h = true ->
  map (byte_at h) (seq 0 (String.length h / 2)) = bytes_of_hex h
  /\ Forall is_byte (bytes_of_hex h)
  /\ List.length (bytes_of_hex h) = (String.length h / 2)%nat.
Proof.
  revert h. induction fuel as [|fuel IH]; intros h L H.
  - destruct h; [|cbn in L; lia]. now repeat split.
  - destruct h as [|a [|b r]]; [now repeat split | now repeat split|].
    cbn [all_hex] in H. apply andb_prop in H as [Ha H].
    apply andb_prop in H as [Hb Hr].
    cbn [String.length] in L.
    destruct (IH r ltac:(lia) Hr) as (M & F & N).
    destruct (byte_at_first a b r Ha Hb) as [B0 B1].
    cbn [String.length bytes_of_hex]. rewrite half_SS. cbn [seq map].
    rewrite B0, <- seq_shift, map_map.
    rewrite (map_ext _ (byte_at r) (byte_at_next a b r)), M.
    split; [reflexivity|]. split; [now constructor|].
    cbn [List.length]. now rewrite N.
Qed.

Lemma hexToUint8Array_digits (h : string) :
  all_hex h = true ->
  hexToUint8Array h = bytes_of_hex h
  /\ hexToUint8Array ("0x" ++ h) = bytes_of_hex h.
Proof.
  intros H.
  destruct (bytes_of_digits _ h (le_n _) H) as (M & _).
  rewrite !hexToUint8Array_clean. cbv zeta.
  assert (E : replace "0x" EmptyString ("0x" ++ h) = h)
    by (cbn; now destruct h).
  now rewrite E, (replace_0x_hex h H), M.
Qed.

End ByteArrays.

(** X19.  On a string of hex digits, with or without a leading [0x],
    [hexToUint8Array] returns one byte for every two digits, the value of
    the two digits; a last single digit is dropped. *)
Theorem hex_digits_become_bytes (h : string) :
  all_hex h = true ->
  SaucerSwapAbi.hexToUint8Array h = bytes_of_hex h
  /\ SaucerSwapAbi.hexToUint8Array ("0x" ++ h) = bytes_of_hex h
  /\ List.length (SaucerSwapAbi.hexToUint8Array h)
     = (String.length h / 2)%nat
  /\ Forall is_byte (SaucerSwapAbi.hexToUint8Array h).
Proof.
  intros H. destruct (hexToUint8Array_digits h H) as [A B].
  destruct (bytes_of_digits _ h (le_n _) H) as (_ & F & N).
  rewrite A. now repeat split.
Qed.

Lemma hex_digits_become_bytes_witness :
  all_hex "00ff1a2" = true
  /\ SaucerSwapAbi.hexToUint8Array "00ff1a2" = bytes_of_hex "00ff1a2"
  /\ SaucerSwapAbi.hexToUint8Array ("0x" ++ "00ff1a2") = bytes_of_hex "00ff1a2"
  /\ List.length (SaucerSwapAbi.hexToUint8Array "00ff1a2")
     = (String.length "00ff1a2" / 2)%nat
  /\ Forall is_byte (SaucerSwapAbi.hexToUint8Array "00ff1a2").
Proof.
  split; [reflexivity|]. apply (hex_digits_become_bytes "00ff1a2").
  reflexivity.
Defined.

(** X20.  The bytes of an encoded swap path: 20 for every token and 3 for
    every fee, the digit pairs of the path after its [0x]. *)
Theorem swap_path_bytes (ns fees : list Z) :
  Forall entity_number ns -> Forall fee_3_bytes fees ->
  List.length ns = S (List.length fees) ->
  exists path,
    SaucerSwapAbi.encodeSwapPath (entity_ids ns) fees = Ok path
    /\ SaucerSwapAbi.hexToUint8Array path = bytes_of_hex (drop 2 path)
    /\ List.length (SaucerSwapAbi.hexToUint8Array path)
       = (20 * List.length ns + 3 * List.length fees)%nat
    /\ Forall is_byte (SaucerSwapAbi.hexToUint8Array path).
Proof.
  intros Hns Hf L. exists ("0x" ++ path_fields ns fees).
  split; [now apply encodeSwapPath_fields|].
  pose proof (path_fields_hex ns fees Hns Hf) as H.
  destruct (hexToUint8Array_digits _ H) as [_ B].
  destruct (bytes_of_digits _ _ (le_n _) H) as (_ & F & N).
  rewrite B. cbn [append drop]. split; [reflexivity|].
  split; [|exact F]. rewrite N, (path_fields_length ns fees Hns Hf).
  replace (40 * List.length ns
           + 6 * Nat.min (List.length ns) (List.length fees))%nat
    with ((20 * List.length ns + 3 * List.length fees) * 2)%nat by lia.
  apply Nat.div_mul. lia.
Qed.

Lemma swap_path_bytes_witness :
  (Forall entity_number [1456986; 456858] /\ Forall fee_3_bytes [3000]
   /\ List.length [1456986; 456858] = S (List.length [3000]))
  /\ exists path,
    SaucerSwapAbi.encodeSwapPath (entity_ids [1456986; 456858]) [3000]
    = Ok path
    /\ SaucerSwapAbi.hexToUint8Array path = bytes_of_hex (drop 2 path)
    /\ List.length (SaucerSwapAbi.hexToUint8Array path)
       = (20 * List.length [1456986; 456858]%Z
          + 3 * List.length [3000]%Z)%nat
    /\ Forall is_byte (SaucerSwapAbi.hexToUint8Array path).
Proof.
  assert (A : Forall entity_number [1456986; 456858])
    by (repeat constructor; unfold entity_number; lia).
  assert (B : Forall fee_3_bytes [3000])
    by (repeat constructor; unfold fee_3_bytes; lia).
  split; [split; [exact A | split; [exact B | reflexivity]]|].
  apply (swap_path_bytes [1456986; 456858] [3000] A B).
  reflexivity.
Defined.

(* ================================================================= *)
(** ** The requests of the handlers *)

Section LoopRequests.

Context {A S : Type} (body : S -> A -> M S) (w : World) (R : string -> Prop).

Hypothesis body_requests :
  forall s x tr, exists r rest,
    body s x w tr = (r, (tr ++ rest)%list) /\ Forall R rest.

Lemma for_of_requests (l : list A) (s : S) (tr : list string) :
  exists r rest,
    for_of body l s w tr = (r, (tr ++ rest)%list) /\ Forall R rest.
Proof.
  revert s tr. induction l as [|x l IH]; intros s tr.
  - exists (Ok s), []. now rewrite app_nil_r.
  - cbn [for_of]. unfold bind.
    destruct (body_requests s x tr) as (r1 & rest1 & -> & F1).
    destruct r1 as [s1|e]; [|now exists (Throw e), rest1].
    destruct (IH s1 (tr ++ rest1)%list) as (r2 & rest2 & -> & F2).
    exists r2, (rest1 ++ rest2)%list. rewrite app_assoc.
    split; [reflexivity | now apply Forall_app].
Qed.

End LoopRequests.

Section HandlerRequests.

Variable w : World.

Lemma dex_step_requests (mirrorNodeUrl : string) (pools : list Pool.t)
    (log : RawLog) (tr : list string) :
  exists r rest,
    DexPlugin.parse_log mirrorNodeUrl pools log w tr = (r, (tr ++ rest)%list)
    /\ Forall (token_request mirrorNodeUrl) rest.
Proof.
  destruct (log_kinds log) as [H|(t1 & t2 & t3 & more & ->)].
  - rewrite (dex_parse_log_other mirrorNodeUrl w pools log tr H).
    eexists _, []. now rewrite app_nil_r.
  - cbn [data creation_log]. fold (creation_log t1 t2 t3 more (data log)).
    rewrite dex_parse_log_creation.
    destruct (dex_invalid t1 t2 (data log)).
    { eexists _, []. now rewrite app_nil_r. }
    destruct (dex_fetch_returns mirrorNodeUrl w (DexPlugin.hexToHederaId t1) tr)
      as [a ->].
    destruct (dex_fetch_returns mirrorNodeUrl w (DexPlugin.hexToHederaId t2)
                (tr ++ [(mirrorNodeUrl ++ "/api/v1/tokens/"
                           ++ DexPlugin.hexToHederaId t1)%string])%list)
      as [b ->].
    rewrite <- app_assoc. cbn [app]. eexists _, [_; _].
    split; [reflexivity|]. repeat constructor; now eexists.
Qed.

Lemma agent_step_requests (mirrorNodeUrl : string) (pools : list Pool.t)
    (log : RawLog) (tr : list string) :
  exists r rest,
    AgentPlugin.parse_log mirrorNodeUrl pools log w tr
    = (r, (tr ++ rest)%list)
    /\ Forall (token_request mirrorNodeUrl) rest.
Proof.
  destruct (log_kinds log) as [H|(t1 & t2 & t3 & more & ->)].
  - rewrite (agent_parse_log_other mirrorNodeUrl w pools log tr H).
    eexists _, []. now rewrite app_nil_r.
  - cbn [data creation_log]. fold (creation_log t1 t2 t3 more (data log)).
    rewrite agent_parse_log_creation.
    destruct (data log) as [d|].
    2: { eexists _, []. now rewrite app_nil_r. }
    destruct (agent_fetch_returns mirrorNodeUrl w
                (AgentPlugin.hexToHederaId t1) tr) as [a ->].
    destruct (agent_fetch_returns mirrorNodeUrl w
                (AgentPlugin.hexToHederaId t2)
                (tr ++ [(mirrorNodeUrl ++ "/api/v1/tokens/"
                           ++ AgentPlugin.hexToHederaId t1)%string])%list)
      as [b ->].
    rewrite <- app_assoc. cbn [app]. eexists _, [_; _].
    split; [reflexivity|]. repeat constructor; now eexists.
Qed.

(** The requests of the common part of the two handlers of
    plugin-hedera-dex, on a network it has addresses for. *)
Lemma decoded_pools_requests_supported (runtime : Settings)
    (factoryContract defaultUrl : string) (tr : list string) :
  DexPlugin.CONTRACT_ADDRESSES (network_of runtime)
  = Some (factoryContract, defaultUrl) ->
  exists r rest,
    decoded_pools runtime w tr = (r, (tr ++ rest)%list)
    /\ logs_then_tokens
         (dex_logs_url (str_or (HEDERA_MIRROR_NODE_URL runtime) defaultUrl)
            factoryContract)
         (str_or (HEDERA_MIRROR_NODE_URL runtime) defaultUrl)
         rest.
Proof.
  intros C. rename factoryContract into factory, defaultUrl into default.
  unfold decoded_pools, bind, DexPlugin.configuration.
  fold (network_of runtime). rewrite C. cbn [option_map snd].
  assert (U : match truthy (HEDERA_MIRROR_NODE_URL runtime) with
              | Some u => Some u
              | None => Some default
              end = Some (str_or (HEDERA_MIRROR_NODE_URL runtime) default))
    by (unfold str_or; now destruct (truthy _)).
  rewrite U. set (url := str_or (HEDERA_MIRROR_NODE_URL runtime) default).
  unfold ret at 1. unfold axios_get.
  assert (Shape : forall (r : outcome (string * list Pool.t)) lookups,
             Forall (token_request url) lookups ->
             exists r' rest,
               (r, (tr ++ (url ++ "/api/v1/contracts/" ++ factory
                             ++ "/results/logs?limit=100")%string :: lookups)%list)
               = (r', (tr ++ rest)%list)
               /\ logs_then_tokens (dex_logs_url url factory) url rest).
  { intros r lookups F. eexists r, (_ :: lookups). split; [reflexivity|].
    exists lookups. now split. }
  destruct (reply w tr _) as [[b|]|e]; cbn [the_object]; unfold ret, throw;
    try (apply Shape; constructor).
  unfold DexPlugin.parsePoolCreationEvents.
  destruct (for_of_requests (DexPlugin.parse_log url) w (token_request url)
              (dex_step_requests url)
              (match j_logs b with Some l => l | None => [] end) []
              (tr ++ [(url ++ "/api/v1/contracts/" ++ factory
                         ++ "/results/logs?limit=100")%string])%list)
    as (r & lookups & -> & F).
  rewrite <- app_assoc. cbn [app].
  destruct r as [pools|e]; now apply Shape.
Qed.

(** The requests of the common part of the two handlers of
    plugin-hedera-dex. *)
Lemma decoded_pools_requests (runtime : Settings) (tr : list string) :
  exists r rest,
    decoded_pools runtime w tr = (r, (tr ++ rest)%list)
    /\ (rest = []
        \/ exists factoryContract defaultUrl,
             DexPlugin.CONTRACT_ADDRESSES (network_of runtime)
             = Some (factoryContract, defaultUrl)
             /\ logs_then_tokens
                  (dex_logs_url
                     (str_or (HEDERA_MIRROR_NODE_URL runtime) defaultUrl)
                     factoryContract)
                  (str_or (HEDERA_MIRROR_NODE_URL runtime) defaultUrl)
                  rest).
Proof.
  destruct (DexPlugin.CONTRACT_ADDRESSES (network_of runtime))
    as [[factory default]|] eqn:C.
  - destruct (decoded_pools_requests_supported runtime factory default tr C)
      as (r & rest & E & L).
    exists r, rest. split; [exact E|]. right. now exists factory, default.
  - rewrite (decoded_pools_refused runtime w tr C).
    eexists _, []. rewrite app_nil_r. split; [reflexivity | now left].
Qed.

(** The requests of [fetchAllPoolsAction]. *)
Lemma agent_requests (runtime : Settings) (callback : Callback)
    (tr : list string) :
  exists r rest,
    AgentPlugin.fetchAllPoolsAction runtime callback w tr
    = (r, (tr ++ rest)%list)
    /\ (rest = []
        \/ exists factoryContract,
             demo_mode_on runtime = false
             /\ AgentPlugin.SAUCERSWAP_V2_FACTORY_CONTRACTS (network_of runtime)
                = Some factoryContract
             /\ logs_then_tokens
                  (agent_logs_url runtime factoryContract)
                  (AgentPlugin.getHederaMirrorNodeUrl (network_of runtime)
                     (HEDERA_MIRROR_NODE_URL runtime))
                  rest).
Proof.
  unfold AgentPlugin.fetchAllPoolsAction, agent_logs_url, demo_mode_on,
    network_of.
  cbv zeta.
  assert (Call : forall (x : list Pool.t * string) tr',
             exists r,
               try_catch
                 (bind (fun (_ : World) tr0 => (Ok x, tr0))
                    (fun '(pools, dataSource) =>
                       _ <- AgentPlugin.call callback ;;
                       ret (Succeeded
                              ("Successfully fetched "
                                 ++ nat_toString (List.length pools)
                                 ++ " pools from SaucerSwap")
                              (List.length pools) (firstn 10 pools)
                              dataSource)))
                 (fun errorMessage =>
                    ret (Failed
                           ("Failed to fetch pools from SaucerSwap: "
                              ++ errorMessage)
                           "FETCH_POOLS_FAILED" errorMessage)) w tr'
               = (r, tr')).
  { intros [pools ds] tr'. unfold try_catch, bind, ret.
    destruct callback; cbn; eauto. }
  destruct (match DEMO_MODE runtime with
            | Some v => String.eqb v "true"
            | None => false
            end).
  { destruct (Call (AgentPlugin.mockPoolsData, "Demo Mode (Mock Data)") tr)
      as [r E].
    exists r, []. rewrite app_nil_r. split; [exact E | now left]. }
  destruct (AgentPlugin.SAUCERSWAP_V2_FACTORY_CONTRACTS _) as [factory|].
  2: { destruct (Call (AgentPlugin.mockPoolsData,
                       "Demo Mode ("
                         ++ str_or (HEDERA_NETWORK runtime) "mainnet"
                         ++ " not supported)") tr) as [r E].
       exists r, []. rewrite app_nil_r. split; [exact E | now left]. }
  set (url := AgentPlugin.getHederaMirrorNodeUrl _ _).
  set (logsUrl := (url ++ "/api/v1/contracts/" ++ factory
                     ++ "/results/logs?limit=20")%string).
  assert (Shape : forall (x : list Pool.t * string) lookups inner,
             inner w tr = (Ok x, (tr ++ logsUrl :: lookups)%list) ->
             Forall (token_request url) lookups ->
             exists r rest,
               try_catch
                 (bind inner
                    (fun '(pools, dataSource) =>
                       _ <- AgentPlugin.call callback ;;
                       ret (Succeeded
                              ("Successfully fetched "
                                 ++ nat_toString (List.length pools)
                                 ++ " pools from SaucerSwap")
                              (List.length pools) (firstn 10 pools)
                              dataSource)))
                 (fun errorMessage =>
                    ret (Failed
                           ("Failed to fetch pools from SaucerSwap: "
                              ++ errorMessage)
                           "FETCH_POOLS_FAILED" errorMessage)) w tr
               = (r, (tr ++ rest)%list)
               /\ (rest = []
                   \/ exists factoryContract,
                        false = false
                        /\ Some factory = Some factoryContract
                        /\ logs_then_tokens
                             (url ++ "/api/v1/contracts/" ++ factoryContract
                                ++ "/results/logs?limit=20") url rest)).
  { intros x lookups inner E F.
    destruct (Call x (tr ++ logsUrl :: lookups)%list) as [r C].
    exists r, (logsUrl :: lookups). split.
    - revert C. unfold try_catch, bind. now rewrite E.
    - right. exists factory. repeat split. exists lookups. now split. }
  fold logsUrl.
  set (inner := try_catch (bind (axios_get logsUrl) _) _).
  assert (I : exists x lookups,
             inner w tr = (Ok x, (tr ++ logsUrl :: lookups)%list)
             /\ Forall (token_request url) lookups).
  { unfold inner, try_catch, bind, axios_get.
    destruct (reply w tr logsUrl) as [[b|]|e]; cbn [the_object];
      unfold ret, throw;
      [| eexists _, []; split; [reflexivity | constructor]..].
    unfold AgentPlugin.parsePoolCreationEvents.
    destruct (for_of_requests (AgentPlugin.parse_log url) w (token_request url)
                (agent_step_requests url)
                (match j_logs b with Some l => l | None => [] end) []
                (tr ++ [logsUrl])%list)
      as (r & lookups & -> & F).
    rewrite <- app_assoc. cbn [app].
    destruct r as [pools|e];
      [|eexists _, lookups; split; [reflexivity | exact F]].
    destruct (List.length pools =? 0)%nat;
      (eexists _, lookups; split; [reflexivity | exact F]). }
  destruct I as (x & lookups & E & F).
  exact (Shape x lookups inner E F).
Qed.

End HandlerRequests.

(** X21.  [LIST_POOLS] and [GET_POOL_INFO] of plugin-hedera-dex make the
    same requests on the same settings, whatever the reply, the tokens
    asked for and the callback: none, or the request for the 100 last
    logs of the factory of the network followed by requests for tokens
    only, all at the mirror node of the settings (the default of the
    network when none is set). *)
Theorem dex_handlers_make_the_same_requests (runtime : Settings)
    (callback callback' : Callback) (symbolA symbolB : string) (w : World)
    (tr : list string) :
  exists rest,
    snd (DexPlugin.listPoolsAction runtime callback w tr) = (tr ++ rest)%list
    /\ snd (DexPlugin.getPoolInfoAction runtime
              (DexPlugin.TokenPair symbolA symbolB) callback' w tr)
       = (tr ++ rest)%list
    /\ (rest = []
        \/ exists factoryContract defaultUrl,
             DexPlugin.CONTRACT_ADDRESSES (network_of runtime)
             = Some (factoryContract, defaultUrl)
             /\ logs_then_tokens
                  (dex_logs_url
                     (str_or (HEDERA_MIRROR_NODE_URL runtime) defaultUrl)
                     factoryContract)
                  (str_or (HEDERA_MIRROR_NODE_URL runtime) defaultUrl)
                  rest).
Proof.
  destruct (decoded_pools_requests w runtime tr) as (r & rest & E & H).
  exists rest. rewrite listPoolsAction_run, getPoolInfoAction_run.
  cbv zeta. rewrite E. split; [|split; [|exact H]].
  - destruct r as [[url allPools]|e]; [|reflexivity].
    destruct (List.length allPools =? 0)%nat; [reflexivity|].
    now destruct callback.
  - destruct r as [[url allPools]|e]; [|reflexivity].
    destruct (DexPlugin.matchingPools _ _ allPools) as [m|e]; [|reflexivity].
    destruct (List.length m =? 0)%nat; [reflexivity|].
    now destruct callback'.
Qed.

(** X22.  [FETCH_ALL_POOLS] and the [/pools] route of [src/plugin.ts]
    make the same requests, whatever the callback of the action: none
    (always so in demo mode, and on a network for which the table gives
    no factory), or the request for the 20 last logs of what the table
    gives for the network, followed by requests for tokens only, all at
    the URL [getHederaMirrorNodeUrl] gives. *)
Theorem agent_handlers_make_the_same_requests (runtime : Settings)
    (callback : Callback) (w : World) (tr : list string) :
  exists rest,
    snd (AgentPlugin.fetchAllPoolsAction runtime callback w tr)
    = (tr ++ rest)%list
    /\ snd (AgentRoute.pools_route runtime w tr) = (tr ++ rest)%list
    /\ (rest = []
        \/ exists factoryContract,
             demo_mode_on runtime = false
             /\ AgentPlugin.SAUCERSWAP_V2_FACTORY_CONTRACTS (network_of runtime)
                = Some factoryContract
             /\ logs_then_tokens
                  (agent_logs_url runtime factoryContract)
                  (AgentPlugin.getHederaMirrorNodeUrl (network_of runtime)
                     (HEDERA_MIRROR_NODE_URL runtime))
                  rest).
Proof.
  destruct (agent_requests w runtime callback tr) as (r & rest & E & H).
  destruct (agent_run runtime callback w tr)
    as (allPools & ds & tr' & A & R & _).
  exists rest. rewrite E, R. cbn [snd]. split; [reflexivity|].
  split; [|exact H].
  rewrite A in E. now injection E as _ ->.
Qed.

(* ================================================================= *)
(** ** The demo mode *)

(** C6, as the code has it.  With [DEMO_MODE] set to [true],
    [FETCH_ALL_POOLS] of [src/plugin.ts] makes no request, whatever its
    callback does, and settles on the demo dataset: it returns it when
    its callback returns, and a failure with the error of the call when
    it has no callback or the callback throws.  [LIST_POOLS] of
    [plugin-hedera-dex] does not read the flag: it does what it does
    without it, and on a network it has addresses for, with the flag set
    to [true], it makes the request for the logs of the factory, whatever
    the mirror node replies. *)
Theorem demo_mode_makes_no_request :
  (forall (runtime : Settings) (callback : Callback) (w : World)
          (tr : list string),
      demo_mode_on runtime = true ->
      AgentPlugin.fetchAllPoolsAction runtime callback w tr
      = (Ok match callback with
            | CallbackReturns =>
                Succeeded "Successfully fetched 1 pools from SaucerSwap" 1
                  AgentPlugin.mockPoolsData "Demo Mode (Mock Data)"
            | NoCallback =>
                Failed ("Failed to fetch pools from SaucerSwap: "
                          ++ "callback is not a function")
                  "FETCH_POOLS_FAILED" "callback is not a function"
            | CallbackThrows e =>
                Failed ("Failed to fetch pools from SaucerSwap: " ++ e)
                  "FETCH_POOLS_FAILED" e
            end, tr))
  /\ (forall (v : option string) (runtime : Settings) (callback : Callback)
             (w : World) (tr : list string),
         DexPlugin.listPoolsAction (with_demo_mode v runtime) callback w tr
         = DexPlugin.listPoolsAction runtime callback w tr)
  /\ (forall (runtime : Settings) (callback : Callback)
             (factoryContract defaultUrl : string) (w : World)
             (tr : list string),
         DexPlugin.CONTRACT_ADDRESSES (network_of runtime)
         = Some (factoryContract, defaultUrl) ->
         exists lookups,
           snd (DexPlugin.listPoolsAction
                  (with_demo_mode (Some "true") runtime) callback w tr)
           = (tr ++ dex_logs_url
                      (str_or (HEDERA_MIRROR_NODE_URL runtime) defaultUrl)
                      factoryContract :: lookups)%list).
Proof.
  split; [|split].
  - intros runtime callback w tr Hd.
    rewrite (agent_demo_mode runtime callback w tr Hd).
    now destruct callback.
  - intros. now rewrite dex_ignores_demo_mode.
  - intros runtime callback factory default w tr C.
    rewrite dex_ignores_demo_mode, listPoolsAction_run. cbv zeta.
    destruct (decoded_pools_requests_supported w runtime factory default tr C)
      as (r & rest & E & lookups & -> & _).
    exists lookups. rewrite E.
    destruct r as [[url allPools]|e]; [|reflexivity].
    destruct (List.length allPools =? 0)%nat; [reflexivity|].
    now destruct callback.
Qed.

Lemma demo_mode_makes_no_request_witness :
  demo_mode_on Sample.testnet_demo = true
  /\ AgentPlugin.fetchAllPoolsAction Sample.testnet_demo CallbackReturns
       Sample.down []
     = (Ok (Succeeded "Successfully fetched 1 pools from SaucerSwap" 1
              AgentPlugin.mockPoolsData "Demo Mode (Mock Data)"), [])
  /\ AgentPlugin.fetchAllPoolsAction Sample.testnet_demo NoCallback
       Sample.down []
     = (Ok (Failed ("Failed to fetch pools from SaucerSwap: "
                      ++ "callback is not a function")
              "FETCH_POOLS_FAILED" "callback is not a function"), [])
  /\ (DexPlugin.CONTRACT_ADDRESSES (network_of Sample.testnet)
      = Some ("0.0.1197038", "https://testnet.mirrornode.hedera.com")
      /\ exists lookups,
          snd (DexPlugin.listPoolsAction
                 (with_demo_mode (Some "true") Sample.testnet)
                 CallbackReturns Sample.down [])
          = ([] ++ dex_logs_url
                     (str_or (HEDERA_MIRROR_NODE_URL Sample.testnet)
                        "https://testnet.mirrornode.hedera.com")
                     "0.0.1197038" :: lookups)%list).
Proof.
  destruct demo_mode_makes_no_request as (A & _ & D).
  split; [reflexivity|]. split; [|split].
  - exact (A Sample.testnet_demo CallbackReturns Sample.down [] eq_refl).
  - exact (A Sample.testnet_demo NoCallback Sample.down [] eq_refl).
  - split; [reflexivity|].
    exact (D Sample.testnet CallbackReturns "0.0.1197038"
             "https://testnet.mirrornode.hedera.com" Sample.down [] eq_refl).
Defined.

(** C6 as stated fails for [LIST_POOLS] of [plugin-hedera-dex]: with
    [DEMO_MODE] set to [true] it still asks the mirror node, three times
    for a batch of one pool, and returns the decoded pool, not the demo
    dataset. *)
Lemma dex_list_pools_has_no_demo_mode :
  let log := creation_log Sample.topic_1234 Sample.topic_5678
               Sample.topic_fee_3000 [] (Some Sample.event_data) in
  DEMO_MODE Sample.testnet_demo = Some "true"
  /\ snd (DexPlugin.listPoolsAction Sample.testnet_demo CallbackReturns
            (Sample.mirror [log]) [])
     = ["https://testnet.mirrornode.hedera.com/api/v1/contracts/0.0.1197038/results/logs?limit=100";
        "https://testnet.mirrornode.hedera.com/api/v1/tokens/0.0.4660";
        "https://testnet.mirrornode.hedera.com/api/v1/tokens/0.0.22136"]
  /\ exists p,
      result_pools
        (fst (DexPlugin.listPoolsAction Sample.testnet_demo CallbackReturns
                (Sample.mirror [log]) []))
      = Some [p]
      /\ Pool.contractId p = "0.0.1026796"
      /\ [p] <> AgentPlugin.mockPoolsData.
Proof.
  intros log. split; [reflexivity|]. split; [vm_compute; reflexivity|].
  eexists. split; [vm_compute; reflexivity|]. split; [reflexivity|].
  discriminate.
Qed.
